(** * optimum.exporters.neuron.__main__ : shape resolution, model
    decomposition and the export/validate orchestration

  A shallow embedding of [src/optimum/exporters/neuron/__main__.py].
  Python dictionaries are mutable objects: they live in a heap and are
  passed around by reference, so that in-place updates ([dict.pop],
  [dict.update], item assignment) are visible to every holder of the
  reference.  Functions of the module are computations in a state and
  exception monad over a [world] made of that heap, the files on disk
  and the log.  Functions imported from sibling modules are taken as
  parameters (class [Collaborators]). *)

From Stdlib Require Import ZArith QArith Qround String Ascii List Lia.
From stdpp Require Import base option gmap strings list fin_maps.

Set Warnings "-register-all,-clear-no-such-hyp".


Local Open Scope Z_scope.
Local Open Scope string_scope.

(** ** A fragment of Python: values, exceptions, strings, dictionaries *)
Module Py.

Definition loc := positive.

(** Values.  Floats are represented by the rational they denote; the
    only float the module can compute itself is [2 ** -1 = 0.5]. *)
Inductive pyval : Type :=
  | VNone
  | VBool (b : bool)
  | VInt (z : Z)
  | VFloat (q : Q)
  | VStr (s : string)
  | VList (l : list pyval)
  | VRef (l : loc).

(** An attribute of an object: missing ([hasattr] is false), present
    and [None], or present with a value. *)
Inductive attr (A : Type) : Type :=
  | Absent
  | IsNone
  | Val (a : A).
Arguments Absent {A}.
Arguments IsNone {A}.
Arguments Val {A} a.

(** [getattr(obj, name, None)] *)
Definition getattr_or_none {A} (a : attr A) : option A :=
  match a with Val x => Some x | _ => None end.

(** [hasattr(obj, name)] *)
Definition hasattr {A} (a : attr A) : bool :=
  match a with Absent => false | _ => true end.

(** Exception classes: the builtins the module can meet, the three
    validation errors of [..error_utils], any further class derived
    directly from [Exception] ([OtherError]), and any class derived from
    one of these in turn ([Derived], a class statement with one base:
    [SSLError] of [requests] is derived from its [ConnectionError]). *)
Inductive exn_class : Type :=
  | BaseException
  | KeyboardInterrupt
  | SystemExit
  | Exception
  | AttributeError
  | LookupError
  | KeyError
  | NameError
  | UnboundLocalError
  | ArithmeticError
  | ZeroDivisionError
  | TypeError
  | ValueError
  | RuntimeError
  | ShapeError
  | AtolError
  | OutputMatchError
  | OtherError (name : string)
  | Derived (name : string) (base : exn_class).

(** Modelled from the spec: [..error_utils], which declares [ShapeError],
    [AtolError] and [OutputMatchError], is not part of the sources; the
    spec lists the shape error, the tolerance error and the output-set
    error as three separate error kinds, taken here as three unrelated
    classes derived from [Exception].  The other classes have the direct
    base class they have among the builtins, a derived class the base it
    names. *)
Definition base_class (c : exn_class) : option exn_class :=
  match c with
  | BaseException => None
  | KeyboardInterrupt | SystemExit | Exception => Some BaseException
  | AttributeError | LookupError | NameError | ArithmeticError
  | TypeError | ValueError | RuntimeError
  | ShapeError | AtolError | OutputMatchError | OtherError _ => Some Exception
  | KeyError => Some LookupError
  | UnboundLocalError => Some NameError
  | ZeroDivisionError => Some ArithmeticError
  | Derived _ base => Some base
  end.

Global Instance exn_class_eq_dec : EqDecision exn_class.
Proof. solve_decision. Defined.

(** How many class statements lead from a class to a builtin or to a
    direct child of [Exception]. *)
Fixpoint derivations (c : exn_class) : nat :=
  match c with
  | Derived _ base => S (derivations base)
  | _ => O
  end.

Fixpoint issubclass_fuel (n : nat) (c d : exn_class) : bool :=
  if decide (c = d) then true
  else match n with
       | O => false
       | S n' => match base_class c with
                 | Some b => issubclass_fuel n' b d
                 | None => false
                 end
       end.

(** The builtin hierarchy has depth 3, and every derivation adds one
    level. *)
Definition issubclass (c d : exn_class) : bool :=
  issubclass_fuel (4 + derivations c) c d.

(** What an exception says.  Sets rendered by an f-string have no fixed
    order, so the message of the missing-shape error keeps the two sets
    it interpolates. *)
Inductive message : Type :=
  | Msg (s : string)
  | MsgKey (k : string)
  | MsgNoAttribute (name : string)
  | MsgUnbound (name : string)
  | MsgMandatoryShapes (mandatory not_given : gset string).

Record exn : Type := mk_exn { exn_cls : exn_class; exn_msg : message }.

(** [isinstance(e, C)], as tested by an [except C] clause. *)
Definition isinstance (e : exn) (c : exn_class) : bool := issubclass (exn_cls e) c.

Inductive result (A : Type) : Type :=
  | Raise (e : exn)
  | Return (a : A).
Arguments Raise {A} e.
Arguments Return {A} a.

(** *** Numbers *)

(** [bool] is a subclass of [int]. *)
Definition as_int (v : pyval) : option Z :=
  match v with
  | VInt z => Some z
  | VBool b => Some (if b then 1 else 0)
  | _ => None
  end.

Definition as_number (v : pyval) : option (Z + Q) :=
  match v with
  | VFloat q => Some (inr q)
  | _ => inl <$> as_int v
  end.

(** Truth value of a value.  For a reference this is the truth value of
    a non-empty container; the module never tests a dictionary. *)
Definition truthy (v : pyval) : bool :=
  match v with
  | VNone => false
  | VBool b => b
  | VInt z => negb (Z.eqb z 0)
  | VFloat q => negb (Qeq_bool q 0)
  | VStr s => negb (String.eqb s "")
  | VList l => match l with [] => false | _ => true end
  | VRef _ => true
  end.

(** [a or b] *)
Definition py_or (a b : pyval) : pyval := if truthy a then a else b.

(** [2 ** e] for an integer [e]: an [int] when [e >= 0], the float
    [1 / 2 ** -e] otherwise (exact as long as it does not underflow; the
    module only ever takes [e >= -1]). *)
Definition pow2 (e : Z) : pyval :=
  if Z.leb 0 e then VInt (2 ^ e) else VFloat (1 # Z.to_pos (2 ^ (- e))).

(** [a // b].  [Z.div] rounds towards minus infinity, as [//] does.  With
    a float operand the quotient is taken on the exact values: that is
    the interpreter's result as long as every integer operand converts
    to a float exactly (up to 2^53 in magnitude) and the quotient is a
    float itself, as it is for the divisor 0.5, the only float the module
    divides by.  Beyond that bound the interpreter rounds the integer
    before it divides, and from 2^1024 it raises [OverflowError]; the
    results below are not meant for such operands. *)
Definition floordiv (a b : pyval) : result pyval :=
  match as_number a, as_number b with
  | Some (inl x), Some (inl y) =>
      if Z.eqb y 0 then Raise (mk_exn ZeroDivisionError (Msg "integer division or modulo by zero"))
      else Return (VInt (x / y))
  | Some x, Some y =>
      let qx := match x with inl z => inject_Z z | inr q => q end in
      let qy := match y with inl z => inject_Z z | inr q => q end in
      if Qeq_bool qy 0 then Raise (mk_exn ZeroDivisionError (Msg "float floor division by zero"))
      else Return (VFloat (inject_Z (Qfloor (qx / qy))))
  | _, _ => Raise (mk_exn TypeError (Msg "unsupported operand type(s) for //"))
  end.

(** *** Strings *)

(** [sub in s] *)
Fixpoint contains (sub s : string) : bool :=
  if String.prefix sub s then true
  else match s with
       | EmptyString => false
       | String _ s' => contains sub s'
       end.

Definition lower_ascii (c : ascii) : ascii :=
  let n := nat_of_ascii c in
  if (65 <=? n)%nat && (n <=? 90)%nat then ascii_of_nat (n + 32) else c.

(** [s.lower()] on ASCII text. *)
Fixpoint lower (s : string) : string :=
  match s with
  | EmptyString => EmptyString
  | String c s' => String (lower_ascii c) (lower s')
  end.

(** [s.split(sep)] for a one-character separator: the pieces between
    the separators, of which there is always at least one. *)
Fixpoint split_on (sep : ascii) (s : string) : string * list string :=
  match s with
  | EmptyString => (EmptyString, [])
  | String c s' =>
      let '(hd, tl) := split_on sep s' in
      if Ascii.eqb c sep then (EmptyString, hd :: tl) else (String c hd, tl)
  end.

Definition split (sep : ascii) (s : string) : list string :=
  let '(hd, tl) := split_on sep s in hd :: tl.

(** [l[-1]] of a list known to be non-empty by construction. *)
Definition last_piece (l : list string) : string := List.last l EmptyString.

Fixpoint ends_with_slash (s : string) : bool :=
  match s with
  | EmptyString => false
  | String c EmptyString => Ascii.eqb c "/"
  | String _ s' => ends_with_slash s'
  end.

(** [os.path.join(a, b)] on a POSIX system. *)
Definition path_join (a b : string) : string :=
  if String.prefix "/" b then b
  else if String.eqb a "" || ends_with_slash a then a ++ b
  else a ++ "/" ++ b.

(** [str(i)] for the index of a [range]. *)
Definition digit_of (n : nat) : ascii := ascii_of_nat (48 + n).

Fixpoint str_of_nat_fuel (fuel n : nat) (acc : string) : string :=
  match fuel with
  | O => acc
  | S fuel' =>
      let acc' := String (digit_of (n mod 10)) acc in
      match (n / 10)%nat with
      | O => acc'
      | q => str_of_nat_fuel fuel' q acc'
      end
  end.

Definition str_of_nat (n : nat) : string := str_of_nat_fuel (S n) n EmptyString.

(** *** The world and the monad of computations *)

Inductive log_level : Type := INFO | WARNING | ERROR.

(** The three messages [main_export] logs; each interpolates the output
    directory, the last two the exception caught. *)
Inductive log_text : Type :=
  | ExportSucceeded (output : string)
  | SucceededWithWarning (e : exn) (output : string)
  | ErrorOccurred (e : exn) (output : string).

Record world : Type := mk_world {
  heap : gmap loc (gmap string pyval);
  disk : gset string;
  log : list (log_level * log_text)
}.

Definition M (A : Type) : Type := world -> result A * world.

Definition ret {A} (a : A) : M A := fun w => (Return a, w).

Definition raise {A} (c : exn_class) (m : message) : M A :=
  fun w => (Raise (mk_exn c m), w).

Definition reraise {A} (e : exn) : M A := fun w => (Raise e, w).

Definition bind {A B} (m : M A) (k : A -> M B) : M B :=
  fun w => match m w with
           | (Return a, w') => k a w'
           | (Raise e, w') => (Raise e, w')
           end.

Definition lift {A} (r : result A) : M A := fun w => (r, w).

(** [try: body  except ...: handler] *)
Definition try_except {A} (body : M A) (handler : exn -> M A) : M A :=
  fun w => match body w with
           | (Return a, w') => (Return a, w')
           | (Raise e, w') => handler e w'
           end.

Definition logger (lvl : log_level) (t : log_text) : M unit :=
  fun w => (Return tt, mk_world (heap w) (disk w) (log w ++ [(lvl, t)])).

Declare Scope py_scope.
Delimit Scope py_scope with py.
Notation "'let!' x ':=' c 'in' k" := (bind c (fun x => k))
  (at level 10, x pattern, c at level 100, k at level 200) : py_scope.
Notation "c ';;' k" := (bind c (fun _ => k))
  (at level 100, k at level 200, right associativity) : py_scope.
Local Open Scope py_scope.

(** Reading a local variable: [None] stands for a name that no
    assignment has bound on the path taken. *)
Definition read_local {A} (name : string) (v : option A) : M A :=
  match v with
  | Some a => ret a
  | None => raise UnboundLocalError (MsgUnbound name)
  end.

(** [obj.name] followed by a further attribute access: fails when the
    attribute is missing and when it is [None]. *)
Definition component {A} (name : string) (a : attr A) : M A :=
  match a with
  | Val x => ret x
  | _ => raise AttributeError (MsgNoAttribute name)
  end.

(** [obj.name], to be compared with [None]. *)
Definition attribute {A} (name : string) (a : attr A) : M (option A) :=
  match a with
  | Absent => raise AttributeError (MsgNoAttribute name)
  | IsNone => ret None
  | Val x => ret (Some x)
  end.

(** *** Dictionaries in the heap *)

(** The dictionary a value refers to; [fail] is raised on anything that
    is not one.  A reference held by a program always designates an
    object: the case of an unallocated location is there for totality. *)
Definition the_dict (fail : exn_class) (v : pyval) : M (loc * gmap string pyval) :=
  fun w => match v with
           | VRef l => match heap w !! l with
                       | Some d => (Return (l, d), w)
                       | None => (Raise (mk_exn fail (Msg "not a dict")), w)
                       end
           | _ => (Raise (mk_exn fail (Msg "not a dict")), w)
           end.

Definition with_heap (h : gmap loc (gmap string pyval)) (w : world) : world :=
  mk_world h (disk w) (log w).

Definition store (l : loc) (d : gmap string pyval) : M unit :=
  fun w => (Return tt, with_heap (<[l := d]> (heap w)) w).

(** [{...}]: a new dictionary object. *)
Definition new_dict (d : gmap string pyval) : M pyval :=
  fun w => let l := fresh (dom (heap w)) in
           (Return (VRef l), with_heap (<[l := d]> (heap w)) w).

(** [v[k]] *)
Definition getitem (v : pyval) (k : string) : M pyval :=
  let! (_, d) := the_dict TypeError v in
  match d !! k with
  | Some x => ret x
  | None => raise KeyError (MsgKey k)
  end.

(** [v[k] = x] *)
Definition setitem (v : pyval) (k : string) (x : pyval) : M unit :=
  let! (l, d) := the_dict TypeError v in
  store l (<[k := x]> d).

(** [v.get(k, default)] *)
Definition get_default (v : pyval) (k : string) (default : pyval) : M pyval :=
  let! (_, d) := the_dict AttributeError v in
  ret (match d !! k with Some x => x | None => default end).

(** [v.pop(k)] *)
Definition pop (v : pyval) (k : string) : M pyval :=
  let! (l, d) := the_dict AttributeError v in
  match d !! k with
  | Some x => store l (delete k d) ;; ret x
  | None => raise KeyError (MsgKey k)
  end.

(** [v.keys()] *)
Definition keys (v : pyval) : M (gset string) :=
  let! (_, d) := the_dict AttributeError v in
  ret (dom d).

Definition update_items (d : gmap string pyval) (items : list (string * pyval)) : gmap string pyval :=
  fold_left (fun acc kv => <[fst kv := snd kv]> acc) items d.

(** [v.update({k1: x1, ...})] *)
Definition update (v : pyval) (items : list (string * pyval)) : M unit :=
  let! (l, d) := the_dict AttributeError v in
  store l (update_items d items).

(** [{name: d[name] for name in names}], iterating over the set in some
    order. *)
Definition comprehension_over (names : list string) (d : gmap string pyval)
  : result (gmap string pyval) :=
  fold_right (fun name acc =>
                match acc, d !! name with
                | Return m, Some x => Return (<[name := x]> m)
                | Raise e, _ => Raise e
                | Return _, None => Raise (mk_exn KeyError (MsgKey name))
                end)
             (Return ∅) names.

Definition comprehension (names : gset string) (d : gmap string pyval)
  : result (gmap string pyval) :=
  comprehension_over (elements names) d.

End Py.

Import Py.
Local Open Scope py_scope.

(** ** The objects the exporter inspects *)
Module Models.

(** [model.tokenizer], [model.tokenizer_2] *)
Record Tokenizer : Type := { model_max_length : Z }.

(** [model.unet.config] *)
Record UNet : Type := { unet_in_channels : Z }.

(** [model.vae.config] *)
Record Vae : Type := {
  vae_in_channels : Z;
  latent_channels : Z;
  block_out_channels : list Z
}.

(** [model.text_encoder.config] *)
Record TextEncoder : Type := { hidden_size : Z }.

Record ControlNet : Type := { controlnet_id : string }.

(** [model.config]: whether it is a [PretrainedConfig], its
    [is_encoder_decoder] attribute and its [model_type] (when it has one). *)
Record Config : Type := {
  is_pretrained_config : bool;
  is_encoder_decoder : attr bool;
  model_type : option string
}.

(** A loaded model or pipeline, by the attributes the module reads. *)
Record Model : Type := {
  config : Config;
  name_or_path : attr string;
  tokenizer : attr Tokenizer;
  tokenizer_2 : attr Tokenizer;
  scheduler : attr unit;
  feature_extractor : attr unit;
  text_encoder : attr TextEncoder;
  text_encoder_2 : attr TextEncoder;
  unet : attr UNet;
  vae : attr Vae
}.

End Models.
Import Models.

(** ** Shape Resolver *)
Module ShapeResolver.

(** [normalize_sentence_transformers_input_shapes] (lines 139-151).
    [args] is the dictionary itself, or the [__dict__] of the namespace
    ([vars]): one object either way. *)
Definition normalize_sentence_transformers_input_shapes (args : pyval) : M pyval :=
  let! model := get_default args "model" (VStr "") in
  let! lowered :=
    match model with
    | VStr s => ret (lower s)
    | _ => raise AttributeError (MsgNoAttribute "lower")
    end in
  let mandatory_axes : gset string :=
    if contains "clip" lowered
    then {[ "text_batch_size"; "image_batch_size"; "sequence_length";
            "num_channels"; "width"; "height" ]}
    else {[ "batch_size"; "sequence_length" ]} in
  let! given := keys args in
  if decide (mandatory_axes ⊆ given) then
    let! (_, d) := the_dict TypeError args in
    let! mandatory_shapes := lift (comprehension mandatory_axes d) in
    new_dict mandatory_shapes
  else
    raise AttributeError (MsgMandatoryShapes mandatory_axes (mandatory_axes ∖ given)).

(** The axes [normalize_stable_diffusion_input_shapes] takes out of the
    builder's argument names (lines 191-198). *)
Definition derived_axes : gset string :=
  {[ "sequence_length"; "unet_num_channels"; "vae_encoder_num_channels";
     "vae_decoder_num_channels"; "num_images_per_prompt";
     "do_classifier_free_guidance" ]}.

(** A dictionary of dictionaries built by a callee: every inner
    dictionary and the outer one are new objects. *)
Fixpoint alloc_components (l : list (string * gmap string pyval)) (acc : gmap string pyval)
  : M (gmap string pyval) :=
  match l with
  | [] => ret acc
  | (name, d) :: l' =>
      let! r := new_dict d in
      alloc_components l' (<[name := r]> acc)
  end.

Definition alloc_nested (m : gmap string (gmap string pyval)) : M pyval :=
  let! outer := alloc_components (map_to_list m) ∅ in
  new_dict outer.

Section normalize_stable_diffusion.

(** [build_stable_diffusion_components_mandatory_shapes] is defined in
    [.utils]: its argument names and the contents of the dictionary it
    builds from the keyword arguments are parameters. *)
Variable build_arg_names : gset string.
Variable build_stable_diffusion_components_mandatory_shapes :
  pyval -> gmap string pyval -> result (gmap string (gmap string pyval)).

(** [normalize_stable_diffusion_input_shapes] (lines 184-208) *)
Definition normalize_stable_diffusion_input_shapes (args : pyval) : M pyval :=
  let! do_classifier_free_guidance := pop args "do_classifier_free_guidance" in
  let mandatory_axes := build_arg_names ∖ derived_axes in
  let! given := keys args in
  if decide (mandatory_axes ⊆ given) then
    let! (_, d) := the_dict TypeError args in
    let! mandatory_shapes := lift (comprehension mandatory_axes d) in
    let! num_images_per_prompt := get_default args "num_images_per_prompt" (VInt 1) in
    let mandatory_shapes := <["num_images_per_prompt" := num_images_per_prompt]> mandatory_shapes in
    let! input_shapes :=
      lift (build_stable_diffusion_components_mandatory_shapes
              do_classifier_free_guidance mandatory_shapes) in
    alloc_nested input_shapes
  else
    raise AttributeError (MsgMandatoryShapes mandatory_axes (mandatory_axes ∖ given)).

End normalize_stable_diffusion.

(** [2 ** (len(model.vae.config.block_out_channels) - 1) or 8] (line 225) *)
Definition vae_scale_factor (v : Vae) : pyval :=
  py_or (pow2 (Z.of_nat (length (block_out_channels v)) - 1)) (VInt 8).

(** [if controlnets:] on an optional list *)
Definition some_controlnets (controlnets : option (list ControlNet)) : bool :=
  match controlnets with
  | Some (_ :: _) => true
  | _ => false
  end.

(** [infer_stable_diffusion_shapes_from_diffusers] (lines 211-262) *)
Definition infer_stable_diffusion_shapes_from_diffusers
    (input_shapes : pyval) (model : Model) (controlnets : option (list ControlNet)) : M pyval :=
  let! tok := attribute "tokenizer" (tokenizer model) in
  let! sequence_length :=
    match tok with
    | Some t => ret (model_max_length t)
    | None =>
        match tokenizer_2 model with
        | Val t2 => ret (model_max_length t2)
        | _ => raise AttributeError (Msg "Cannot infer sequence_length as there is no tokenizer as attribute.")
        end
    end in
  let! the_unet := component "unet" (unet model) in
  let unet_num_channels := unet_in_channels the_unet in
  let! the_vae := component "vae" (vae model) in
  let vae_encoder_num_channels := vae_in_channels the_vae in
  let vae_decoder_num_channels := latent_channels the_vae in
  let scale := vae_scale_factor the_vae in
  let! u := getitem input_shapes "unet" in
  let! height := getitem u "height" in
  let! scaled_height := lift (floordiv height scale) in
  let! u := getitem input_shapes "unet" in
  let! width := getitem u "width" in
  let! scaled_width := lift (floordiv width scale) in
  let! te := getitem input_shapes "text_encoder" in
  update te [("sequence_length", VInt sequence_length)] ;;
  (if hasattr (text_encoder_2 model) then
     let! te := getitem input_shapes "text_encoder" in
     setitem input_shapes "text_encoder_2" te
   else ret tt) ;;
  let! u := getitem input_shapes "unet" in
  update u [("sequence_length", VInt sequence_length);
            ("num_channels", VInt unet_num_channels);
            ("height", scaled_height);
            ("width", scaled_width)] ;;
  (if some_controlnets controlnets then
     let! u := getitem input_shapes "unet" in
     setitem u "vae_scale_factor" scale
   else ret tt) ;;
  let! ve := getitem input_shapes "vae_encoder" in
  update ve [("num_channels", VInt vae_encoder_num_channels);
             ("height", height);
             ("width", width)] ;;
  let! vd := getitem input_shapes "vae_decoder" in
  update vd [("num_channels", VInt vae_decoder_num_channels);
             ("height", scaled_height);
             ("width", scaled_width)] ;;
  (if some_controlnets controlnets then
     let! u := getitem input_shapes "unet" in
     let! batch_size := getitem u "batch_size" in
     let! the_text_encoder := component "text_encoder" (text_encoder model) in
     let! c := new_dict (update_items ∅
                 [("batch_size", batch_size);
                  ("sequence_length", VInt sequence_length);
                  ("num_channels", VInt unet_num_channels);
                  ("height", scaled_height);
                  ("width", scaled_width);
                  ("vae_scale_factor", scale);
                  ("encoder_hidden_size", VInt (hidden_size the_text_encoder))]) in
     setitem input_shapes "controlnet" c
   else ret tt) ;;
  ret input_shapes.

End ShapeResolver.

(** ** Model Decomposer *)
Module Decomposer.

(** Modelled from the spec: the names come from [...neuron.utils], which
    is not part of the sources.  The spec names the two halves of an
    encoder-decoder model "encoder" and "decoder", the artifact file
    "model.neuron", and the pipeline components text_encoder, unet,
    vae_encoder and vae_decoder; the second text encoder and the
    conditioning networks are named after the same pattern. *)
Definition ENCODER_NAME : string := "encoder".
Definition DECODER_NAME : string := "decoder".
Definition NEURON_FILE_NAME : string := "model.neuron".
Definition DIFFUSION_MODEL_TEXT_ENCODER_NAME : string := "text_encoder".
Definition DIFFUSION_MODEL_TEXT_ENCODER_2_NAME : string := "text_encoder_2".
Definition DIFFUSION_MODEL_UNET_NAME : string := "unet".
Definition DIFFUSION_MODEL_VAE_ENCODER_NAME : string := "vae_encoder".
Definition DIFFUSION_MODEL_VAE_DECODER_NAME : string := "vae_decoder".
Definition DIFFUSION_MODEL_CONTROLNET_NAME : string := "controlnet".

(** What a submodel entry traces: the model itself or one of its parts. *)
Inductive Traceable : Type :=
  | Whole (m : Model)
  | Part (name : string) (m : Model).

(** The functions and objects of sibling modules: the compiler probes,
    [TasksManager], [.utils], [.convert], the savers.  Each is an
    arbitrary computation over the world. *)
Class Collaborators : Type := {
  NeuronConfig : Type;
  ConfigConstructor : Type;
  is_neuron_available : bool;
  is_neuronx_available : bool;
  check_compiler_compatibility_for_stable_diffusion : M unit;
  replace_stable_diffusion_submodels : Model -> option (gmap string pyval) -> M Model;
  save_pretrained : string -> string -> M unit;
  save_config : Model -> string -> M unit;
  maybe_save_preprocessors : option string -> string -> string -> M unit;
  get_exporter_config_constructor : Model -> string -> option string -> M ConfigConstructor;
  check_mandatory_input_shapes : ConfigConstructor -> string -> pyval -> M pyval;
  construct_neuron_config : ConfigConstructor -> Config -> bool -> pyval -> M NeuronConfig;
  get_encoder_decoder_models_for_export :
    Model -> string -> bool -> pyval -> bool -> bool ->
    M (gmap string (Traceable * NeuronConfig));
  get_stable_diffusion_models_for_export :
    Model -> string -> pyval -> pyval -> pyval -> pyval -> bool -> bool ->
    pyval -> pyval -> pyval -> pyval -> option (list ControlNet) -> pyval ->
    M (gmap string (Traceable * NeuronConfig));
  infer_library_from_model : string -> string -> option string -> M string;
  get_model_from_task : string -> string -> string -> string -> option string ->
    pyval -> bool -> bool -> bool -> string -> M Model;
  load_controlnets : pyval -> M (list ControlNet);
  map_from_synonym : string -> M string;
  ensure_parent_directory : string -> M unit;
  export_models :
    gmap string (Traceable * NeuronConfig) -> string -> bool -> option string ->
    bool -> pyval -> gmap string string -> gmap string pyval -> string ->
    M (gmap string (list string));
  validate_models_outputs :
    gmap string (Traceable * NeuronConfig) -> gmap string (list string) ->
    string -> pyval -> gmap string string -> M unit
}.

(** [_normalize_lora_params] (lines 333-350) *)
Definition is_str (v : pyval) : bool := match v with VStr _ => true | _ => false end.
Definition is_float (v : pyval) : bool := match v with VFloat _ => true | _ => false end.

Definition _normalize_lora_params
    (lora_model_ids lora_weight_names lora_adapter_names lora_scales : pyval)
  : pyval * pyval * pyval * pyval :=
  let lora_model_ids := if is_str lora_model_ids then VList [lora_model_ids] else lora_model_ids in
  let lora_weight_names := if is_str lora_weight_names then VList [lora_weight_names] else lora_weight_names in
  let lora_adapter_names := if is_str lora_adapter_names then VList [lora_adapter_names] else lora_adapter_names in
  let lora_scales := if is_float lora_scales then VList [lora_scales] else lora_scales in
  (lora_model_ids, lora_weight_names, lora_adapter_names, lora_scales).

(** [name in task] with [name = "stable-diffusion"] *)
Definition is_stable_diffusion_task (task : string) : bool := contains "stable-diffusion" task.

(** Truth value of an optional string: [None] and [""] are false. *)
Definition str_truthy (s : option string) : bool :=
  match s with
  | Some x => negb (String.eqb x "")
  | None => false
  end.

(** [model.config.model_type] *)
Definition model_config_model_type (model : Model) : M string :=
  match model_type (config model) with
  | Some t => ret t
  | None => raise AttributeError (MsgNoAttribute "model_type")
  end.

(** The entries added by the loop over [range(len(controlnets))]
    (lines 424-426). *)
Fixpoint controlnet_names (indices : list nat) (names : gmap string string) : gmap string string :=
  match indices with
  | [] => names
  | idx :: rest =>
      let controlnet_name := DIFFUSION_MODEL_CONTROLNET_NAME ++ "_" ++ str_of_nat idx in
      controlnet_names rest (<[controlnet_name := path_join controlnet_name NEURON_FILE_NAME]> names)
  end.

Section decomposition.
Context `{Collaborators}.

(** [_get_submodels_and_neuron_configs_for_stable_diffusion] (lines 353-431) *)
Definition _get_submodels_and_neuron_configs_for_stable_diffusion
    (model : Model) (input_shapes : pyval) (task output : string)
    (dynamic_batch_size : bool) (submodels : option (gmap string pyval))
    (output_hidden_states : bool)
    (lora_model_ids lora_weight_names lora_adapter_names lora_scales : pyval)
    (controlnets : option (list ControlNet))
  : M (gmap string (Traceable * NeuronConfig) * gmap string string) :=
  check_compiler_compatibility_for_stable_diffusion ;;
  let! model := replace_stable_diffusion_submodels model submodels in
  if is_neuron_available then
    raise RuntimeError (Msg "Stable diffusion export is not supported by neuron-cc on inf1, please use neuronx-cc on either inf2/trn1 instead.")
  else
  let! input_shapes :=
    ShapeResolver.infer_stable_diffusion_shapes_from_diffusers input_shapes model controlnets in
  (component "scheduler" (scheduler model) ;;
   save_pretrained "scheduler" (path_join output "scheduler")) ;;
  (if getattr_or_none (tokenizer model) is Some _
   then save_pretrained "tokenizer" (path_join output "tokenizer") else ret tt) ;;
  (if getattr_or_none (tokenizer_2 model) is Some _
   then save_pretrained "tokenizer_2" (path_join output "tokenizer_2") else ret tt) ;;
  (if getattr_or_none (feature_extractor model) is Some _
   then save_pretrained "feature_extractor" (path_join output "feature_extractor") else ret tt) ;;
  save_config model output ;;
  let '(lora_model_ids, lora_weight_names, lora_adapter_names, lora_scales) :=
    _normalize_lora_params lora_model_ids lora_weight_names lora_adapter_names lora_scales in
  let! text_encoder_input_shapes := getitem input_shapes "text_encoder" in
  let! unet_input_shapes := getitem input_shapes "unet" in
  let! vae_encoder_input_shapes := getitem input_shapes "vae_encoder" in
  let! vae_decoder_input_shapes := getitem input_shapes "vae_decoder" in
  let! controlnet_input_shapes := get_default input_shapes "controlnet" VNone in
  let! models_and_neuron_configs :=
    get_stable_diffusion_models_for_export model task
      text_encoder_input_shapes unet_input_shapes
      vae_encoder_input_shapes vae_decoder_input_shapes
      dynamic_batch_size output_hidden_states
      lora_model_ids lora_weight_names lora_adapter_names lora_scales
      controlnets controlnet_input_shapes in
  let output_model_names : gmap string string :=
    <[DIFFUSION_MODEL_VAE_DECODER_NAME := path_join DIFFUSION_MODEL_VAE_DECODER_NAME NEURON_FILE_NAME]>
    (<[DIFFUSION_MODEL_VAE_ENCODER_NAME := path_join DIFFUSION_MODEL_VAE_ENCODER_NAME NEURON_FILE_NAME]>
    (<[DIFFUSION_MODEL_UNET_NAME := path_join DIFFUSION_MODEL_UNET_NAME NEURON_FILE_NAME]> ∅)) in
  let output_model_names :=
    if getattr_or_none (text_encoder model) is Some _
    then <[DIFFUSION_MODEL_TEXT_ENCODER_NAME :=
             path_join DIFFUSION_MODEL_TEXT_ENCODER_NAME NEURON_FILE_NAME]> output_model_names
    else output_model_names in
  let output_model_names :=
    if getattr_or_none (text_encoder_2 model) is Some _
    then <[DIFFUSION_MODEL_TEXT_ENCODER_2_NAME :=
             path_join DIFFUSION_MODEL_TEXT_ENCODER_2_NAME NEURON_FILE_NAME]> output_model_names
    else output_model_names in
  let output_model_names :=
    match controlnets with
    | Some (c :: cs) => controlnet_names (seq 0 (length (c :: cs))) output_model_names
    | _ => output_model_names
    end in
  ret (models_and_neuron_configs, output_model_names).

(** [_get_submodels_and_neuron_configs_for_encoder_decoder] (lines 434-463) *)
Definition _get_submodels_and_neuron_configs_for_encoder_decoder
    (model : Model) (input_shapes : pyval) (task output : string)
    (dynamic_batch_size : bool) (model_name_or_path : option string)
    (output_attentions output_hidden_states : bool)
  : M (gmap string (Traceable * NeuronConfig) * gmap string string) :=
  if is_neuron_available then
    raise RuntimeError (Msg "Encoder-decoder models export is not supported by neuron-cc on inf1, please use neuronx-cc on either inf2/trn1 instead.")
  else
  let! models_and_neuron_configs :=
    get_encoder_decoder_models_for_export model task dynamic_batch_size input_shapes
      output_attentions output_hidden_states in
  let output_model_names : gmap string string :=
    <[DECODER_NAME := path_join DECODER_NAME NEURON_FILE_NAME]>
    (<[ENCODER_NAME := path_join ENCODER_NAME NEURON_FILE_NAME]> ∅) in
  maybe_save_preprocessors model_name_or_path output "" ;;
  ret (models_and_neuron_configs, output_model_names).

(** [getattr(model.config, "is_encoder_decoder", False)
     if isinstance(model.config, PretrainedConfig) else False] *)
Definition model_is_encoder_decoder (model : Model) : bool :=
  if is_pretrained_config (config model)
  then match is_encoder_decoder (config model) with
       | Val b => b
       | _ => false
       end
  else false.

(** [get_submodels_and_neuron_configs] (lines 265-330) *)
Definition get_submodels_and_neuron_configs
    (model : Model) (input_shapes : pyval) (task output : string)
    (library_name : option string) (subfolder : string)
    (dynamic_batch_size : bool) (model_name_or_path : option string)
    (submodels : option (gmap string pyval))
    (output_attentions output_hidden_states : bool)
    (lora_model_ids lora_weight_names lora_adapter_names lora_scales : pyval)
    (controlnets : option (list ControlNet))
  : M (gmap string (Traceable * NeuronConfig) * gmap string string) :=
  let is_stable_diffusion := is_stable_diffusion_task task in
  let is_encoder_decoder := model_is_encoder_decoder model in
  if is_stable_diffusion then
    if output_attentions then
      raise ValueError (Msg "`output_attentions`is not supported by the task yet.")
    else
      _get_submodels_and_neuron_configs_for_stable_diffusion
        model input_shapes task output dynamic_batch_size submodels output_hidden_states
        lora_model_ids lora_weight_names lora_adapter_names lora_scales controlnets
  else if is_encoder_decoder then
    _get_submodels_and_neuron_configs_for_encoder_decoder
      model input_shapes task output dynamic_batch_size model_name_or_path
      output_attentions output_hidden_states
  else
    if output_attentions || output_hidden_states then
      raise ValueError (Msg "`output_attentions` and `output_hidden_states` are not supported by the task yet.")
    else
      let! neuron_config_constructor := get_exporter_config_constructor model task library_name in
      let! input_shapes := check_mandatory_input_shapes neuron_config_constructor task input_shapes in
      let! neuron_config :=
        construct_neuron_config neuron_config_constructor (config model) dynamic_batch_size input_shapes in
      let model_name :=
        if str_truthy (getattr_or_none (name_or_path model))
        then getattr_or_none (name_or_path model) else model_name_or_path in
      let! model_name :=
        match model_name with
        | Some name => if str_truthy model_name then ret (last_piece (split "/"%char name))
                       else model_config_model_type model
        | None => model_config_model_type model
        end in
      let output_model_names : gmap string string := {[ model_name := "model.neuron" ]} in
      let models_and_neuron_configs : gmap string (Traceable * NeuronConfig) :=
        {[ model_name := (Whole model, neuron_config) ]} in
      maybe_save_preprocessors model_name_or_path output subfolder ;;
      ret (models_and_neuron_configs, output_model_names).

End decomposition.
End Decomposer.

Import Decomposer.

(** ** Export Orchestrator *)
Module Orchestrator.
Section orchestration.
Context `{Collaborators}.

(** [load_models_and_neuron_configs] (lines 466-531).  [input_shapes] are
    the extra keyword arguments, gathered into a new dictionary on entry;
    the local [controlnets] is bound by the assignment of line 510 only. *)
Definition load_models_and_neuron_configs
    (model_name_or_path output : string) (model : option Model) (task : string)
    (dynamic_batch_size : bool) (cache_dir : option string) (trust_remote_code : bool)
    (subfolder revision : string) (force_download local_files_only : bool)
    (use_auth_token : pyval) (submodels : option (gmap string pyval))
    (lora_model_ids lora_weight_names lora_adapter_names lora_scales : pyval)
    (controlnet_model_ids : pyval)
    (output_attentions output_hidden_states : bool) (library_name : option string)
    (input_shapes : gmap string pyval)
  : M (gmap string (Traceable * NeuronConfig) * gmap string string) :=
  let! input_shapes := new_dict input_shapes in
  let! library_name := infer_library_from_model model_name_or_path subfolder library_name in
  let! model :=
    match model with
    | None => get_model_from_task task model_name_or_path subfolder revision cache_dir
                use_auth_token local_files_only force_download trust_remote_code library_name
    | Some m => ret m
    end in
  let! controlnets_local :=
    if truthy controlnet_model_ids
    then let! loaded := load_controlnets controlnet_model_ids in ret (Some loaded)
    else ret None in
  let! controlnets := read_local "controlnets" controlnets_local in
  get_submodels_and_neuron_configs model input_shapes task output (Some library_name)
    subfolder dynamic_batch_size (Some model_name_or_path) submodels
    output_attentions output_hidden_states
    lora_model_ids lora_weight_names lora_adapter_names lora_scales (Some controlnets).

(** The [except] clauses of [main_export] (lines 629-645), first match
    first. *)
Definition validation_handler (output : string) (e : exn) : M unit :=
  if isinstance e ShapeError then reraise e
  else if isinstance e AtolError then logger WARNING (SucceededWithWarning e output)
  else if isinstance e OutputMatchError then logger WARNING (SucceededWithWarning e output)
  else if isinstance e Exception then logger ERROR (ErrorOccurred e output)
  else reraise e.

(** [d.pop(k)] on a local dictionary: fails on a missing key. *)
Definition pop_entry {A} (k : string) (d : gmap string A) : M (gmap string A) :=
  match d !! k with
  | Some _ => ret (delete k d)
  | None => raise KeyError (MsgKey k)
  end.

(** The block under [# Validate compiled model] (lines 608-645). *)
Definition validate_compiled_model
    (task output : string) (atol : pyval) (do_validation : bool)
    (models_and_neuron_configs : gmap string (Traceable * NeuronConfig))
    (neuron_outputs : gmap string (list string))
    (output_model_names : gmap string string)
  : M unit :=
  if do_validation then
    let! (neuron_outputs, models_and_neuron_configs, output_model_names) :=
      if is_stable_diffusion_task task then
        let! neuron_outputs := pop_entry "vae_encoder" neuron_outputs in
        ret (neuron_outputs,
             delete "vae_encoder" models_and_neuron_configs,
             delete "vae_encoder" output_model_names)
      else ret (neuron_outputs, models_and_neuron_configs, output_model_names) in
    try_except
      (validate_models_outputs models_and_neuron_configs neuron_outputs output atol
         output_model_names ;;
       logger INFO (ExportSucceeded output))
      (validation_handler output)
  else ret tt.

(** [main_export] (lines 534-645) *)
Definition main_export
    (model_name_or_path output : string) (compiler_kwargs : gmap string pyval)
    (model : option Model) (task : string) (dynamic_batch_size : bool) (atol : pyval)
    (cache_dir : option string) (disable_neuron_cache : bool)
    (compiler_workdir : option string) (inline_weights_to_neff : bool) (optlevel : pyval)
    (trust_remote_code : bool) (subfolder revision : string)
    (force_download local_files_only : bool) (use_auth_token : pyval)
    (do_validation : bool) (submodels : option (gmap string pyval))
    (output_attentions output_hidden_states : bool) (library_name : option string)
    (lora_model_ids lora_weight_names lora_adapter_names lora_scales : pyval)
    (controlnet_model_ids : pyval)
    (input_shapes : gmap string pyval)
  : M unit :=
  ensure_parent_directory output ;;
  let! task := map_from_synonym task in
  let! (models_and_neuron_configs, output_model_names) :=
    load_models_and_neuron_configs model_name_or_path output model task dynamic_batch_size
      cache_dir trust_remote_code subfolder revision force_download local_files_only
      use_auth_token submodels
      lora_model_ids lora_weight_names lora_adapter_names lora_scales controlnet_model_ids
      output_attentions output_hidden_states library_name input_shapes in
  let! neuron_outputs :=
    export_models models_and_neuron_configs output disable_neuron_cache compiler_workdir
      inline_weights_to_neff optlevel output_model_names compiler_kwargs model_name_or_path in
  validate_compiled_model task output atol do_validation
    models_and_neuron_configs neuron_outputs output_model_names.

End orchestration.
End Orchestrator.

Import Orchestrator.

(** ** Notions used to state the properties *)
Module Statements.

(** The tokenizer shape inference reads the sequence length from: the
    first one, and the second one when the first is [None]. *)
Definition attached_tokenizer (model : Model) : option Tokenizer :=
  match tokenizer model with
  | Val t => Some t
  | IsNone => match tokenizer_2 model with Val t2 => Some t2 | _ => None end
  | Absent => None
  end.

(** The caller's [input_shapes] as the builder lays it out: a dictionary
    [lo] holding references to four further dictionaries, all five
    distinct objects. *)
Record shapes_layout (w : world) (lo lt lu le ld : loc)
    (outer dt du de dd : gmap string pyval) : Prop := {
  layout_outer : heap w !! lo = Some outer;
  layout_text_encoder : outer !! "text_encoder" = Some (VRef lt);
  layout_unet : outer !! "unet" = Some (VRef lu);
  layout_vae_encoder : outer !! "vae_encoder" = Some (VRef le);
  layout_vae_decoder : outer !! "vae_decoder" = Some (VRef ld);
  layout_dt : heap w !! lt = Some dt;
  layout_du : heap w !! lu = Some du;
  layout_de : heap w !! le = Some de;
  layout_dd : heap w !! ld = Some dd;
  layout_distinct : NoDup [lo; lt; lu; le; ld]
}.

(** The compression factor in the words of the specification:
    2^(n-1) clamped to at least 8. *)
Definition clamped_scale_factor (n : nat) : Z := Z.max (2 ^ (Z.of_nat n - 1)) 8.

(** The axes the sentence-transformers normalisation requires. *)
Definition sentence_transformers_axes (model_name : string) : gset string :=
  if contains "clip" (lower model_name)
  then {[ "text_batch_size"; "image_batch_size"; "sequence_length";
          "num_channels"; "width"; "height" ]}
  else {[ "batch_size"; "sequence_length" ]}.

(** [args.get("model", "")] when it is a string. *)
Definition model_entry (d : gmap string pyval) : option string :=
  match d !! "model" with
  | None => Some ""
  | Some (VStr s) => Some s
  | Some _ => None
  end.

(** The identifier a single-graph model is named after: the model's own
    [name_or_path] when it has a non-empty one, else the path given to the
    exporter, when that is non-empty. *)
Definition model_identifier (model : Model) (model_name_or_path : option string) : option string :=
  let own := getattr_or_none (name_or_path model) in
  let chosen := if str_truthy own then own else model_name_or_path in
  if str_truthy chosen then chosen else None.

(** Whether a character occurs in a string. *)
Fixpoint occurs (c : ascii) (s : string) : bool :=
  match s with
  | EmptyString => false
  | String c' s' => Ascii.eqb c' c || occurs c s'
  end.

(** The name a single-graph submodel is registered under: the last path
    segment of the identifier, or the architecture type of the model
    when there is no identifier. *)
Definition single_graph_name (model : Model) (model_name_or_path : option string)
  : option string :=
  match model_identifier model model_name_or_path with
  | Some identifier => Some (last_piece (split "/"%char identifier))
  | None => model_type (config model)
  end.

(** Modelled from the spec: [get_encoder_decoder_models_for_export],
    which builds the submodels of an encoder-decoder model, is defined
    in [.utils] and is not part of the sources.  The spec says that for
    an encoder-decoder model decomposition "must always yield exactly
    two submodels named "encoder" and "decoder"": whenever the helper
    returns, the mapping it returns has these two keys and no other. *)
Definition encoder_decoder_models_for_export_spec `{Collaborators} : Prop :=
  forall model task dynamic_batch_size input_shapes output_attentions output_hidden_states
         w models w',
    get_encoder_decoder_models_for_export model task dynamic_batch_size input_shapes
      output_attentions output_hidden_states w = (Return models, w') ->
    dom models = {[ ENCODER_NAME; DECODER_NAME ]}.

(** What normalisation of one adapter parameter does: a bare scalar
    becomes a one-element list, a list and [None] stay as they are. *)
Definition lora_normalised (is_scalar : pyval -> bool) (v v' : pyval) : Prop :=
  (is_scalar v = true -> v' = VList [v])
  /\ (forall l, v = VList l -> v' = VList l)
  /\ (v = VNone -> v' = VNone).

(** The entries handed to the validation engine: all of them, but for
    [vae_encoder] on a stable-diffusion task. *)
Definition validated_entries {A} (task : string) (entries : gmap string A) : gmap string A :=
  if is_stable_diffusion_task task then delete "vae_encoder" entries else entries.

(** The world after one more log record. *)
Definition logged (lvl : log_level) (t : log_text) (w : world) : world :=
  mk_world (heap w) (disk w) (log w ++ [(lvl, t)]).

(** The value a component dictionary holds for a dimension. *)
Definition dimension (w : world) (l : loc) (name : string) : option pyval :=
  match heap w !! l with
  | Some d => d !! name
  | None => None
  end.

End Statements.
Import Statements.

(** ** Concrete inputs *)
Module Examples.

Definition component_shapes (b h w : Z) : gmap string pyval :=
  <["batch_size" := VInt b]> (<["height" := VInt h]> (<["width" := VInt w]> ∅)).

(** [input_shapes] for batch size 1 and 64x64 images: the mapping is
    object 1, its four components objects 2 to 5. *)
Definition shapes_heap : gmap loc (gmap string pyval) :=
  <[1%positive := <["text_encoder" := VRef 2%positive]> (<["unet" := VRef 3%positive]>
                    (<["vae_encoder" := VRef 4%positive]> (<["vae_decoder" := VRef 5%positive]> ∅)))]>
  (<[2%positive := <["batch_size" := VInt 1]> ∅]>
  (<[3%positive := component_shapes 1 64 64]>
  (<[4%positive := component_shapes 1 64 64]>
  (<[5%positive := component_shapes 1 64 64]> ∅)))).

Definition shapes_world : world := mk_world shapes_heap ∅ [].

Definition plain_config : Config :=
  {| is_pretrained_config := false; is_encoder_decoder := Absent; model_type := None |}.

(** A pipeline whose VAE has the given blocks and whose tokenizer pads to
    77 tokens. *)
Definition pipeline (blocks : list Z) : Model :=
  {| config := plain_config;
     name_or_path := Absent;
     tokenizer := Val {| model_max_length := 77 |};
     tokenizer_2 := Absent;
     scheduler := Val tt;
     feature_extractor := IsNone;
     text_encoder := Val {| hidden_size := 768 |};
     text_encoder_2 := Absent;
     unet := Val {| unet_in_channels := 4 |};
     vae := Val {| vae_in_channels := 3; latent_channels := 4;
                   block_out_channels := blocks |} |}.

(** Four blocks as in the released checkpoints, two as in the tiny
    pipelines used for testing. *)
Definition standard_blocks : list Z := [128; 256; 512; 512].
Definition tiny_blocks : list Z := [32; 64].

Definition tiny_vae : Vae :=
  {| vae_in_channels := 3; latent_channels := 4; block_out_channels := tiny_blocks |}.

Definition pipeline_without_tokenizer : Model :=
  {| config := plain_config;
     name_or_path := Absent;
     tokenizer := IsNone;
     tokenizer_2 := Absent;
     scheduler := Val tt;
     feature_extractor := IsNone;
     text_encoder := Val {| hidden_size := 768 |};
     text_encoder_2 := Absent;
     unet := Val {| unet_in_channels := 4 |};
     vae := Val tiny_vae |}.

(** The argument names of the shape builder, and a builder that lays the
    components out from its keyword arguments. *)
Definition builder_arg_names : gset string :=
  {[ "batch_size"; "sequence_length"; "unet_num_channels"; "vae_encoder_num_channels";
     "vae_decoder_num_channels"; "height"; "width"; "num_images_per_prompt";
     "do_classifier_free_guidance" ]}.

Definition arg (kw : gmap string pyval) (name : string) : pyval :=
  default VNone (kw !! name).

Definition builder (flag : pyval) (kw : gmap string pyval)
  : result (gmap string (gmap string pyval)) :=
  let image : gmap string pyval :=
    <["batch_size" := arg kw "batch_size"]>
    (<["height" := arg kw "height"]> (<["width" := arg kw "width"]> ∅)) in
  Return (<["text_encoder" := <["batch_size" := arg kw "batch_size"]> ∅]>
          (<["unet" := image]> (<["vae_encoder" := image]> (<["vae_decoder" := image]> ∅)))).

(** Arguments of a stable-diffusion export: without and with the image
    size. *)
Definition args_without_size : gmap string pyval :=
  <["do_classifier_free_guidance" := VBool true]> (<["batch_size" := VInt 1]> ∅).

Definition args_with_size : gmap string pyval :=
  <["do_classifier_free_guidance" := VBool true]>
  (<["batch_size" := VInt 1]> (<["height" := VInt 64]> (<["width" := VInt 64]> ∅))).

(** Arguments of a sentence-transformers export: without and with the
    sequence length. *)
Definition st_args_without_length : gmap string pyval :=
  <["model" := VStr "sentence-transformers/all-MiniLM-L6-v2"]> (<["batch_size" := VInt 1]> ∅).

Definition st_args_with_length : gmap string pyval :=
  <["sequence_length" := VInt 128]> st_args_without_length.

(** A world whose only object is the argument dictionary. *)
Definition args_world (d : gmap string pyval) : world :=
  mk_world {[ 1%positive := d ]} ∅ [].

(** A file appears on disk. *)
Definition write_file (path : string) : M unit :=
  fun w => (Return tt, mk_world (heap w) ({[ path ]} ∪ disk w) (log w)).

Definition bert_config : Config :=
  {| is_pretrained_config := true; is_encoder_decoder := Val false; model_type := Some "bert" |}.

Definition t5_config : Config :=
  {| is_pretrained_config := true; is_encoder_decoder := Val true; model_type := Some "t5" |}.

(** A transformers model with the given configuration and identifier. *)
Definition transformers_model (c : Config) (name : attr string) : Model :=
  {| config := c;
     name_or_path := name;
     tokenizer := Absent;
     tokenizer_2 := Absent;
     scheduler := Absent;
     feature_extractor := Absent;
     text_encoder := Absent;
     text_encoder_2 := Absent;
     unet := Absent;
     vae := Absent |}.

(** Collaborators that always succeed, for a given compiler generation
    and a given behaviour of the validation engine: the exporter writes
    one artifact per submodel and reports one output name for each. *)
Definition collaborators (neuron_cc : bool) (validation : M unit) : Collaborators :=
  {| NeuronConfig := unit;
     ConfigConstructor := unit;
     is_neuron_available := neuron_cc;
     is_neuronx_available := negb neuron_cc;
     check_compiler_compatibility_for_stable_diffusion := ret tt;
     replace_stable_diffusion_submodels := fun m _ => ret m;
     save_pretrained := fun _ path => write_file path;
     save_config := fun _ output => write_file (path_join output "model_index.json");
     maybe_save_preprocessors := fun _ output _ => write_file (path_join output "tokenizer.json");
     get_exporter_config_constructor := fun _ _ _ => ret tt;
     check_mandatory_input_shapes := fun _ _ shapes => ret shapes;
     construct_neuron_config := fun _ _ _ _ => ret tt;
     get_encoder_decoder_models_for_export := fun m _ _ _ _ _ =>
       ret (<[ENCODER_NAME := (Part ENCODER_NAME m, tt)]>
            (<[DECODER_NAME := (Part DECODER_NAME m, tt)]> ∅));
     get_stable_diffusion_models_for_export := fun m _ _ _ _ _ _ _ _ _ _ _ _ _ =>
       ret (<["text_encoder" := (Part "text_encoder" m, tt)]>
            (<["unet" := (Part "unet" m, tt)]>
            (<["vae_encoder" := (Part "vae_encoder" m, tt)]>
            (<["vae_decoder" := (Part "vae_decoder" m, tt)]>
            (<["controlnet_0" := (Part "controlnet_0" m, tt)]> ∅)))));
     infer_library_from_model := fun _ _ library_name => ret (default "transformers" library_name);
     get_model_from_task := fun _ name _ _ _ _ _ _ _ _ =>
       ret (transformers_model bert_config (Val name));
     load_controlnets := fun _ => ret [ {| controlnet_id := "canny" |} ];
     map_from_synonym := fun task => ret task;
     ensure_parent_directory := fun _ => ret tt;
     export_models := fun models output _ _ _ _ names _ _ =>
       fun w => (Return ((fun _ => ["sample"]) <$> models),
                 mk_world (heap w)
                   (list_to_set ((fun kv : string * string => path_join output (snd kv))
                                   <$> map_to_list names) ∪ disk w)
                   (log w));
     validate_models_outputs := fun _ _ _ _ _ => validation |}.

(** The keyword arguments of a stable-diffusion export: the components
    of [shapes_heap]. *)
Definition sd_kwargs : gmap string pyval :=
  <["text_encoder" := VRef 2%positive]> (<["unet" := VRef 3%positive]>
  (<["vae_encoder" := VRef 4%positive]> (<["vae_decoder" := VRef 5%positive]> ∅))).

(** A stable-diffusion export with one ControlNet, validation requested,
    on neuronx-cc, for a given behaviour of the validation engine. *)
Definition export_stable_diffusion (validation : M unit) : M unit :=
  main_export (H := collaborators false validation)
    "runwayml/stable-diffusion-v1-5" "out" ∅ (Some (pipeline standard_blocks))
    "stable-diffusion" false VNone None false None true (VStr "2") false "" "main"
    false false VNone true None false false None VNone VNone VNone VNone
    (VStr "lllyasviel/sd-controlnet-canny") sd_kwargs.

(** The same decomposition without any ControlNet. *)
Definition decompose_without_controlnets (controlnet_model_ids : pyval)
  : M (gmap string (Traceable * unit) * gmap string string) :=
  load_models_and_neuron_configs (H := collaborators false (ret tt))
    "runwayml/stable-diffusion-v1-5" "out" (Some (pipeline standard_blocks))
    "stable-diffusion" false None false "" "main" false false VNone None
    VNone VNone VNone VNone controlnet_model_ids false false None sd_kwargs.

(** The stages of that export before validation: what decomposition
    returns and leaves, then what the export driver returns and leaves. *)
Definition sd_decomposed (validation : M unit)
  : result (gmap string (Traceable * unit) * gmap string string) * world :=
  load_models_and_neuron_configs (H := collaborators false validation)
    "runwayml/stable-diffusion-v1-5" "out" (Some (pipeline standard_blocks))
    "stable-diffusion" false None false "" "main" false false VNone None
    VNone VNone VNone VNone (VStr "lllyasviel/sd-controlnet-canny") false false None
    sd_kwargs shapes_world.

Definition sd_models (validation : M unit) : gmap string (Traceable * unit) :=
  match fst (sd_decomposed validation) with
  | Return (models, _) => models
  | Raise _ => ∅
  end.

Definition sd_names (validation : M unit) : gmap string string :=
  match fst (sd_decomposed validation) with
  | Return (_, names) => names
  | Raise _ => ∅
  end.

Definition sd_exported (validation : M unit) : result (gmap string (list string)) * world :=
  export_models (Collaborators := collaborators false validation)
    (sd_models validation) "out" false None true (VStr "2") (sd_names validation) ∅
    "runwayml/stable-diffusion-v1-5" (snd (sd_decomposed validation)).

Definition sd_outputs (validation : M unit) : gmap string (list string) :=
  match fst (sd_exported validation) with
  | Return outs => outs
  | Raise _ => ∅
  end.

End Examples.

(** ** Command line: the functions between the parsed arguments and
    [main_export] *)
Module Cli.

(** The attributes of a namespace: [args] designates the [__dict__] of the
    namespace, as in the shape normalisations; any other value has no
    attribute the module asks for. *)
Definition attributes (args : pyval) (w : world) : gmap string pyval :=
  match args with
  | VRef l => match heap w !! l with Some d => d | None => ∅ end
  | _ => ∅
  end.

(** [args.name] *)
Definition ns_getattr (args : pyval) (name : string) : M pyval :=
  fun w => match attributes args w !! name with
           | Some x => (Return x, w)
           | None => (Raise (mk_exn AttributeError (MsgNoAttribute name)), w)
           end.

(** [hasattr(args, name)] *)
Definition ns_hasattr (args : pyval) (name : string) : M bool :=
  fun w => (Return (bool_decide (is_Some (attributes args w !! name))), w).

(** [getattr(args, name, default)] *)
Definition ns_getattr_default (args : pyval) (name : string) (dflt : pyval) : M pyval :=
  fun w => (Return (default dflt (attributes args w !! name)), w).

(** [v == s] for a string literal [s] *)
Definition eq_str (v : pyval) (s : string) : bool :=
  match v with
  | VStr x => String.eqb x s
  | _ => false
  end.

(** [v is None] *)
Definition is_none (v : pyval) : bool :=
  match v with VNone => true | _ => false end.

(** [infer_compiler_kwargs] (lines 86-96) *)
Definition infer_compiler_kwargs (args : pyval) : M pyval :=
  let! given := ns_getattr args "auto_cast" in
  let auto_cast := if eq_str given "none" then VNone else given in
  let! auto_cast_type :=
    if is_none auto_cast then ret VNone else ns_getattr args "auto_cast_type" in
  let! compiler_kwargs :=
    new_dict (update_items ∅ [("auto_cast", auto_cast); ("auto_cast_type", auto_cast_type)]) in
  let! has_relayout := ns_hasattr args "disable_fast_relayout" in
  (if has_relayout then
     let! v := ns_getattr args "disable_fast_relayout" in
     setitem compiler_kwargs "disable_fast_relayout" v
   else ret tt) ;;
  let! has_fallback := ns_hasattr args "disable_fallback" in
  (if has_fallback then
     let! v := ns_getattr args "disable_fallback" in
     setitem compiler_kwargs "disable_fallback" v
   else ret tt) ;;
  ret compiler_kwargs.

(** [customize_optional_outputs] (lines 154-163): the loop over the two
    possible outputs, unrolled. *)
Definition customize_optional_outputs (args : pyval) : M pyval :=
  let! customized_outputs := new_dict ∅ in
  let! v := ns_getattr_default args "output_attentions" (VBool false) in
  setitem customized_outputs "output_attentions" v ;;
  let! v := ns_getattr_default args "output_hidden_states" (VBool false) in
  setitem customized_outputs "output_hidden_states" v ;;
  ret customized_outputs.

(** [", ".join(l)] *)
Fixpoint join_with (sep : string) (l : list string) : string :=
  match l with
  | [] => ""
  | [x] => x
  | x :: rest => x ++ sep ++ join_with sep rest
  end.

(** [s.replace(a, b)] for two characters *)
Fixpoint replace_char (a b : ascii) (s : string) : string :=
  match s with
  | EmptyString => EmptyString
  | String c s' => String (if Ascii.eqb c a then b else c) (replace_char a b s')
  end.

(** [requests.exceptions.ConnectionError], one more class derived from
    [Exception]. *)
Definition RequestsConnectionError : exn_class :=
  OtherError "requests.exceptions.ConnectionError".

(** [{name: getattr(args, name) for name in names}], in the order of
    [names]. *)
Fixpoint getattr_each (args : pyval) (names : list string) (acc : gmap string pyval)
  : M (gmap string pyval) :=
  match names with
  | [] => ret acc
  | name :: rest =>
      let! v := ns_getattr args name in
      getattr_each args rest (<[name := v]> acc)
  end.

(** What the command line needs from [TasksManager], [AutoConfig],
    [AutoTokenizer], [NeuronModelForCausalLM] and the logger, besides the
    collaborators of the decomposition. *)
Class CliCollaborators `{Collaborators} : Type := {
  ConfigClass : Type;
  NeuronModel : Type;
  LoadedTokenizer : Type;
  infer_task_from_model : string -> M string;
  get_all_tasks : list string;
  str_of_exception : exn -> string;
  auto_config_from_pretrained : pyval -> M Config;
  get_exporter_config_constructor_for_type : string -> string -> M ConfigConstructor;
  func : ConfigConstructor -> ConfigClass;
  get_input_args_for_task : ConfigClass -> string -> M (list string);
  causal_lm_from_pretrained : string -> option bool -> gmap string pyval -> M NeuronModel;
  save_neuron_model : NeuronModel -> string -> M unit;
  auto_tokenizer_from_pretrained : string -> option bool -> M LoadedTokenizer;
  save_tokenizer : LoadedTokenizer -> string -> M unit;
  logger_warning : string -> M unit
}.

Section command_line.
Context `{CliCollaborators}.


(** [infer_task] (lines 99-112) *)
Definition infer_task (task model_name_or_path : string) : M string :=
  if String.eqb task "auto" then
    try_except (infer_task_from_model model_name_or_path)
      (fun e =>
         if isinstance e KeyError then
           raise KeyError
             (Msg ("The task could not be automatically inferred. Please provide the argument --task with the task from "
                   ++ join_with ", " get_all_tasks ++ ". Detailed error: " ++ str_of_exception e))
         else if isinstance e RequestsConnectionError then
           raise RequestsConnectionError
             (Msg ("The task could not be automatically inferred as this is available only for models hosted on the Hugging Face Hub. Please provide the argument --task with the relevant task from "
                   ++ join_with ", " get_all_tasks ++ ". Detailed error: " ++ str_of_exception e))
         else reraise e)
  else ret task.

(** [get_neuron_config_class] (lines 123-136) *)
Definition get_neuron_config_class (task : string) (model_id : pyval) : M ConfigConstructor :=
  let! config := auto_config_from_pretrained model_id in
  let! declared :=
    match model_type config with
    | Some t => ret t
    | None => raise AttributeError (MsgNoAttribute "model_type")
    end in
  let model_type := replace_char "_" "-" declared in
  let! encoder_decoder := attribute "is_encoder_decoder" (is_encoder_decoder config) in
  let model_type :=
    match encoder_decoder with
    | Some true => model_type ++ "-encoder"
    | _ => model_type
    end in
  get_exporter_config_constructor_for_type model_type task.

(** [get_input_shapes_and_config_class] (lines 116-120) *)
Definition get_input_shapes_and_config_class (task : string) (args : pyval)
  : M (pyval * ConfigClass) :=
  let! model := ns_getattr args "model" in
  let! neuron_config_constructor := get_neuron_config_class task model in
  let! input_args := get_input_args_for_task (func neuron_config_constructor) task in
  let! shapes := getattr_each args input_args ∅ in
  let! input_shapes := new_dict shapes in
  ret (input_shapes, func neuron_config_constructor).

(** [decoder_export] (lines 648-668) *)
Definition decoder_export (model_name_or_path output : string)
    (trust_remote_code : option bool) (kwargs : gmap string pyval) : M unit :=
  ensure_parent_directory output ;;
  let! model := causal_lm_from_pretrained model_name_or_path trust_remote_code kwargs in
  save_neuron_model model output ;;
  try_except
    (let! tokenizer := auto_tokenizer_from_pretrained model_name_or_path trust_remote_code in
     save_tokenizer tokenizer output)
    (fun e =>
       if isinstance e Exception
       then logger_warning ("No tokenizer found while exporting " ++ model_name_or_path ++ ".")
       else reraise e).

End command_line.
End Cli.
Import Cli.

(** ** Concrete command lines *)
Module CliExamples.

(** The attributes of a parsed command line: a BERT export under
    neuronx-cc, with [--auto_cast none] and [-O3]. *)
Definition cli_args : gmap string pyval :=
  update_items ∅
    [("model", VStr "org/bert_tiny"); ("task", VStr "text-classification");
     ("auto_cast", VStr "none"); ("disable_fallback", VBool true);
     ("O1", VBool false); ("O2", VBool false); ("O3", VBool true);
     ("batch_size", VInt 1); ("sequence_length", VNone)].

Definition cli_world : world := mk_world {[ 1%positive := cli_args ]} ∅ [].

(** Collaborators of the command line: the task of a hub model is found
    by [task_lookup], every configuration is that of an encoder-decoder
    model of type [big_bird], whose export needs a batch size and a
    sequence length, and the tokenizer is loaded by [tokenizer_lookup]. *)
Definition cli_collaborators (task_lookup : M string) (tokenizer_lookup : M unit)
  : CliCollaborators (H := Examples.collaborators false (ret tt)) :=
  {| ConfigClass := unit;
     NeuronModel := unit;
     LoadedTokenizer := unit;
     infer_task_from_model := fun _ => task_lookup;
     get_all_tasks := ["fill-mask"; "text-classification"];
     str_of_exception := fun _ => "unknown model";
     auto_config_from_pretrained := fun _ =>
       ret {| is_pretrained_config := true; is_encoder_decoder := Val true;
              model_type := Some "big_bird" |};
     get_exporter_config_constructor_for_type := fun _ _ =>
       ret (tt : @ConfigConstructor (Examples.collaborators false (ret tt)));
     func := fun _ => tt;
     get_input_args_for_task := fun _ _ => ret ["batch_size"; "sequence_length"];
     causal_lm_from_pretrained := fun _ _ _ => ret tt;
     save_neuron_model := fun _ output => Examples.write_file (path_join output "model.neuron");
     auto_tokenizer_from_pretrained := fun _ _ => tokenizer_lookup;
     save_tokenizer := fun _ output => Examples.write_file (path_join output "tokenizer.json");
     logger_warning := fun _ => ret tt |}.

End CliExamples.

(** ** Further exports *)
Module ExportExamples.

(** The collaborators [c] with another export driver. *)
Definition with_export_driver (c : Collaborators)
    (driver : gmap string (Traceable * @NeuronConfig c) -> gmap string string ->
              M (gmap string (list string)))
  : Collaborators :=
  {| NeuronConfig := @NeuronConfig c;
     ConfigConstructor := @ConfigConstructor c;
     is_neuron_available := @is_neuron_available c;
     is_neuronx_available := @is_neuronx_available c;
     check_compiler_compatibility_for_stable_diffusion :=
       @check_compiler_compatibility_for_stable_diffusion c;
     replace_stable_diffusion_submodels := @replace_stable_diffusion_submodels c;
     save_pretrained := @save_pretrained c;
     save_config := @save_config c;
     maybe_save_preprocessors := @maybe_save_preprocessors c;
     get_exporter_config_constructor := @get_exporter_config_constructor c;
     check_mandatory_input_shapes := @check_mandatory_input_shapes c;
     construct_neuron_config := @construct_neuron_config c;
     get_encoder_decoder_models_for_export := @get_encoder_decoder_models_for_export c;
     get_stable_diffusion_models_for_export := @get_stable_diffusion_models_for_export c;
     infer_library_from_model := @infer_library_from_model c;
     get_model_from_task := @get_model_from_task c;
     load_controlnets := @load_controlnets c;
     map_from_synonym := @map_from_synonym c;
     ensure_parent_directory := @ensure_parent_directory c;
     export_models := fun models _ _ _ _ _ names _ _ => driver models names;
     validate_models_outputs := @validate_models_outputs c |}.

(** An export driver that reports the outputs of the unet only, and one
    that runs out of memory. *)
Definition unet_outputs : gmap string (list string) := {[ "unet" := ["sample"] ]}.

Definition unet_only_driver {A} (models : gmap string A) (names : gmap string string)
  : M (gmap string (list string)) :=
  ret unet_outputs.

Definition failing_driver {A} (models : gmap string A) (names : gmap string string)
  : M (gmap string (list string)) :=
  raise (OtherError "MemoryError") (Msg "out of memory").

(** The arguments of [Examples.export_stable_diffusion], for a given
    choice of collaborators and of [do_validation]. *)
Definition export_with (c : Collaborators) (do_validation : bool) : M unit :=
  main_export (H := c)
    "runwayml/stable-diffusion-v1-5" "out" ∅ (Some (Examples.pipeline Examples.standard_blocks))
    "stable-diffusion" false VNone None false None true (VStr "2") false "" "main"
    false false VNone do_validation None false false None VNone VNone VNone VNone
    (VStr "lllyasviel/sd-controlnet-canny") Examples.sd_kwargs.

End ExportExamples.


(** ** Names of the stable-diffusion artifacts *)
Module ArtifactNames.

(** The number a string of decimal digits denotes, read from the left. *)
Fixpoint digits_value (acc : nat) (s : string) : nat :=
  match s with
  | EmptyString => acc
  | String c s' => digits_value (10 * acc + (nat_of_ascii c - 48)) s'
  end.

(** The name of the [idx]-th ControlNet. *)
Definition controlnet_name (idx : nat) : string :=
  DIFFUSION_MODEL_CONTROLNET_NAME ++ "_" ++ str_of_nat idx.

(** Every artifact lies in the directory named after its submodel. *)
Definition names_by_directory (names : gmap string string) : Prop :=
  forall k v, names !! k = Some v -> v = k ++ "/model.neuron".

(** The decomposition of the pipeline of [Examples] with one ControlNet,
    on [Examples.shapes_world], and the two mappings it returns. *)
Definition sd_decomposition
  : result (gmap string (Traceable * unit) * gmap string string) * world :=
  _get_submodels_and_neuron_configs_for_stable_diffusion
    (H := Examples.collaborators false (ret tt))
    (Examples.pipeline Examples.standard_blocks) (VRef 1%positive) "stable-diffusion" "out"
    false None false VNone VNone VNone VNone (Some [ {| controlnet_id := "canny" |} ])
    Examples.shapes_world.

Definition sd_decomposition_models : gmap string (Traceable * unit) :=
  match fst sd_decomposition with
  | Return (models, _) => models
  | Raise _ => ∅
  end.

Definition sd_decomposition_names : gmap string string :=
  match fst sd_decomposition with
  | Return (_, names) => names
  | Raise _ => ∅
  end.

End ArtifactNames.
Import ArtifactNames.


(** ** Further pipelines *)
Module ShapeExamples.

(** A pipeline with two text encoders and two tokenizers. *)
Definition xl_pipeline : Model :=
  {| config := Examples.plain_config;
     name_or_path := Absent;
     tokenizer := Val {| model_max_length := 77 |};
     tokenizer_2 := Val {| model_max_length := 77 |};
     scheduler := Val tt;
     feature_extractor := IsNone;
     text_encoder := Val {| hidden_size := 768 |};
     text_encoder_2 := Val {| hidden_size := 1280 |};
     unet := Val {| unet_in_channels := 4 |};
     vae := Val {| vae_in_channels := 3; latent_channels := 4;
                   block_out_channels := Examples.standard_blocks |} |}.

Definition canny : option (list ControlNet) := Some [ {| controlnet_id := "canny" |} ].

(** The same shapes as [Examples.shapes_heap], without the entry of the
    vae decoder. *)
Definition shapes_without_decoder : world :=
  mk_world
    (<[1%positive := <["text_encoder" := VRef 2%positive]> (<["unet" := VRef 3%positive]>
                      (<["vae_encoder" := VRef 4%positive]> ∅))]>
     (<[2%positive := <["batch_size" := VInt 1]> ∅]>
     (<[3%positive := Examples.component_shapes 1 64 64]>
     (<[4%positive := Examples.component_shapes 1 64 64]> ∅))))
    ∅ [].

(** Shapes whose unet entry has a batch size only. *)
Definition shapes_without_size : world :=
  mk_world
    (<[1%positive := <["unet" := VRef 2%positive]> ∅]>
     (<[2%positive := <["batch_size" := VInt 1]> ∅]> ∅))
    ∅ [].


End ShapeExamples.


(** * Verification *)

(** ** Facts about the Python fragment *)
Module PyFacts.

Lemma bind_Return {A B} (m : M A) (k : A -> M B) w a w' :
  m w = (Return a, w') -> bind m k w = k a w'.
Proof. intros E. unfold bind. now rewrite E. Qed.

Lemma bind_Raise {A B} (m : M A) (k : A -> M B) w e w' :
  m w = (Raise e, w') -> bind m k w = (Raise e, w').
Proof. intros E. unfold bind. now rewrite E. Qed.

Lemma heap_with_heap h w : heap (with_heap h w) = h.
Proof. reflexivity. Qed.

Lemma with_heap_twice h h' w : with_heap h (with_heap h' w) = with_heap h w.
Proof. reflexivity. Qed.

Lemma the_dict_Return c l w d :
  heap w !! l = Some d -> the_dict c (VRef l) w = (Return (l, d), w).
Proof. intros E. unfold the_dict. now rewrite E. Qed.

Lemma getitem_Return l k w d x :
  heap w !! l = Some d -> d !! k = Some x -> getitem (VRef l) k w = (Return x, w).
Proof.
  intros Hl Hk. unfold getitem.
  rewrite (bind_Return _ _ _ _ _ (the_dict_Return _ _ _ _ Hl)). now rewrite Hk.
Qed.

Lemma getitem_missing l k w d :
  heap w !! l = Some d -> d !! k = None ->
  getitem (VRef l) k w = (Raise (mk_exn KeyError (MsgKey k)), w).
Proof.
  intros Hl Hk. unfold getitem.
  rewrite (bind_Return _ _ _ _ _ (the_dict_Return _ _ _ _ Hl)). now rewrite Hk.
Qed.

Lemma update_Return l items w d :
  heap w !! l = Some d ->
  update (VRef l) items w = (Return tt, with_heap (<[l := update_items d items]> (heap w)) w).
Proof.
  intros Hl. unfold update.
  now rewrite (bind_Return _ _ _ _ _ (the_dict_Return _ _ _ _ Hl)).
Qed.

Lemma setitem_Return l k x w d :
  heap w !! l = Some d ->
  setitem (VRef l) k x w = (Return tt, with_heap (<[l := <[k := x]> d]> (heap w)) w).
Proof.
  intros Hl. unfold setitem.
  now rewrite (bind_Return _ _ _ _ _ (the_dict_Return _ _ _ _ Hl)).
Qed.

Lemma pop_Return l k w d x :
  heap w !! l = Some d -> d !! k = Some x ->
  pop (VRef l) k w = (Return x, with_heap (<[l := delete k d]> (heap w)) w).
Proof.
  intros Hl Hk. unfold pop.
  rewrite (bind_Return _ _ _ _ _ (the_dict_Return _ _ _ _ Hl)). now rewrite Hk.
Qed.

Lemma pop_missing l k w d :
  heap w !! l = Some d -> d !! k = None ->
  pop (VRef l) k w = (Raise (mk_exn KeyError (MsgKey k)), w).
Proof.
  intros Hl Hk. unfold pop.
  rewrite (bind_Return _ _ _ _ _ (the_dict_Return _ _ _ _ Hl)). now rewrite Hk.
Qed.

Lemma keys_Return l w d :
  heap w !! l = Some d -> keys (VRef l) w = (Return (dom d), w).
Proof.
  intros Hl. unfold keys.
  now rewrite (bind_Return _ _ _ _ _ (the_dict_Return _ _ _ _ Hl)).
Qed.

Lemma get_default_Return l k dflt w d :
  heap w !! l = Some d ->
  get_default (VRef l) k dflt w = (Return (default dflt (d !! k)), w).
Proof.
  intros Hl. unfold get_default.
  rewrite (bind_Return _ _ _ _ _ (the_dict_Return _ _ _ _ Hl)).
  now destruct (d !! k).
Qed.

Lemma new_dict_fresh d w :
  new_dict d w = (Return (VRef (fresh (dom (heap w)))),
                  with_heap (<[fresh (dom (heap w)) := d]> (heap w)) w)
  /\ heap w !! fresh (dom (heap w)) = None.
Proof.
  split; [reflexivity|]. apply not_elem_of_dom, is_fresh.
Qed.

Lemma bind_assoc {A B C} (m : M A) (f : A -> M B) (g : B -> M C) w :
  bind (bind m f) g w = bind m (fun x => bind (f x) g) w.
Proof. unfold bind. destruct (m w) as [[e|a] w']; reflexivity. Qed.

Lemma fresh_ne (hp : gmap loc (gmap string pyval)) l d :
  hp !! l = Some d -> fresh (dom hp) <> l.
Proof.
  intros Hl E. apply (is_fresh (dom hp)). rewrite E. apply elem_of_dom. eauto.
Qed.

End PyFacts.
Import PyFacts.

Ltac heap_lookup :=
  rewrite ?heap_with_heap;
  repeat first [ rewrite lookup_insert_eq | rewrite lookup_insert_ne by congruence ];
  first [ reflexivity | eassumption ].

Ltac key_lookup :=
  unfold update_items; simpl;
  repeat first [ rewrite lookup_insert_eq | rewrite lookup_insert_ne by discriminate ];
  first [ reflexivity | eassumption ].

(** Equations between closed terms, by evaluation. *)
Ltac vm_refl := match goal with |- ?l = ?r => exact (@eq_refl _ r <: l = r) end.

Ltac step_getitem :=
  erewrite bind_Return; [| eapply getitem_Return; [ heap_lookup | key_lookup ] ].
Ltac step_update :=
  erewrite bind_Return; [| eapply update_Return; heap_lookup ].
Ltac step_setitem :=
  erewrite bind_Return; [| eapply setitem_Return; heap_lookup ].

(** ** Shape Resolver: properties *)
Module ShapeResolverFacts.
Import ShapeResolver.

Lemma pow2_pos n : (0 < n)%nat -> pow2 (Z.of_nat n - 1) = VInt (2 ^ (Z.of_nat n - 1)).
Proof.
  intros Hn. unfold pow2.
  destruct (Z.leb_spec 0 (Z.of_nat n - 1)); [reflexivity | lia].
Qed.

Lemma vae_scale_factor_unclamped v :
  block_out_channels v <> [] ->
  vae_scale_factor v = VInt (2 ^ (Z.of_nat (length (block_out_channels v)) - 1)).
Proof.
  intros Hne. unfold vae_scale_factor.
  assert (0 < length (block_out_channels v))%nat as Hn.
  { destruct (block_out_channels v); [congruence | simpl; lia]. }
  rewrite (pow2_pos _ Hn). unfold py_or. simpl.
  destruct (Z.eqb_spec (2 ^ (Z.of_nat (length (block_out_channels v)) - 1)) 0) as [E|E]; [|reflexivity].
  exfalso. assert (0 < 2 ^ (Z.of_nat (length (block_out_channels v)) - 1)) by (apply Z.pow_pos_nonneg; lia). lia.
Qed.

(** The [or 8] of line 225 never applies: a power of two is never zero,
    whether it is an [int] or, for a VAE without blocks, the float 0.5. *)
Lemma vae_scale_factor_is_power v :
  vae_scale_factor v = pow2 (Z.of_nat (length (block_out_channels v)) - 1).
Proof.
  assert (block_out_channels v = [] \/ block_out_channels v <> []) as [E|E].
  { destruct (block_out_channels v); [left | right]; congruence. }
  - unfold vae_scale_factor. rewrite E. reflexivity.
  - rewrite vae_scale_factor_unclamped by exact E.
    symmetry. apply pow2_pos.
    destruct (block_out_channels v); [congruence | simpl; lia].
Qed.

(** The compression factor can always divide an integer dimension. *)
Lemma floordiv_scale_total (x : Z) v :
  exists r, floordiv (VInt x) (vae_scale_factor v) = Return r.
Proof.
  destruct (block_out_channels v) as [|c cs] eqn:E.
  - unfold vae_scale_factor. rewrite E. simpl. eexists. reflexivity.
  - rewrite vae_scale_factor_unclamped by congruence.
    unfold floordiv. simpl as_number. cbv iota beta.
    set (s := 2 ^ (Z.of_nat (length (block_out_channels v)) - 1)).
    assert (0 < s).
    { unfold s. apply Z.pow_pos_nonneg; [lia|]. rewrite E. simpl length. lia. }
    destruct (Z.eqb_spec s 0); [lia | eauto].
Qed.

(** One run of shape inference on a well laid out [input_shapes]: it
    returns the caller's own mapping, whose component dictionaries have
    been updated. *)
Lemma infer_run w lo lt lu le ld outer dt du de dd model cn t u v height width sh sw :
  shapes_layout w lo lt lu le ld outer dt du de dd ->
  du !! "height" = Some height ->
  du !! "width" = Some width ->
  floordiv height (vae_scale_factor v) = Return sh ->
  floordiv width (vae_scale_factor v) = Return sw ->
  attached_tokenizer model = Some t ->
  unet model = Val u ->
  vae model = Val v ->
  (some_controlnets cn = true ->
     is_Some (du !! "batch_size") /\ exists te, text_encoder model = Val te) ->
  let L := model_max_length t in
  exists w' dt' du' de' dd',
    infer_stable_diffusion_shapes_from_diffusers (VRef lo) model cn w = (Return (VRef lo), w')
    /\ disk w' = disk w /\ log w' = log w
    /\ heap w' !! lt = Some dt' /\ heap w' !! lu = Some du'
    /\ heap w' !! le = Some de' /\ heap w' !! ld = Some dd'
    /\ dt' = <["sequence_length" := VInt L]> dt
    /\ dt' !! "sequence_length" = Some (VInt L)
    /\ du' !! "sequence_length" = Some (VInt L)
    /\ du' !! "num_channels" = Some (VInt (unet_in_channels u))
    /\ du' !! "height" = Some sh /\ du' !! "width" = Some sw
    /\ de' !! "num_channels" = Some (VInt (vae_in_channels v))
    /\ de' !! "height" = Some height /\ de' !! "width" = Some width
    /\ dd' !! "num_channels" = Some (VInt (latent_channels v))
    /\ dd' !! "height" = Some sh /\ dd' !! "width" = Some sw
    /\ (some_controlnets cn = true -> du' !! "vae_scale_factor" = Some (vae_scale_factor v)).
Proof.
  intros [Ho Hte Hu Hve Hvd Hdt Hdu Hde Hdd Hnd] Hh Hw Hfh Hfw Htok Hunet Hvae Hcn L.
  assert (lo <> lt /\ lo <> lu /\ lo <> le /\ lo <> ld /\ lt <> lu /\ lt <> le /\ lt <> ld
          /\ lu <> le /\ lu <> ld /\ le <> ld) as (?&?&?&?&?&?&?&?&?&?).
  { rewrite !NoDup_cons, !not_elem_of_cons in Hnd. tauto. }
  unfold infer_stable_diffusion_shapes_from_diffusers.
  assert (forall K : Z -> M pyval,
    (let! tok := attribute "tokenizer" (tokenizer model) in
     let! sequence_length :=
       match tok with
       | Some t => ret (model_max_length t)
       | None =>
         match tokenizer_2 model with
         | Val t2 => ret (model_max_length t2)
         | _ => raise AttributeError (Msg "Cannot infer sequence_length as there is no tokenizer as attribute.")
         end
       end in K sequence_length) w = K L w) as Hseq.
  { intros K. unfold attached_tokenizer in Htok. subst L.
    destruct (tokenizer model) as [| |t1]; [discriminate| |].
    - destruct (tokenizer_2 model) as [| |t2]; try discriminate. now inversion Htok.
    - now inversion Htok. }
  rewrite Hseq. clear Hseq.
  rewrite Hunet, Hvae. cbn [component].
  erewrite bind_Return by reflexivity.
  erewrite bind_Return by reflexivity.
  do 2 step_getitem.
  erewrite bind_Return by (unfold lift; rewrite Hfh; reflexivity).
  do 2 step_getitem.
  erewrite bind_Return by (unfold lift; rewrite Hfw; reflexivity).
  step_getitem. step_update.
  assert (exists outer',
    ((if hasattr (text_encoder_2 model)
      then let! te := getitem (VRef lo) "text_encoder" in setitem (VRef lo) "text_encoder_2" te
      else ret tt)
       (with_heap (<[lt:=update_items dt [("sequence_length", VInt L)]]> (heap w)) w)
     = (Return tt, with_heap (<[lo:=outer']> (<[lt:=update_items dt [("sequence_length", VInt L)]]> (heap w))) w))
    /\ outer' !! "unet" = Some (VRef lu) /\ outer' !! "vae_encoder" = Some (VRef le)
    /\ outer' !! "vae_decoder" = Some (VRef ld)) as (outer' & Hte2 & Hu' & Hve' & Hvd').
  { destruct (hasattr (text_encoder_2 model)).
    - eexists. split.
      + step_getitem. erewrite setitem_Return by heap_lookup. reflexivity.
      + repeat split; key_lookup.
    - exists outer. split; [|auto].
      unfold ret. f_equal. unfold with_heap. f_equal.
      symmetry. apply insert_id. heap_lookup. }
  erewrite bind_Return by exact Hte2. clear Hte2.
  step_getitem. step_update.
  destruct (some_controlnets cn) eqn:Ecn.
  - destruct (Hcn eq_refl) as [[bs Hbs] [te Hte']].
    rewrite bind_assoc. step_getitem. step_setitem.
    step_getitem. step_update.
    step_getitem. step_update.
    rewrite bind_assoc. step_getitem. rewrite bind_assoc. step_getitem.
    rewrite bind_assoc.
    rewrite Hte'. cbn [component]. erewrite bind_Return by reflexivity.
    rewrite bind_assoc. erewrite bind_Return by reflexivity.
    cbn [heap with_heap].
    match goal with |- context [fresh (dom ?hp)] => set (h6 := hp) end.
    assert (fresh (dom h6) <> lo) by (eapply fresh_ne; subst h6; heap_lookup).
    assert (fresh (dom h6) <> lt) by (eapply fresh_ne; subst h6; heap_lookup).
    assert (fresh (dom h6) <> lu) by (eapply fresh_ne; subst h6; heap_lookup).
    assert (fresh (dom h6) <> le) by (eapply fresh_ne; subst h6; heap_lookup).
    assert (fresh (dom h6) <> ld) by (eapply fresh_ne; subst h6; heap_lookup).
    erewrite bind_Return; [| eapply setitem_Return; subst h6; heap_lookup ].
    unfold ret. do 5 eexists.
    split; [reflexivity|].
    split; [reflexivity|]. split; [reflexivity|].
    split; [subst h6; heap_lookup|]. split; [subst h6; heap_lookup|].
    split; [subst h6; heap_lookup|]. split; [subst h6; heap_lookup|].
    split; [reflexivity|].
    repeat split; try (intros _); key_lookup.
  - erewrite bind_Return by reflexivity.
    step_getitem. step_update.
    step_getitem. step_update.
    erewrite bind_Return by reflexivity.
    unfold ret. do 5 eexists.
    split; [reflexivity|].
    split; [reflexivity|]. split; [reflexivity|].
    split; [heap_lookup|]. split; [heap_lookup|].
    split; [heap_lookup|]. split; [heap_lookup|].
    split; [reflexivity|].
    repeat split; try (intros; discriminate); key_lookup.
Qed.

(** Without a tokenizer the very first statement fails, before anything
    is read or written. *)
Lemma infer_without_tokenizer input_shapes model cn w :
  attached_tokenizer model = None ->
  exists m,
    infer_stable_diffusion_shapes_from_diffusers input_shapes model cn w
    = (Raise (mk_exn AttributeError m), w).
Proof.
  unfold attached_tokenizer, infer_stable_diffusion_shapes_from_diffusers.
  intros Hnone.
  destruct (tokenizer model) as [| |t1]; [| |discriminate].
  - eexists. reflexivity.
  - destruct (tokenizer_2 model) as [| |t2]; [| |discriminate]; eexists; reflexivity.
Qed.

(** C2, as stated, fails: a VAE with two blocks has compression factor 2,
    not the clamped 8, and from 64x64 images the derived unet height is 32
    (the vae_encoder keeping 64), not 64 // 8 = 8. *)
Lemma C2_counterexample :
  let v := Examples.tiny_vae in
  let run := infer_stable_diffusion_shapes_from_diffusers (VRef 1%positive)
               (Examples.pipeline Examples.tiny_blocks) None Examples.shapes_world in
  vae (Examples.pipeline Examples.tiny_blocks) = Val v
  /\ length (block_out_channels v) = 2%nat
  /\ vae_scale_factor v = VInt 2
  /\ vae_scale_factor v <> VInt (clamped_scale_factor (length (block_out_channels v)))
  /\ fst run = Return (VRef 1%positive)
  /\ dimension (snd run) 4%positive "height" = Some (VInt 64)
  /\ dimension (snd run) 3%positive "height" = Some (VInt 32)
  /\ dimension (snd run) 3%positive "height"
     <> Some (VInt (64 / clamped_scale_factor (length (block_out_channels v)))).
Proof.
  cbv zeta. repeat apply conj; try vm_refl; intros E; vm_compute in E; discriminate E.
Qed.

(** C2 (amended): for every pipeline whose VAE declares [n >= 1]
    [block_out_channels] entries the compression factor is [2^(n-1)],
    without any clamping; the unet and vae_decoder height and width in
    the derived shapes are the vae_encoder height and width
    integer-divided by that factor, and the vae_encoder gets the
    caller-supplied height and width (those of the unet entry on input). *)
Theorem C2_unclamped_scale_factor :
  forall w lo lt lu le ld outer dt du de dd model cn t u v (h wd : Z),
    shapes_layout w lo lt lu le ld outer dt du de dd ->
    du !! "height" = Some (VInt h) ->
    du !! "width" = Some (VInt wd) ->
    attached_tokenizer model = Some t ->
    unet model = Val u ->
    vae model = Val v ->
    block_out_channels v <> [] ->
    (some_controlnets cn = true ->
       is_Some (du !! "batch_size") /\ exists te, text_encoder model = Val te) ->
    let s := 2 ^ (Z.of_nat (length (block_out_channels v)) - 1) in
    vae_scale_factor v = VInt s
    /\ exists w' du' de' dd',
         infer_stable_diffusion_shapes_from_diffusers (VRef lo) model cn w
         = (Return (VRef lo), w')
         /\ heap w' !! lu = Some du' /\ heap w' !! le = Some de' /\ heap w' !! ld = Some dd'
         /\ de' !! "height" = Some (VInt h) /\ de' !! "width" = Some (VInt wd)
         /\ du' !! "height" = Some (VInt (h / s)) /\ du' !! "width" = Some (VInt (wd / s))
         /\ dd' !! "height" = Some (VInt (h / s)) /\ dd' !! "width" = Some (VInt (wd / s)).
Proof.
  intros w lo lt lu le ld outer dt du de dd model cn t u v h wd
    Hlay Hh Hw Htok Hu Hv Hblocks Hcn s.
  pose proof (vae_scale_factor_unclamped v Hblocks) as Hscale. fold s in Hscale.
  split; [exact Hscale|].
  assert (0 < s) as Hs.
  { unfold s. apply Z.pow_pos_nonneg; [lia|].
    destruct (block_out_channels v); [congruence | simpl length; lia]. }
  assert (forall x, floordiv (VInt x) (vae_scale_factor v) = Return (VInt (x / s))) as Hdiv.
  { intros x. rewrite Hscale. unfold floordiv. simpl.
    destruct (Z.eqb_spec s 0); [lia | reflexivity]. }
  destruct (infer_run _ _ _ _ _ _ _ _ _ _ _ _ _ _ _ _ _ _ _ _
              Hlay Hh Hw (Hdiv h) (Hdiv wd) Htok Hu Hv Hcn)
    as (w' & dt' & du' & de' & dd' & Hrun & _ & _ & _ & Hlu & Hle & Hld & _ & _ & _ & _
        & Huh & Huw & _ & Heh & Hew & _ & Hdh & Hdw & _).
  exists w', du', de', dd'. tauto.
Qed.

Lemma C2_witness :
  vae_scale_factor Examples.tiny_vae = VInt (2 ^ 1)
  /\ exists w' du' de' dd',
       infer_stable_diffusion_shapes_from_diffusers (VRef 1%positive)
         (Examples.pipeline Examples.tiny_blocks) None Examples.shapes_world
       = (Return (VRef 1%positive), w')
       /\ heap w' !! 3%positive = Some du' /\ heap w' !! 4%positive = Some de'
       /\ heap w' !! 5%positive = Some dd'
       /\ de' !! "height" = Some (VInt 64) /\ de' !! "width" = Some (VInt 64)
       /\ du' !! "height" = Some (VInt (64 / 2 ^ 1)) /\ du' !! "width" = Some (VInt (64 / 2 ^ 1))
       /\ dd' !! "height" = Some (VInt (64 / 2 ^ 1)) /\ dd' !! "width" = Some (VInt (64 / 2 ^ 1)).
Proof.
  refine (C2_unclamped_scale_factor Examples.shapes_world
            1%positive 2%positive 3%positive 4%positive 5%positive
            _ _ _ _ _ (Examples.pipeline Examples.tiny_blocks) None
            {| model_max_length := 77 |} {| unet_in_channels := 4 |} Examples.tiny_vae
            64 64 _ _ _ _ _ _ _ _).
  - constructor; try reflexivity.
    apply (bool_decide_unpack _). vm_compute. exact I.
  - reflexivity.
  - reflexivity.
  - reflexivity.
  - reflexivity.
  - reflexivity.
  - discriminate.
  - discriminate.
Defined.


(** C3: for every generative pipeline with a tokenizer attached, shape
    inference, run on an [input_shapes] laid out as the builder does,
    writes that tokenizer's [model_max_length] as the [sequence_length]
    of the text encoder and of the unet; for every pipeline with no
    tokenizer attached it raises an [AttributeError], before touching
    anything. *)
Theorem C3_sequence_length_from_tokenizer :
  (forall w lo lt lu le ld outer dt du de dd model cn t u v (h wd : Z),
      shapes_layout w lo lt lu le ld outer dt du de dd ->
      du !! "height" = Some (VInt h) ->
      du !! "width" = Some (VInt wd) ->
      attached_tokenizer model = Some t ->
      unet model = Val u ->
      vae model = Val v ->
      (some_controlnets cn = true ->
         is_Some (du !! "batch_size") /\ exists te, text_encoder model = Val te) ->
      exists w' du',
        infer_stable_diffusion_shapes_from_diffusers (VRef lo) model cn w
        = (Return (VRef lo), w')
        /\ heap w' !! lt = Some (<["sequence_length" := VInt (model_max_length t)]> dt)
        /\ heap w' !! lu = Some du'
        /\ du' !! "sequence_length" = Some (VInt (model_max_length t)))
  /\ (forall input_shapes model cn w,
        attached_tokenizer model = None ->
        exists e,
          infer_stable_diffusion_shapes_from_diffusers input_shapes model cn w = (Raise e, w)
          /\ isinstance e AttributeError = true).
Proof.
  split.
  - intros w lo lt lu le ld outer dt du de dd model cn t u v h wd Hlay Hh Hw Htok Hu Hv Hcn.
    destruct (floordiv_scale_total h v) as [sh Hsh].
    destruct (floordiv_scale_total wd v) as [sw Hsw].
    destruct (infer_run _ _ _ _ _ _ _ _ _ _ _ _ _ _ _ _ _ _ _ _ Hlay Hh Hw Hsh Hsw Htok Hu Hv Hcn)
      as (w' & dt' & du' & de' & dd' & Hrun & _ & _ & Hlt & Hlu & _ & _ & Hdt' & _ & Hseq & _).
    exists w', du'. subst dt'. auto.
  - intros input_shapes model cn w Hnone.
    destruct (infer_without_tokenizer input_shapes model cn w Hnone) as [m Hm].
    eexists. split; [exact Hm | reflexivity].
Qed.

Lemma C3_witness :
  (exists w' du',
      infer_stable_diffusion_shapes_from_diffusers (VRef 1%positive) (Examples.pipeline Examples.standard_blocks) None
        Examples.shapes_world = (Return (VRef 1%positive), w')
      /\ heap w' !! 2%positive
         = Some (<["sequence_length" := VInt 77]> (<["batch_size" := VInt 1]> ∅))
      /\ heap w' !! 3%positive = Some du'
      /\ du' !! "sequence_length" = Some (VInt 77))
  /\ (exists e,
        infer_stable_diffusion_shapes_from_diffusers (VRef 1%positive)
          Examples.pipeline_without_tokenizer None Examples.shapes_world
        = (Raise e, Examples.shapes_world)
        /\ isinstance e AttributeError = true).
Proof.
  split.
  - refine (proj1 C3_sequence_length_from_tokenizer Examples.shapes_world
              1%positive 2%positive 3%positive 4%positive 5%positive
              _ (<["batch_size" := VInt 1]> ∅) _ _ _ (Examples.pipeline Examples.standard_blocks) None
              {| model_max_length := 77 |} _ _ 64 64 _ _ _ _ _ _ _).
    + constructor; try reflexivity.
      apply (bool_decide_unpack _). vm_compute. exact I.
    + reflexivity.
    + reflexivity.
    + reflexivity.
    + reflexivity.
    + reflexivity.
    + discriminate.
  - apply (proj2 C3_sequence_length_from_tokenizer). reflexivity.
Defined.


Lemma comprehension_list (l : list string) (d : gmap string pyval) :
  (forall k, k ∈ l -> is_Some (d !! k)) ->
  exists m,
    comprehension_over l d = Return m
    /\ forall k, m !! k = if decide (k ∈ l) then d !! k else None.
Proof.
  induction l as [|name l IH]; intros Hall.
  - exists ∅. split; [reflexivity|]. intros k. rewrite lookup_empty.
    destruct (decide (k ∈ [])) as [Hin|]; [|reflexivity]. now apply elem_of_nil in Hin.
  - destruct IH as (m & Hm & Hlook).
    { intros k Hk. apply Hall. now right. }
    destruct (Hall name) as [x Hx]; [now left|].
    exists (<[name := x]> m). split.
    + simpl. rewrite Hm, Hx. reflexivity.
    + intros k. destruct (decide (k = name)) as [->|Hne].
      * rewrite lookup_insert_eq.
        destruct (decide (name ∈ name :: l)) as [|Hn]; [now symmetry|].
        exfalso. apply Hn. now left.
      * rewrite lookup_insert_ne by congruence. rewrite Hlook.
        destruct (decide (k ∈ l)) as [Hin|Hin];
          destruct (decide (k ∈ name :: l)) as [Hin'|Hin']; try reflexivity.
        -- exfalso. apply Hin'. now right.
        -- exfalso. apply elem_of_cons in Hin' as [?|?]; tauto.
Qed.

(** The dictionary comprehension over the mandatory axes copies the
    caller's value of each of them, and nothing else. *)
Lemma comprehension_spec (names : gset string) (d : gmap string pyval) :
  names ⊆ dom d ->
  exists m, comprehension names d = Return m
            /\ dom m = names
            /\ forall k, k ∈ names -> m !! k = d !! k.
Proof.
  intros Hsub. unfold comprehension.
  destruct (comprehension_list (elements names) d) as (m & Hm & Hlook).
  { intros k Hk. apply elem_of_dom, Hsub. now apply elem_of_elements in Hk. }
  exists m. split; [exact Hm|]. split.
  - apply set_eq. intros k. rewrite elem_of_dom, Hlook.
    destruct (decide (k ∈ elements names)) as [Hin|Hin].
    + apply elem_of_elements in Hin. split; [auto|]. intros _. apply elem_of_dom, Hsub, Hin.
    + split; [intros [? ?]; discriminate|]. intros Hk. exfalso. apply Hin.
      now apply elem_of_elements.
  - intros k Hk. rewrite Hlook.
    destruct (decide (k ∈ elements names)) as [|Hin]; [reflexivity|].
    exfalso. apply Hin. now apply elem_of_elements.
Qed.

(** A mapping covers only a proper subset of [D] exactly when [D] is
    not included in its keys. *)
Lemma proper_subset_not_covered (given D : gset string) :
  given ∩ D ⊂ D <-> ~ D ⊆ given.
Proof.
  split.
  - intros [_ Hns] Hsub. apply Hns. set_solver.
  - intros Hns. split; [set_solver|]. intros Hsub. apply Hns. set_solver.
Qed.

Lemma flag_is_derived : "do_classifier_free_guidance" ∈ derived_axes.
Proof. unfold derived_axes. set_solver. Qed.

Lemma num_images_is_derived : "num_images_per_prompt" ∈ derived_axes.
Proof. unfold derived_axes. set_solver. Qed.

Lemma normalize_sentence_transformers_run l d w name :
  heap w !! l = Some d ->
  model_entry d = Some name ->
  normalize_sentence_transformers_input_shapes (VRef l) w
  = (let D := sentence_transformers_axes name in
     if decide (D ⊆ dom d) then
       let! mandatory_shapes := lift (comprehension D d) in new_dict mandatory_shapes
     else raise AttributeError (MsgMandatoryShapes D (D ∖ dom d))) w.
Proof.
  intros Hl Hmodel. unfold normalize_sentence_transformers_input_shapes.
  erewrite bind_Return by (apply get_default_Return; exact Hl).
  unfold model_entry in Hmodel.
  assert (default (VStr "") (d !! "model") = VStr name) as ->.
  { destruct (d !! "model") as [[]|]; simpl; congruence. }
  erewrite bind_Return by reflexivity.
  erewrite bind_Return by (apply keys_Return; exact Hl).
  unfold sentence_transformers_axes. cbv zeta.
  destruct (contains "clip" (lower name));
    (case_decide; [|reflexivity]);
    erewrite bind_Return by (apply the_dict_Return; exact Hl); reflexivity.
Qed.

Lemma normalize_stable_diffusion_run names build l d flag w :
  heap w !! l = Some d ->
  d !! "do_classifier_free_guidance" = Some flag ->
  normalize_stable_diffusion_input_shapes names build (VRef l) w
  = (let D := names ∖ derived_axes in
     if decide (D ⊆ dom d) then
       let! mandatory_shapes := lift (comprehension D (delete "do_classifier_free_guidance" d)) in
       let kwargs := <["num_images_per_prompt" :=
                         default (VInt 1) (d !! "num_images_per_prompt")]> mandatory_shapes in
       let! input_shapes := lift (build flag kwargs) in
       alloc_nested input_shapes
     else raise AttributeError (MsgMandatoryShapes D (D ∖ dom d)))
      (with_heap (<[l := delete "do_classifier_free_guidance" d]> (heap w)) w).
Proof.
  intros Hl Hflag. unfold normalize_stable_diffusion_input_shapes.
  erewrite bind_Return by (eapply pop_Return; eassumption).
  erewrite bind_Return by (apply keys_Return; heap_lookup).
  cbv zeta. pose proof flag_is_derived as Hder.
  assert (names ∖ derived_axes ⊆ dom (delete "do_classifier_free_guidance" d)
          <-> names ∖ derived_axes ⊆ dom d) as Hiff.
  { rewrite dom_delete_L. set_solver. }
  assert ((names ∖ derived_axes) ∖ dom (delete "do_classifier_free_guidance" d)
          = (names ∖ derived_axes) ∖ dom d) as Hdiff.
  { rewrite dom_delete_L. set_solver. }
  destruct (decide (names ∖ derived_axes ⊆ dom d)) as [Hsub|Hsub].
  - rewrite decide_True by (apply Hiff; exact Hsub).
    erewrite bind_Return by (apply the_dict_Return; heap_lookup).
    unfold bind at 1 3. unfold lift at 1 3.
    destruct (comprehension (names ∖ derived_axes) (delete "do_classifier_free_guidance" d));
      [reflexivity|].
    erewrite bind_Return by (apply get_default_Return; heap_lookup).
    rewrite lookup_delete_ne by discriminate. reflexivity.
  - rewrite decide_False by (intros Hc; apply Hsub, Hiff, Hc).
    rewrite Hdiff. reflexivity.
Qed.


(** C7: for both normalisations, with [D] the set of mandatory axes
    (two or six axes by model name for sentence transformers, the
    builder's argument names minus the derived ones for stable diffusion),
    every caller-supplied mapping whose keys cover only a proper subset of
    [D] makes shape normalisation raise an error whose message reports
    exactly [D] minus the supplied keys as not given; and when all of [D]
    is supplied, every mandatory axis carries the caller's own value: no
    mandatory dimension is ever defaulted (only [num_images_per_prompt],
    which is not mandatory, defaults to 1).  The arguments are those the
    two functions expect besides the shapes: a [model] entry that is a
    string when present, and the [do_classifier_free_guidance] flag, which
    the stable-diffusion normalisation takes out of the mapping first. *)
Theorem C7_missing_mandatory_shapes :
  (forall l (d : gmap string pyval) w name,
      heap w !! l = Some d ->
      model_entry d = Some name ->
      let D := sentence_transformers_axes name in
      (dom d ∩ D ⊂ D ->
         normalize_sentence_transformers_input_shapes (VRef l) w
         = (Raise (mk_exn AttributeError (MsgMandatoryShapes D (D ∖ dom d))), w))
      /\ (D ⊆ dom d ->
          exists l' (m : gmap string pyval),
            normalize_sentence_transformers_input_shapes (VRef l) w
            = (Return (VRef l'), with_heap (<[l' := m]> (heap w)) w)
            /\ heap w !! l' = None
            /\ dom m = D
            /\ forall k, k ∈ D -> m !! k = d !! k))
  /\ (forall names build l (d : gmap string pyval) flag w,
        heap w !! l = Some d ->
        d !! "do_classifier_free_guidance" = Some flag ->
        let D := names ∖ derived_axes in
        let w1 := with_heap (<[l := delete "do_classifier_free_guidance" d]> (heap w)) w in
        (dom d ∩ D ⊂ D ->
           normalize_stable_diffusion_input_shapes names build (VRef l) w
           = (Raise (mk_exn AttributeError (MsgMandatoryShapes D (D ∖ dom d))), w1))
        /\ (D ⊆ dom d ->
            exists kwargs : gmap string pyval,
              normalize_stable_diffusion_input_shapes names build (VRef l) w
              = (let! shapes := lift (build flag kwargs) in alloc_nested shapes) w1
              /\ dom kwargs = D ∪ {[ "num_images_per_prompt" ]}
              /\ (forall k, k ∈ D -> kwargs !! k = d !! k)
              /\ kwargs !! "num_images_per_prompt"
                 = Some (default (VInt 1) (d !! "num_images_per_prompt")))).
Proof.
  split.
  - intros l d w name Hl Hmodel D. split.
    + intros Hproper. apply proper_subset_not_covered in Hproper.
      rewrite (normalize_sentence_transformers_run l d w name Hl Hmodel).
      cbv zeta. fold D. rewrite decide_False by exact Hproper. reflexivity.
    + intros Hsub.
      rewrite (normalize_sentence_transformers_run l d w name Hl Hmodel).
      cbv zeta. fold D. rewrite decide_True by exact Hsub.
      destruct (comprehension_spec D d Hsub) as (m & Hm & Hdom & Hval).
      exists (fresh (dom (heap w))), m.
      erewrite bind_Return by (unfold lift; rewrite Hm; reflexivity).
      split; [reflexivity|]. split; [apply new_dict_fresh; exact m|]. auto.
  - intros names build l d flag w Hl Hflag D w1. split.
    + intros Hproper. apply proper_subset_not_covered in Hproper.
      rewrite (normalize_stable_diffusion_run names build l d flag w Hl Hflag).
      cbv zeta. fold D. rewrite decide_False by exact Hproper. reflexivity.
    + intros Hsub.
      rewrite (normalize_stable_diffusion_run names build l d flag w Hl Hflag).
      cbv zeta. fold D. rewrite decide_True by exact Hsub.
      assert (D ⊆ dom (delete "do_classifier_free_guidance" d)) as Hsub'.
      { rewrite dom_delete_L. pose proof flag_is_derived. unfold D in *. set_solver. }
      destruct (comprehension_spec D _ Hsub') as (m & Hm & Hdom & Hval).
      exists (<["num_images_per_prompt" := default (VInt 1) (d !! "num_images_per_prompt")]> m).
      erewrite bind_Return by (unfold lift; rewrite Hm; reflexivity).
      split; [reflexivity|]. split; [|split].
      * rewrite dom_insert_L, Hdom. set_solver.
      * intros k Hk. assert (k <> "num_images_per_prompt") as Hne.
        { intros ->. pose proof num_images_is_derived. unfold D in Hk. set_solver. }
        assert (k <> "do_classifier_free_guidance") as Hne'.
        { intros ->. pose proof flag_is_derived. unfold D in Hk. set_solver. }
        rewrite lookup_insert_ne by congruence. rewrite (Hval k Hk).
        now rewrite lookup_delete_ne by congruence.
      * apply lookup_insert_eq.
Qed.


Lemma C7_witness :
  normalize_sentence_transformers_input_shapes (VRef 1%positive)
    (Examples.args_world Examples.st_args_without_length)
  = (Raise (mk_exn AttributeError
              (MsgMandatoryShapes {[ "batch_size"; "sequence_length" ]} {[ "sequence_length" ]})),
     Examples.args_world Examples.st_args_without_length)
  /\ (exists l' (m : gmap string pyval),
        normalize_sentence_transformers_input_shapes (VRef 1%positive)
          (Examples.args_world Examples.st_args_with_length)
        = (Return (VRef l'),
           with_heap (<[l' := m]> (heap (Examples.args_world Examples.st_args_with_length)))
             (Examples.args_world Examples.st_args_with_length))
        /\ m !! "batch_size" = Some (VInt 1)
        /\ m !! "sequence_length" = Some (VInt 128))
  /\ normalize_stable_diffusion_input_shapes Examples.builder_arg_names Examples.builder
       (VRef 1%positive) (Examples.args_world Examples.args_without_size)
     = (Raise (mk_exn AttributeError
                 (MsgMandatoryShapes {[ "batch_size"; "height"; "width" ]} {[ "height"; "width" ]})),
        Examples.args_world (<["batch_size" := VInt 1]> ∅))
  /\ (exists kwargs : gmap string pyval,
        normalize_stable_diffusion_input_shapes Examples.builder_arg_names Examples.builder
          (VRef 1%positive) (Examples.args_world Examples.args_with_size)
        = (let! shapes := lift (Examples.builder (VBool true) kwargs) in alloc_nested shapes)
            (Examples.args_world (delete "do_classifier_free_guidance" Examples.args_with_size))
        /\ kwargs !! "batch_size" = Some (VInt 1)
        /\ kwargs !! "height" = Some (VInt 64)
        /\ kwargs !! "width" = Some (VInt 64)
        /\ kwargs !! "num_images_per_prompt" = Some (VInt 1)).
Proof.
  pose proof (proj1 C7_missing_mandatory_shapes 1%positive
                Examples.st_args_without_length
                (Examples.args_world Examples.st_args_without_length)
                "sentence-transformers/all-MiniLM-L6-v2" eq_refl eq_refl) as [Hst_err _].
  pose proof (proj1 C7_missing_mandatory_shapes 1%positive
                Examples.st_args_with_length
                (Examples.args_world Examples.st_args_with_length)
                "sentence-transformers/all-MiniLM-L6-v2" eq_refl eq_refl) as [_ Hst_ok].
  pose proof (proj2 C7_missing_mandatory_shapes Examples.builder_arg_names Examples.builder
                1%positive Examples.args_without_size (VBool true)
                (Examples.args_world Examples.args_without_size) eq_refl eq_refl) as [Hsd_err _].
  pose proof (proj2 C7_missing_mandatory_shapes Examples.builder_arg_names Examples.builder
                1%positive Examples.args_with_size (VBool true)
                (Examples.args_world Examples.args_with_size) eq_refl eq_refl) as [_ Hsd_ok].
  cbv zeta in *.
  split; [|split; [|split]].
  - rewrite Hst_err.
    + vm_compute. reflexivity.
    + apply proper_subset_not_covered. apply (bool_decide_unpack _). vm_compute. exact I.
  - destruct Hst_ok as (l' & m & Hrun & _ & _ & Hval).
    + apply (bool_decide_unpack _). vm_compute. exact I.
    + exists l', m. split; [exact Hrun|].
      split; (rewrite Hval; [reflexivity | apply (bool_decide_unpack _); vm_compute; exact I]).
  - rewrite Hsd_err.
    + vm_compute. reflexivity.
    + apply proper_subset_not_covered. apply (bool_decide_unpack _). vm_compute. exact I.
  - destruct Hsd_ok as (kwargs & Hrun & _ & Hval & Hnum).
    + apply (bool_decide_unpack _). vm_compute. exact I.
    + exists kwargs. split.
      * rewrite Hrun. reflexivity.
      * repeat split; try (rewrite Hval; [reflexivity | apply (bool_decide_unpack _); vm_compute; exact I]).
        exact Hnum.
Defined.


(** Allocating the builder's dictionaries leaves every existing object
    as it is. *)
Lemma alloc_components_frame l :
  forall acc w, exists acc' w',
    alloc_components l acc w = (Return acc', w')
    /\ forall l0 d0, heap w !! l0 = Some d0 -> heap w' !! l0 = Some d0.
Proof.
  induction l as [|[name d] l IH]; intros acc w.
  - exists acc, w. split; [reflexivity | auto].
  - cbn [alloc_components].
    destruct (new_dict_fresh d w) as [Hnew Hfresh].
    erewrite bind_Return by exact Hnew.
    destruct (IH (<[name := VRef (fresh (dom (heap w)))]> acc)
                 (with_heap (<[fresh (dom (heap w)) := d]> (heap w)) w))
      as (acc' & w' & Hrun & Hframe).
    exists acc', w'. split; [exact Hrun|].
    intros l0 d0 Hl0. apply Hframe. rewrite heap_with_heap.
    rewrite lookup_insert_ne; [exact Hl0|]. intros E. congruence.
Qed.

Lemma alloc_nested_frame m w :
  exists l' w',
    alloc_nested m w = (Return (VRef l'), w')
    /\ heap w !! l' = None
    /\ forall l0 d0, heap w !! l0 = Some d0 -> heap w' !! l0 = Some d0.
Proof.
  unfold alloc_nested.
  destruct (alloc_components_frame (map_to_list m) ∅ w) as (outer & w1 & Hrun & Hframe).
  erewrite bind_Return by exact Hrun.
  destruct (new_dict_fresh outer w1) as [Hnew Hfresh].
  exists (fresh (dom (heap w1))), (with_heap (<[fresh (dom (heap w1)) := outer]> (heap w1)) w1).
  split; [exact Hnew|]. split.
  - destruct (heap w !! fresh (dom (heap w1))) as [d0|] eqn:E; [|reflexivity].
    apply Hframe in E. congruence.
  - intros l0 d0 Hl0. rewrite heap_with_heap.
    apply Hframe in Hl0. rewrite lookup_insert_ne; [exact Hl0|]. intros E. congruence.
Qed.

(** C10, as stated, fails: after normalisation the caller's argument
    mapping (object 1) has lost its [do_classifier_free_guidance] entry;
    after shape inference the caller's unet shapes (object 3) hold the
    scaled height and a sequence length, and the value returned is the
    caller's own mapping (object 1), not a fresh one. *)
Lemma C10_counterexample :
  let before := Examples.args_world Examples.args_with_size in
  let normalized :=
    normalize_stable_diffusion_input_shapes Examples.builder_arg_names Examples.builder
      (VRef 1%positive) before in
  let inferred :=
    infer_stable_diffusion_shapes_from_diffusers (VRef 1%positive)
      (Examples.pipeline Examples.standard_blocks) None Examples.shapes_world in
  (dimension before 1%positive "do_classifier_free_guidance" = Some (VBool true)
   /\ dimension (snd normalized) 1%positive "do_classifier_free_guidance" = None
   /\ heap (snd normalized) !! 1%positive <> heap before !! 1%positive)
  /\ (fst inferred = Return (VRef 1%positive)
      /\ dimension Examples.shapes_world 3%positive "height" = Some (VInt 64)
      /\ dimension (snd inferred) 3%positive "height" = Some (VInt 8)
      /\ dimension Examples.shapes_world 3%positive "sequence_length" = None
      /\ dimension (snd inferred) 3%positive "sequence_length" = Some (VInt 77)
      /\ heap (snd inferred) !! 3%positive <> heap Examples.shapes_world !! 3%positive).
Proof.
  cbv zeta. repeat apply conj; try vm_refl.
  - intros E.
    apply (f_equal (fun o : option (gmap string pyval) =>
                      match o with
                      | Some d => d !! "do_classifier_free_guidance"
                      | None => None
                      end)) in E.
    vm_compute in E. discriminate E.
  - intros E.
    apply (f_equal (fun o : option (gmap string pyval) =>
                      match o with
                      | Some d => d !! "sequence_length"
                      | None => None
                      end)) in E.
    vm_compute in E. discriminate E.
Qed.

(** C10 (amended): shape resolution works in place.
    [normalize_stable_diffusion_input_shapes] removes the
    [do_classifier_free_guidance] entry from the caller's argument mapping,
    leaves its other entries as they are and returns a new mapping;
    [infer_stable_diffusion_shapes_from_diffusers] writes the derived
    axes into the component dictionaries of the caller's [input_shapes]
    and returns that same mapping. *)
Theorem C10_resolution_updates_in_place :
  (forall names build l (d : gmap string pyval) flag w r w',
      heap w !! l = Some d ->
      d !! "do_classifier_free_guidance" = Some flag ->
      normalize_stable_diffusion_input_shapes names build (VRef l) w = (r, w') ->
      heap w' !! l = Some (delete "do_classifier_free_guidance" d)
      /\ match r with
         | Return x => exists l', x = VRef l' /\ heap w !! l' = None
         | Raise _ => True
         end)
  /\ (forall w lo lt lu le ld outer dt du de dd model cn t u v (h wd : Z),
        shapes_layout w lo lt lu le ld outer dt du de dd ->
        du !! "height" = Some (VInt h) ->
        du !! "width" = Some (VInt wd) ->
        attached_tokenizer model = Some t ->
        unet model = Val u ->
        vae model = Val v ->
        (some_controlnets cn = true ->
           is_Some (du !! "batch_size") /\ exists te, text_encoder model = Val te) ->
        exists w' du' de' dd',
          infer_stable_diffusion_shapes_from_diffusers (VRef lo) model cn w
          = (Return (VRef lo), w')
          /\ heap w' !! lt = Some (<["sequence_length" := VInt (model_max_length t)]> dt)
          /\ heap w' !! lu = Some du' /\ heap w' !! le = Some de' /\ heap w' !! ld = Some dd'
          /\ du' !! "sequence_length" = Some (VInt (model_max_length t))
          /\ du' !! "num_channels" = Some (VInt (unet_in_channels u))
          /\ de' !! "num_channels" = Some (VInt (vae_in_channels v))
          /\ dd' !! "num_channels" = Some (VInt (latent_channels v))).
Proof.
  split.
  - intros names build l d flag w r w' Hl Hflag Hrun.
    rewrite (normalize_stable_diffusion_run names build l d flag w Hl Hflag) in Hrun.
    cbv zeta in Hrun.
    set (w1 := with_heap (<[l := delete "do_classifier_free_guidance" d]> (heap w)) w) in *.
    assert (heap w1 !! l = Some (delete "do_classifier_free_guidance" d)) as Hl1.
    { unfold w1. rewrite heap_with_heap. apply lookup_insert_eq. }
    case_decide.
    + unfold bind at 1 in Hrun. unfold lift at 1 in Hrun.
      destruct (comprehension _ _) as [e|m].
      { inversion Hrun; subst. split; [exact Hl1 | exact I]. }
      unfold bind at 1 in Hrun. unfold lift at 1 in Hrun.
      destruct (build flag _) as [e|shapes].
      { inversion Hrun; subst. split; [exact Hl1 | exact I]. }
      destruct (alloc_nested_frame shapes w1) as (l' & w2 & Halloc & Hfresh & Hframe).
      rewrite Halloc in Hrun. inversion Hrun; subst r w'.
      split; [apply Hframe; exact Hl1|].
      exists l'. split; [reflexivity|].
      unfold w1 in Hfresh. rewrite heap_with_heap in Hfresh.
      destruct (decide (l' = l)) as [->|Hne].
      * rewrite lookup_insert_eq in Hfresh. discriminate.
      * rewrite lookup_insert_ne in Hfresh by congruence. exact Hfresh.
    + inversion Hrun; subst. split; [exact Hl1 | exact I].
  - intros w lo lt lu le ld outer dt du de dd model cn t u v h wd Hlay Hh Hw Htok Hu Hv Hcn.
    destruct (floordiv_scale_total h v) as [sh Hsh].
    destruct (floordiv_scale_total wd v) as [sw Hsw].
    destruct (infer_run _ _ _ _ _ _ _ _ _ _ _ _ _ _ _ _ _ _ _ _ Hlay Hh Hw Hsh Hsw Htok Hu Hv Hcn)
      as (w' & dt' & du' & de' & dd' & Hrun & _ & _ & Hlt & Hlu & Hle & Hld & Hdt' & _
          & Hseq & Hunc & _ & _ & Henc & _ & _ & Hdnc & _).
    exists w', du', de', dd'. subst dt'. tauto.
Qed.

Lemma C10_witness :
  (exists l' w',
      normalize_stable_diffusion_input_shapes Examples.builder_arg_names Examples.builder
        (VRef 1%positive) (Examples.args_world Examples.args_with_size) = (Return (VRef l'), w')
      /\ heap w' !! 1%positive
         = Some (delete "do_classifier_free_guidance" Examples.args_with_size)
      /\ heap (Examples.args_world Examples.args_with_size) !! l' = None)
  /\ (exists w' du' de' dd',
        infer_stable_diffusion_shapes_from_diffusers (VRef 1%positive)
          (Examples.pipeline Examples.standard_blocks) None Examples.shapes_world
        = (Return (VRef 1%positive), w')
        /\ heap w' !! 2%positive
           = Some (<["sequence_length" := VInt 77]> (<["batch_size" := VInt 1]> ∅))
        /\ heap w' !! 3%positive = Some du' /\ heap w' !! 4%positive = Some de'
        /\ heap w' !! 5%positive = Some dd'
        /\ du' !! "sequence_length" = Some (VInt 77)
        /\ du' !! "num_channels" = Some (VInt 4)
        /\ de' !! "num_channels" = Some (VInt 3)
        /\ dd' !! "num_channels" = Some (VInt 4)).
Proof.
  split.
  - destruct (normalize_stable_diffusion_input_shapes Examples.builder_arg_names
                Examples.builder (VRef 1%positive)
                (Examples.args_world Examples.args_with_size)) as [r w'] eqn:Hrun.
    destruct (proj1 C10_resolution_updates_in_place Examples.builder_arg_names
                Examples.builder 1%positive Examples.args_with_size (VBool true)
                (Examples.args_world Examples.args_with_size) r w' eq_refl eq_refl Hrun)
      as [Hkept Hnew].
    assert (exists x, r = Return x) as [x ->].
    { vm_compute in Hrun. inversion Hrun. eauto. }
    destruct Hnew as (l' & -> & Hfresh).
    exists l', w'. auto.
  - refine (proj2 C10_resolution_updates_in_place Examples.shapes_world
              1%positive 2%positive 3%positive 4%positive 5%positive
              _ (<["batch_size" := VInt 1]> ∅) _ _ _
              (Examples.pipeline Examples.standard_blocks) None
              {| model_max_length := 77 |} {| unet_in_channels := 4 |}
              {| vae_in_channels := 3; latent_channels := 4;
                 block_out_channels := Examples.standard_blocks |}
              64 64 _ _ _ _ _ _ _).
    + constructor; try reflexivity.
      apply (bool_decide_unpack _). vm_compute. exact I.
    + reflexivity.
    + reflexivity.
    + reflexivity.
    + reflexivity.
    + reflexivity.
    + discriminate.
Defined.


End ShapeResolverFacts.

(** ** Model Decomposer: properties *)
Module DecomposerFacts.

(** The pieces of [s.split("/")]: the first has no slash; when there are
    more, the last has none either and [s] ends with a slash followed by
    it; otherwise [s] is the first piece. *)
Lemma split_on_shape (s : string) :
  forall hd tl,
    split_on "/"%char s = (hd, tl) ->
    occurs "/"%char hd = false
    /\ match tl with
       | [] => s = hd
       | _ :: _ => occurs "/"%char (List.last tl EmptyString) = false
                   /\ exists p, s = (p ++ String "/"%char (List.last tl EmptyString))%string
       end.
Proof.
  induction s as [|c s IH]; intros hd tl Hsplit.
  - inversion Hsplit. auto.
  - cbn [split_on] in Hsplit. destruct (split_on "/"%char s) as [hd' tl'].
    destruct (IH hd' tl' eq_refl) as [Hhd Htl].
    destruct (Ascii.eqb_spec c "/"%char) as [->|Hc]; inversion Hsplit; subst hd tl; clear Hsplit.
    + split; [reflexivity|].
      destruct tl' as [|t tl''].
      * subst s. split; [exact Hhd|]. exists EmptyString. reflexivity.
      * destruct Htl as [Hlast [p ->]].
        change (List.last (hd' :: t :: tl'') EmptyString) with (List.last (t :: tl'') EmptyString).
        split; [exact Hlast|]. exists (String "/"%char p). reflexivity.
    + split.
      * cbn [occurs]. rewrite Hhd.
        destruct (Ascii.eqb_spec c "/"%char); [contradiction | reflexivity].
      * destruct tl' as [|t tl''].
        -- now subst s.
        -- destruct Htl as [Hlast [p ->]].
           split; [exact Hlast|]. exists (String c p). reflexivity.
Qed.

(** The last path segment of an identifier has no slash in it, and the
    identifier is that segment, possibly after a prefix and a slash. *)
Lemma last_piece_split (s : string) :
  let k := last_piece (split "/"%char s) in
  occurs "/"%char k = false
  /\ (s = k \/ exists p, s = (p ++ String "/"%char k)%string).
Proof.
  unfold last_piece, split.
  destruct (split_on "/"%char s) as [hd tl] eqn:Hsplit.
  destruct (split_on_shape s hd tl Hsplit) as [Hhd Htl].
  destruct tl as [|t tl'].
  - cbn [List.last]. auto.
  - change (List.last (hd :: t :: tl') EmptyString) with (List.last (t :: tl') EmptyString).
    destruct Htl as [Hlast Hp]. auto.
Qed.

(** C8, as stated, fails: the scales are tested for [float] alone
    (line 346), so a scale given as the bare integer 1, with three model
    identifiers, is returned bare and not as a one-element list. *)
Lemma C8_counterexample :
  _normalize_lora_params
    (VList [VStr "org/lora-a"; VStr "org/lora-b"; VStr "org/lora-c"]) VNone VNone (VInt 1)
  = (VList [VStr "org/lora-a"; VStr "org/lora-b"; VStr "org/lora-c"], VNone, VNone, VInt 1)
  /\ VInt 1 <> VList [VInt 1].
Proof. split; [reflexivity | discriminate]. Qed.

(** C8 (amended): for every combination of the four low-rank-adapter
    parameters, normalisation returns (it has no way to raise) and turns
    a bare [str] given for one of the three name parameters, and a bare
    [float] given for the scales, into a one-element list; every other
    value is returned as it is: a list, [None], and also a scalar of
    another type, such as an integer scale.  In particular three model
    identifiers with one scalar [float] scale give a one-element scale
    list. *)
Theorem C8_lora_params_normalised :
  (forall lora_model_ids lora_weight_names lora_adapter_names lora_scales,
      exists ids' names' adapters' scales',
        _normalize_lora_params lora_model_ids lora_weight_names lora_adapter_names lora_scales
        = (ids', names', adapters', scales')
        /\ lora_normalised is_str lora_model_ids ids'
        /\ lora_normalised is_str lora_weight_names names'
        /\ lora_normalised is_str lora_adapter_names adapters'
        /\ lora_normalised is_float lora_scales scales'
        /\ (is_str lora_model_ids = false -> ids' = lora_model_ids)
        /\ (is_str lora_weight_names = false -> names' = lora_weight_names)
        /\ (is_str lora_adapter_names = false -> adapters' = lora_adapter_names)
        /\ (is_float lora_scales = false -> scales' = lora_scales))
  /\ (forall a b c (scale : Q) weight_names adapter_names,
        exists names' adapters',
          _normalize_lora_params (VList [VStr a; VStr b; VStr c]) weight_names adapter_names
            (VFloat scale)
          = (VList [VStr a; VStr b; VStr c], names', adapters', VList [VFloat scale])).
Proof.
  split.
  - intros ids names adapters scales. unfold _normalize_lora_params.
    do 4 eexists. split; [reflexivity|].
    repeat split;
      try (intros Hs; rewrite Hs; reflexivity);
      try (intros l ->; reflexivity);
      try (intros ->; reflexivity).
  - intros a b c scale names adapters. unfold _normalize_lora_params.
    do 2 eexists. reflexivity.
Qed.

Lemma C8_witness :
  _normalize_lora_params
    (VList [VStr "org/lora-a"; VStr "org/lora-b"; VStr "org/lora-c"])
    VNone (VStr "style") (VFloat (1 # 2))
  = (VList [VStr "org/lora-a"; VStr "org/lora-b"; VStr "org/lora-c"],
     VNone, VList [VStr "style"], VList [VFloat (1 # 2)]).
Proof.
  destruct (proj1 C8_lora_params_normalised
              (VList [VStr "org/lora-a"; VStr "org/lora-b"; VStr "org/lora-c"])
              VNone (VStr "style") (VFloat (1 # 2)))
    as (ids' & names' & adapters' & scales' & Heq & Hids & Hnames & Hadapters & Hscales & _).
  rewrite Heq.
  destruct Hids as (_ & Hlist & _). rewrite (Hlist _ eq_refl).
  destruct Hnames as (_ & _ & Hnone). rewrite (Hnone eq_refl).
  destruct Hadapters as (Hscalar & _ & _). rewrite (Hscalar eq_refl).
  destruct Hscales as (Hfloat & _ & _). rewrite (Hfloat eq_refl).
  reflexivity.
Defined.

Section decomposition_facts.
Context `{Collaborators}.

(** The artifact names of an encoder-decoder model. *)
Lemma encoder_decoder_names :
  let names : gmap string string :=
    <[DECODER_NAME := path_join DECODER_NAME NEURON_FILE_NAME]>
    (<[ENCODER_NAME := path_join ENCODER_NAME NEURON_FILE_NAME]> ∅) in
  dom names = {[ "encoder"; "decoder" ]}
  /\ size names = 2%nat
  /\ names !! "encoder" = Some "encoder/model.neuron"
  /\ names !! "decoder" = Some "decoder/model.neuron".
Proof.
  cbv zeta. split; [|split; [|split]].
  - rewrite !dom_insert_L, dom_empty_L. unfold DECODER_NAME, ENCODER_NAME. set_solver.
  - rewrite map_size_insert_None, map_size_insert_None; [reflexivity|apply lookup_empty|].
    rewrite lookup_insert_ne by discriminate. apply lookup_empty.
  - reflexivity.
  - reflexivity.
Qed.

(** C5: for every encoder-decoder model, decomposition yields exactly
    two submodel entries, keyed "encoder" and "decoder", and an
    artifact-name map with exactly these two keys: the submodels are
    those built by [get_encoder_decoder_models_for_export], taken as the
    spec describes it, and the map sends each of the two names to
    [<name>/model.neuron].  When neuron-cc is the active compiler it
    raises a [RuntimeError] as its first step, whatever the other
    arguments, with nothing done and no submodel produced before.  The
    dispatcher sends every encoder-decoder model of a task other than
    stable diffusion there. *)
Theorem C5_encoder_decoder_decomposition :
  forall model input_shapes task output dynamic_batch_size model_name_or_path
         output_attentions output_hidden_states w,
    (is_neuron_available = true ->
       exists m,
         _get_submodels_and_neuron_configs_for_encoder_decoder model input_shapes task output
           dynamic_batch_size model_name_or_path output_attentions output_hidden_states w
         = (Raise (mk_exn RuntimeError m), w))
    /\ (is_neuron_available = false ->
        encoder_decoder_models_for_export_spec ->
        forall models w1 w2,
          get_encoder_decoder_models_for_export model task dynamic_batch_size input_shapes
            output_attentions output_hidden_states w = (Return models, w1) ->
          maybe_save_preprocessors model_name_or_path output "" w1 = (Return tt, w2) ->
          exists names : gmap string string,
            _get_submodels_and_neuron_configs_for_encoder_decoder model input_shapes task output
              dynamic_batch_size model_name_or_path output_attentions output_hidden_states w
            = (Return (models, names), w2)
            /\ dom models = {[ "encoder"; "decoder" ]}
            /\ size models = 2%nat
            /\ is_Some (models !! "encoder") /\ is_Some (models !! "decoder")
            /\ dom names = dom models
            /\ size names = 2%nat
            /\ names !! "encoder" = Some "encoder/model.neuron"
            /\ names !! "decoder" = Some "decoder/model.neuron")
    /\ (is_stable_diffusion_task task = false ->
        model_is_encoder_decoder model = true ->
        forall library_name subfolder submodels
               lora_model_ids lora_weight_names lora_adapter_names lora_scales controlnets,
          get_submodels_and_neuron_configs model input_shapes task output library_name subfolder
            dynamic_batch_size model_name_or_path submodels output_attentions output_hidden_states
            lora_model_ids lora_weight_names lora_adapter_names lora_scales controlnets w
          = _get_submodels_and_neuron_configs_for_encoder_decoder model input_shapes task output
              dynamic_batch_size model_name_or_path output_attentions output_hidden_states w).
Proof.
  intros model input_shapes task output dyn name oa ohs w.
  split; [|split].
  - intros Hcc. unfold _get_submodels_and_neuron_configs_for_encoder_decoder.
    rewrite Hcc. eexists. reflexivity.
  - intros Hcc Hspec models w1 w2 Hmodels Hsave.
    unfold _get_submodels_and_neuron_configs_for_encoder_decoder. rewrite Hcc.
    erewrite bind_Return by exact Hmodels.
    erewrite bind_Return by exact Hsave.
    pose proof (Hspec _ _ _ _ _ _ _ _ _ Hmodels) as Hdom.
    unfold ENCODER_NAME, DECODER_NAME in Hdom.
    destruct encoder_decoder_names as (Hnames & Hsize & Henc & Hdec).
    eexists. split; [reflexivity|].
    split; [exact Hdom|].
    split.
    { rewrite <- Hsize. rewrite <- (size_dom models), <- (size_dom (<[_ := _]> _)).
      rewrite Hdom, Hnames. reflexivity. }
    split; [apply elem_of_dom; rewrite Hdom; apply elem_of_union_l, elem_of_singleton_2;
            reflexivity|].
    split; [apply elem_of_dom; rewrite Hdom; apply elem_of_union_r, elem_of_singleton_2;
            reflexivity|].
    split; [rewrite Hdom; exact Hnames|].
    split; [exact Hsize|]. split; [exact Henc | exact Hdec].
  - intros Hsd Hed library_name subfolder submodels l1 l2 l3 l4 controlnets.
    unfold get_submodels_and_neuron_configs. rewrite Hsd, Hed. reflexivity.
Qed.

(** C6: for every single-graph model (task other than stable diffusion,
    model not encoder-decoder, no optional outputs requested) whose export
    configuration can be built, decomposition emits exactly one submodel
    entry, keyed by the last path segment of the model's identifier, or
    by the architecture type of the model when it has no identifier, and
    maps that key to the artifact file name "model.neuron". *)
Theorem C6_single_graph_entry :
  forall model input_shapes task output library_name subfolder dynamic_batch_size
         model_name_or_path submodels
         lora_model_ids lora_weight_names lora_adapter_names lora_scales controlnets
         constructor shapes neuron_config key w w1 w2 w3 w4,
    is_stable_diffusion_task task = false ->
    model_is_encoder_decoder model = false ->
    get_exporter_config_constructor model task library_name w = (Return constructor, w1) ->
    check_mandatory_input_shapes constructor task input_shapes w1 = (Return shapes, w2) ->
    construct_neuron_config constructor (config model) dynamic_batch_size shapes w2
    = (Return neuron_config, w3) ->
    maybe_save_preprocessors model_name_or_path output subfolder w3 = (Return tt, w4) ->
    single_graph_name model model_name_or_path = Some key ->
    get_submodels_and_neuron_configs model input_shapes task output library_name subfolder
      dynamic_batch_size model_name_or_path submodels false false
      lora_model_ids lora_weight_names lora_adapter_names lora_scales controlnets w
    = (Return ({[ key := (Whole model, neuron_config) ]}, {[ key := "model.neuron" ]}), w4)
    /\ (forall identifier,
          model_identifier model model_name_or_path = Some identifier ->
          occurs "/"%char key = false
          /\ (identifier = key \/ exists p, identifier = (p ++ String "/"%char key)%string))
    /\ (model_identifier model model_name_or_path = None ->
        model_type (config model) = Some key).
Proof.
  intros model input_shapes task output library_name subfolder dyn name submodels
    l1 l2 l3 l4 controlnets ctor shapes cfg key w w1 w2 w3 w4
    Hsd Hed Hctor Hcheck Hcfg Hsave Hkey.
  split; [|split].
  - unfold get_submodels_and_neuron_configs. rewrite Hsd, Hed. cbn [orb].
    erewrite bind_Return by exact Hctor.
    erewrite bind_Return by exact Hcheck.
    erewrite bind_Return by exact Hcfg.
    unfold single_graph_name, model_identifier in Hkey.
    set (chosen := if str_truthy (getattr_or_none (name_or_path model))
                   then getattr_or_none (name_or_path model) else name) in *.
    assert (forall K : string -> M (gmap string (Traceable * NeuronConfig) * gmap string string),
              (let! model_name :=
                 match chosen with
                 | Some name0 =>
                     if str_truthy chosen then ret (last_piece (split "/"%char name0))
                     else model_config_model_type model
                 | None => model_config_model_type model
                 end in K model_name) w3 = K key w3) as Hname.
    { intros K. unfold model_config_model_type.
      destruct chosen as [id|]; cbn [str_truthy] in *.
      - destruct (negb (String.eqb id "")).
        + inversion Hkey. reflexivity.
        + rewrite Hkey. reflexivity.
      - rewrite Hkey. reflexivity. }
    rewrite Hname.
    erewrite bind_Return by exact Hsave. reflexivity.
  - intros identifier Hid. unfold single_graph_name in Hkey. rewrite Hid in Hkey.
    inversion Hkey. apply last_piece_split.
  - intros Hnone. unfold single_graph_name in Hkey. rewrite Hnone in Hkey. exact Hkey.
Qed.

End decomposition_facts.

Lemma example_encoder_decoder_models :
  encoder_decoder_models_for_export_spec (H := Examples.collaborators false (ret tt)).
Proof.
  intros model task dyn shapes oa ohs w models w' Hrun.
  inversion Hrun. rewrite !dom_insert_L, dom_empty_L. set_solver.
Qed.

Lemma C5_witness :
  (exists m,
      _get_submodels_and_neuron_configs_for_encoder_decoder
        (H := Examples.collaborators true (ret tt))
        (Examples.transformers_model Examples.t5_config (Val "google/t5-small"))
        (VRef 1%positive) "text2text-generation" "out" false (Some "google/t5-small")
        false false Examples.shapes_world
      = (Raise (mk_exn RuntimeError m), Examples.shapes_world))
  /\ (exists models (names : gmap string string) w2,
        _get_submodels_and_neuron_configs_for_encoder_decoder
          (H := Examples.collaborators false (ret tt))
          (Examples.transformers_model Examples.t5_config (Val "google/t5-small"))
          (VRef 1%positive) "text2text-generation" "out" false (Some "google/t5-small")
          false false Examples.shapes_world
        = (Return (models, names), w2)
        /\ dom models = {[ "encoder"; "decoder" ]}
        /\ size models = 2%nat
        /\ dom names = dom models
        /\ size names = 2%nat
        /\ names !! "encoder" = Some "encoder/model.neuron"
        /\ names !! "decoder" = Some "decoder/model.neuron")
  /\ get_submodels_and_neuron_configs (H := Examples.collaborators false (ret tt))
       (Examples.transformers_model Examples.t5_config (Val "google/t5-small"))
       (VRef 1%positive) "text2text-generation" "out" None "" false (Some "google/t5-small")
       None false false VNone VNone VNone VNone None Examples.shapes_world
     = _get_submodels_and_neuron_configs_for_encoder_decoder
         (H := Examples.collaborators false (ret tt))
         (Examples.transformers_model Examples.t5_config (Val "google/t5-small"))
         (VRef 1%positive) "text2text-generation" "out" false (Some "google/t5-small")
         false false Examples.shapes_world.
Proof.
  split; [|split].
  - apply (proj1 (C5_encoder_decoder_decomposition (H := Examples.collaborators true (ret tt))
                    _ _ _ _ _ _ _ _ _)).
    reflexivity.
  - destruct (proj1 (proj2 (C5_encoder_decoder_decomposition
                              (H := Examples.collaborators false (ret tt))
                              (Examples.transformers_model Examples.t5_config (Val "google/t5-small"))
                              (VRef 1%positive) "text2text-generation" "out" false
                              (Some "google/t5-small") false false Examples.shapes_world))
                eq_refl example_encoder_decoder_models _ _ _ eq_refl eq_refl)
      as (names & Hrun & Hdom & Hsize & _ & _ & Hnames).
    eauto 10.
  - apply (proj2 (proj2 (C5_encoder_decoder_decomposition
                           (H := Examples.collaborators false (ret tt)) _ _ _ _ _ _ _ _ _)));
      reflexivity.
Defined.

Lemma C6_witness :
  get_submodels_and_neuron_configs (H := Examples.collaborators false (ret tt))
    (Examples.transformers_model Examples.bert_config (Val "org/bert-tiny"))
    (VRef 1%positive) "text-classification" "out" None "" false (Some "hub/other-name")
    None false false VNone VNone VNone VNone None Examples.shapes_world
  = (Return ({[ "bert-tiny" := (Whole (Examples.transformers_model Examples.bert_config
                                        (Val "org/bert-tiny")), tt) ]},
             {[ "bert-tiny" := "model.neuron" ]}),
     mk_world Examples.shapes_heap {[ "out/tokenizer.json" ]} [])
  /\ get_submodels_and_neuron_configs (H := Examples.collaborators false (ret tt))
       (Examples.transformers_model Examples.bert_config Absent)
       (VRef 1%positive) "text-classification" "out" None "" false None
       None false false VNone VNone VNone VNone None Examples.shapes_world
     = (Return ({[ "bert" := (Whole (Examples.transformers_model Examples.bert_config Absent),
                              tt) ]},
                {[ "bert" := "model.neuron" ]}),
        mk_world Examples.shapes_heap {[ "out/tokenizer.json" ]} []).
Proof.
  split.
  - exact (proj1 (C6_single_graph_entry (H := Examples.collaborators false (ret tt))
                    (Examples.transformers_model Examples.bert_config (Val "org/bert-tiny"))
                    (VRef 1%positive) "text-classification" "out" None "" false
                    (Some "hub/other-name") None VNone VNone VNone VNone None
                    tt (VRef 1%positive) tt "bert-tiny"
                    Examples.shapes_world Examples.shapes_world Examples.shapes_world
                    Examples.shapes_world
                    (mk_world Examples.shapes_heap {[ "out/tokenizer.json" ]} [])
                    eq_refl eq_refl eq_refl eq_refl eq_refl eq_refl eq_refl)).
  - exact (proj1 (C6_single_graph_entry (H := Examples.collaborators false (ret tt))
                    (Examples.transformers_model Examples.bert_config Absent)
                    (VRef 1%positive) "text-classification" "out" None "" false
                    None None VNone VNone VNone VNone None
                    tt (VRef 1%positive) tt "bert"
                    Examples.shapes_world Examples.shapes_world Examples.shapes_world
                    Examples.shapes_world
                    (mk_world Examples.shapes_heap {[ "out/tokenizer.json" ]} [])
                    eq_refl eq_refl eq_refl eq_refl eq_refl eq_refl eq_refl)).
Defined.

End DecomposerFacts.

(** ** Export Orchestrator: properties *)
Module OrchestratorFacts.

Lemma bind_Return_inv {A B} (m : M A) (k : A -> M B) w b w' :
  bind m k w = (Return b, w') ->
  exists a w1, m w = (Return a, w1) /\ k a w1 = (Return b, w').
Proof.
  unfold bind. destruct (m w) as [[e|a] w1]; intros Hrun; [discriminate|eauto].
Qed.

Lemma falsy_controlnet_ids ids :
  ids = VNone \/ ids = VList [] \/ ids = VStr "" -> truthy ids = false.
Proof. intros [->|[->| ->]]; reflexivity. Qed.

Section orchestration_facts.
Context `{Collaborators}.

(** C1: for every call to [load_models_and_neuron_configs] in which
    [controlnet_model_ids] is [None] or empty, the local [controlnets] is
    unbound when it is read for the call of
    [get_submodels_and_neuron_configs]: once the library is inferred and
    the model loaded, the call raises [UnboundLocalError] at that point,
    and in no case does it return; so neither does [main_export], which
    never gets to the export driver. *)
Theorem C1_controlnets_unbound :
  forall model_name_or_path output model task dynamic_batch_size cache_dir trust_remote_code
         subfolder revision force_download local_files_only use_auth_token submodels
         lora_model_ids lora_weight_names lora_adapter_names lora_scales controlnet_model_ids
         output_attentions output_hidden_states library_name input_shapes w,
    controlnet_model_ids = VNone \/ controlnet_model_ids = VList []
    \/ controlnet_model_ids = VStr "" ->
    (forall r w',
        load_models_and_neuron_configs model_name_or_path output model task dynamic_batch_size
          cache_dir trust_remote_code subfolder revision force_download local_files_only
          use_auth_token submodels
          lora_model_ids lora_weight_names lora_adapter_names lora_scales controlnet_model_ids
          output_attentions output_hidden_states library_name input_shapes w
        <> (Return r, w'))
    /\ (forall library w1 loaded w2,
          infer_library_from_model model_name_or_path subfolder library_name
            (snd (new_dict input_shapes w)) = (Return library, w1) ->
          match model with
          | None => get_model_from_task task model_name_or_path subfolder revision cache_dir
                      use_auth_token local_files_only force_download trust_remote_code library
          | Some m => ret m
          end w1 = (Return loaded, w2) ->
          load_models_and_neuron_configs model_name_or_path output model task dynamic_batch_size
            cache_dir trust_remote_code subfolder revision force_download local_files_only
            use_auth_token submodels
            lora_model_ids lora_weight_names lora_adapter_names lora_scales controlnet_model_ids
            output_attentions output_hidden_states library_name input_shapes w
          = (Raise (mk_exn UnboundLocalError (MsgUnbound "controlnets")), w2))
    /\ (forall compiler_kwargs atol disable_neuron_cache compiler_workdir
               inline_weights_to_neff optlevel do_validation w',
          main_export model_name_or_path output compiler_kwargs model task dynamic_batch_size
            atol cache_dir disable_neuron_cache compiler_workdir inline_weights_to_neff optlevel
            trust_remote_code subfolder revision force_download local_files_only use_auth_token
            do_validation submodels output_attentions output_hidden_states library_name
            lora_model_ids lora_weight_names lora_adapter_names lora_scales controlnet_model_ids
            input_shapes w
          <> (Return tt, w')).
Proof.
  intros name output model task dyn cache_dir trc subfolder revision fd lfo uat submodels
    l1 l2 l3 l4 ids oa ohs library_name input_shapes w Hids.
  apply falsy_controlnet_ids in Hids.
  assert (forall task0 w0 r w',
            load_models_and_neuron_configs name output model task0 dyn cache_dir trc subfolder
              revision fd lfo uat submodels l1 l2 l3 l4 ids oa ohs library_name input_shapes w0
            <> (Return r, w')) as Hnever.
  { intros task0 w0 r w' Hrun. unfold load_models_and_neuron_configs in Hrun.
    apply bind_Return_inv in Hrun as (shapes & wa & _ & Hrun).
    apply bind_Return_inv in Hrun as (library & wb & _ & Hrun).
    apply bind_Return_inv in Hrun as (loaded & wc & _ & Hrun).
    rewrite Hids in Hrun.
    apply bind_Return_inv in Hrun as (local & wd & Hlocal & Hrun).
    inversion Hlocal; subst local wd.
    apply bind_Return_inv in Hrun as (controlnets & we & Hread & _).
    discriminate. }
  split; [apply Hnever|]. split.
  - intros library w1 loaded w2 Hlib Hload.
    unfold load_models_and_neuron_configs.
    erewrite bind_Return by reflexivity.
    erewrite bind_Return by exact Hlib.
    erewrite bind_Return by exact Hload.
    rewrite Hids. reflexivity.
  - intros compiler_kwargs atol dnc workdir inline optlevel do_validation w' Hrun.
    unfold main_export in Hrun.
    apply bind_Return_inv in Hrun as (u & wa & _ & Hrun).
    apply bind_Return_inv in Hrun as (task' & wb & _ & Hrun).
    apply bind_Return_inv in Hrun as ([models names] & wc & Hload & _).
    exact (Hnever _ _ _ _ Hload).
Qed.

(** With validation requested, and once the pop of the [vae_encoder]
    outputs has succeeded on a stable-diffusion task, the validation block
    runs the validation engine on the remaining entries under the
    handlers. *)
Lemma validate_compiled_model_run task output atol models outs names w :
  (is_stable_diffusion_task task = true -> is_Some (outs !! "vae_encoder")) ->
  validate_compiled_model task output atol true models outs names w
  = try_except
      (validate_models_outputs (validated_entries task models) (validated_entries task outs)
         output atol (validated_entries task names) ;;
       logger INFO (ExportSucceeded output))
      (validation_handler output) w.
Proof.
  intros Hpop. unfold validate_compiled_model, validated_entries.
  destruct (is_stable_diffusion_task task).
  - destruct (Hpop eq_refl) as [x Hx].
    unfold pop_entry. rewrite Hx. reflexivity.
  - reflexivity.
Qed.

End orchestration_facts.

(** What [main_export] does once decomposition and export have gone
    through: the worlds [w1] to [w4] are those left by the directory
    check, the task synonym lookup, the decomposition and the export
    driver. *)
Section main_export_facts.
Context `{Collaborators}.
Variables (model_name_or_path output : string) (compiler_kwargs : gmap string pyval)
  (model : option Model) (task : string) (dynamic_batch_size : bool) (atol : pyval)
  (cache_dir : option string) (disable_neuron_cache : bool)
  (compiler_workdir : option string) (inline_weights_to_neff : bool) (optlevel : pyval)
  (trust_remote_code : bool) (subfolder revision : string)
  (force_download local_files_only : bool) (use_auth_token : pyval)
  (submodels : option (gmap string pyval))
  (output_attentions output_hidden_states : bool) (library_name : option string)
  (lora_model_ids lora_weight_names lora_adapter_names lora_scales : pyval)
  (controlnet_model_ids : pyval)
  (input_shapes : gmap string pyval).
Variables (w0 w1 w2 w3 w4 : world) (canonical_task : string)
  (models : gmap string (Traceable * NeuronConfig))
  (names : gmap string string)
  (outs : gmap string (list string)).

Hypothesis directory_checked : ensure_parent_directory output w0 = (Return tt, w1).
Hypothesis task_resolved : map_from_synonym task w1 = (Return canonical_task, w2).
Hypothesis model_decomposed :
  load_models_and_neuron_configs model_name_or_path output model canonical_task
    dynamic_batch_size cache_dir trust_remote_code subfolder revision force_download
    local_files_only use_auth_token submodels
    lora_model_ids lora_weight_names lora_adapter_names lora_scales controlnet_model_ids
    output_attentions output_hidden_states library_name input_shapes w2
  = (Return (models, names), w3).
Hypothesis submodels_exported :
  export_models models output disable_neuron_cache compiler_workdir inline_weights_to_neff
    optlevel names compiler_kwargs model_name_or_path w3 = (Return outs, w4).
Hypothesis vae_encoder_exported :
  is_stable_diffusion_task canonical_task = true -> is_Some (outs !! "vae_encoder").

Lemma main_export_runs_validation :
  main_export model_name_or_path output compiler_kwargs model task dynamic_batch_size
    atol cache_dir disable_neuron_cache compiler_workdir inline_weights_to_neff optlevel
    trust_remote_code subfolder revision force_download local_files_only use_auth_token
    true submodels output_attentions output_hidden_states library_name
    lora_model_ids lora_weight_names lora_adapter_names lora_scales controlnet_model_ids
    input_shapes w0
  = try_except
      (validate_models_outputs (validated_entries canonical_task models)
         (validated_entries canonical_task outs) output atol
         (validated_entries canonical_task names) ;;
       logger INFO (ExportSucceeded output))
      (validation_handler output) w4.
Proof.
  unfold main_export.
  erewrite bind_Return by exact directory_checked.
  erewrite bind_Return by exact task_resolved.
  erewrite bind_Return by exact model_decomposed.
  cbv beta iota.
  erewrite bind_Return by exact submodels_exported.
  apply validate_compiled_model_run. exact vae_encoder_exported.
Qed.

(** C4: in [main_export] with validation requested, once decomposition
    and export have gone through, every [ShapeError] raised by validation
    propagates out of [main_export]; an [AtolError], an [OutputMatchError]
    or any other exception (instance of [Exception]) raised by validation
    is caught: [main_export] returns, having only added a log record to
    what validation left, so that the exported files are still in place. *)
Theorem C4_validation_error_policy :
  forall e w5,
    validate_models_outputs (validated_entries canonical_task models)
      (validated_entries canonical_task outs) output atol
      (validated_entries canonical_task names) w4 = (Raise e, w5) ->
    let run :=
      main_export model_name_or_path output compiler_kwargs model task dynamic_batch_size
        atol cache_dir disable_neuron_cache compiler_workdir inline_weights_to_neff optlevel
        trust_remote_code subfolder revision force_download local_files_only use_auth_token
        true submodels output_attentions output_hidden_states library_name
        lora_model_ids lora_weight_names lora_adapter_names lora_scales controlnet_model_ids
        input_shapes w0 in
    (isinstance e ShapeError = true -> run = (Raise e, w5))
    /\ (exn_cls e = AtolError \/ exn_cls e = OutputMatchError ->
        run = (Return tt, logged WARNING (SucceededWithWarning e output) w5))
    /\ (isinstance e ShapeError = false -> isinstance e Exception = true ->
        exists lvl text,
          run = (Return tt, logged lvl text w5)
          /\ disk (logged lvl text w5) = disk w5
          /\ heap (logged lvl text w5) = heap w5).
Proof.
  intros e w5 Hval run. subst run. rewrite main_export_runs_validation.
  unfold try_except. erewrite bind_Raise by exact Hval.
  unfold validation_handler. split; [|split].
  - intros Hshape. rewrite Hshape. reflexivity.
  - destruct e as [c m]. cbn [exn_cls]. intros [->| ->]; reflexivity.
  - intros Hshape Hexn. rewrite Hshape, Hexn.
    destruct (isinstance e AtolError); [|destruct (isinstance e OutputMatchError)];
      do 2 eexists; (split; [reflexivity|split; reflexivity]).
Qed.

(** C9: in [main_export] with validation requested on a stable-diffusion
    task, the validation engine is run on the compiled named outputs, the
    submodel mapping and the artifact-name map with their [vae_encoder]
    entry removed, and every other entry of the three as it was. *)
Theorem C9_vae_encoder_not_validated :
  is_stable_diffusion_task canonical_task = true ->
  main_export model_name_or_path output compiler_kwargs model task dynamic_batch_size
    atol cache_dir disable_neuron_cache compiler_workdir inline_weights_to_neff optlevel
    trust_remote_code subfolder revision force_download local_files_only use_auth_token
    true submodels output_attentions output_hidden_states library_name
    lora_model_ids lora_weight_names lora_adapter_names lora_scales controlnet_model_ids
    input_shapes w0
  = try_except
      (validate_models_outputs (delete "vae_encoder" models) (delete "vae_encoder" outs)
         output atol (delete "vae_encoder" names) ;;
       logger INFO (ExportSucceeded output))
      (validation_handler output) w4
  /\ (delete "vae_encoder" models !! "vae_encoder" = None
      /\ delete "vae_encoder" outs !! "vae_encoder" = None
      /\ delete "vae_encoder" names !! "vae_encoder" = None)
  /\ (forall k, k <> "vae_encoder" ->
        delete "vae_encoder" models !! k = models !! k
        /\ delete "vae_encoder" outs !! k = outs !! k
        /\ delete "vae_encoder" names !! k = names !! k).
Proof.
  intros Hsd. split; [|split].
  - rewrite main_export_runs_validation. unfold validated_entries. rewrite Hsd. reflexivity.
  - rewrite !lookup_delete_eq. auto.
  - intros k Hk. rewrite !lookup_delete_ne by congruence. auto.
Qed.

End main_export_facts.
Lemma C1_witness :
  (exists w',
      Examples.decompose_without_controlnets VNone Examples.shapes_world
      = (Raise (mk_exn UnboundLocalError (MsgUnbound "controlnets")), w'))
  /\ (exists w',
        Examples.decompose_without_controlnets (VList []) Examples.shapes_world
        = (Raise (mk_exn UnboundLocalError (MsgUnbound "controlnets")), w')).
Proof.
  split; eexists.
  - unfold Examples.decompose_without_controlnets.
    eapply (proj1 (proj2 (C1_controlnets_unbound (H := Examples.collaborators false (ret tt))
                     _ _ _ _ _ _ _ _ _ _ _ _ _ _ _ _ _ _ _ _ _ _ _ (or_introl eq_refl))));
      reflexivity.
  - unfold Examples.decompose_without_controlnets.
    eapply (proj1 (proj2 (C1_controlnets_unbound (H := Examples.collaborators false (ret tt))
                     _ _ _ _ _ _ _ _ _ _ _ _ _ _ _ _ _ _ _ _ _ _ _ (or_intror (or_introl eq_refl)))));
      reflexivity.
Defined.

Lemma C4_witness :
  (exists w5,
      Examples.export_stable_diffusion (raise ShapeError (Msg "shape mismatch"))
        Examples.shapes_world
      = (Raise (mk_exn ShapeError (Msg "shape mismatch")), w5))
  /\ (exists w5,
        Examples.export_stable_diffusion (raise AtolError (Msg "atol exceeded"))
          Examples.shapes_world
        = (Return tt, logged WARNING
                        (SucceededWithWarning (mk_exn AtolError (Msg "atol exceeded")) "out") w5)
        /\ "out/unet/model.neuron" ∈ disk w5)
  /\ (exists lvl text w5,
        Examples.export_stable_diffusion (raise KeyError (MsgKey "logits"))
          Examples.shapes_world
        = (Return tt, logged lvl text w5)
        /\ "out/unet/model.neuron" ∈ disk w5).
Proof.
  pose (policy := fun validation =>
    C4_validation_error_policy (H := Examples.collaborators false validation)
      "runwayml/stable-diffusion-v1-5" "out" ∅
      (Some (Examples.pipeline Examples.standard_blocks))
      "stable-diffusion" false VNone None false None true (VStr "2") false "" "main"
      false false VNone None false false None VNone VNone VNone VNone
      (VStr "lllyasviel/sd-controlnet-canny") Examples.sd_kwargs
      Examples.shapes_world Examples.shapes_world Examples.shapes_world
      (snd (Examples.sd_decomposed validation)) (snd (Examples.sd_exported validation))
      "stable-diffusion" (Examples.sd_models validation) (Examples.sd_names validation)
      (Examples.sd_outputs validation)
      ltac:(vm_refl) ltac:(vm_refl) ltac:(vm_refl) ltac:(vm_refl)
      ltac:(intros _; exists ["sample"]; vm_refl)).
  split; [|split].
  - exists (snd (Examples.sd_exported (raise ShapeError (Msg "shape mismatch")))).
    exact (proj1 (policy (raise ShapeError (Msg "shape mismatch"))
                    (mk_exn ShapeError (Msg "shape mismatch"))
                    (snd (Examples.sd_exported (raise ShapeError (Msg "shape mismatch"))))
                    ltac:(vm_refl)) eq_refl).
  - exists (snd (Examples.sd_exported (raise AtolError (Msg "atol exceeded")))). split.
    + exact (proj1 (proj2 (policy (raise AtolError (Msg "atol exceeded"))
                             (mk_exn AtolError (Msg "atol exceeded"))
                             (snd (Examples.sd_exported (raise AtolError (Msg "atol exceeded"))))
                             ltac:(vm_refl)))
               (or_introl eq_refl)).
    + apply (bool_decide_unpack _). vm_compute. exact I.
  - destruct (proj2 (proj2 (policy (raise KeyError (MsgKey "logits"))
                              (mk_exn KeyError (MsgKey "logits"))
                              (snd (Examples.sd_exported (raise KeyError (MsgKey "logits"))))
                              ltac:(vm_refl)))
                eq_refl eq_refl) as (lvl & text & Hrun & _).
    exists lvl, text, (snd (Examples.sd_exported (raise KeyError (MsgKey "logits")))).
    split; [exact Hrun|].
    apply (bool_decide_unpack _). vm_compute. exact I.
Defined.

Lemma C9_witness :
  Examples.export_stable_diffusion (ret tt) Examples.shapes_world
  = try_except
      (validate_models_outputs (Collaborators := Examples.collaborators false (ret tt))
         (delete "vae_encoder" (Examples.sd_models (ret tt)))
         (delete "vae_encoder" (Examples.sd_outputs (ret tt)))
         "out" VNone (delete "vae_encoder" (Examples.sd_names (ret tt))) ;;
       logger INFO (ExportSucceeded "out"))
      (validation_handler "out") (snd (Examples.sd_exported (ret tt)))
  /\ is_Some (Examples.sd_models (ret tt) !! "vae_encoder")
  /\ delete "vae_encoder" (Examples.sd_models (ret tt)) !! "vae_encoder" = None
  /\ delete "vae_encoder" (Examples.sd_models (ret tt)) !! "unet"
     = Examples.sd_models (ret tt) !! "unet"
  /\ delete "vae_encoder" (Examples.sd_names (ret tt)) !! "unet" = Some "unet/model.neuron".
Proof.
  destruct (C9_vae_encoder_not_validated (H := Examples.collaborators false (ret tt))
      "runwayml/stable-diffusion-v1-5" "out" ∅
      (Some (Examples.pipeline Examples.standard_blocks))
      "stable-diffusion" false VNone None false None true (VStr "2") false "" "main"
      false false VNone None false false None VNone VNone VNone VNone
      (VStr "lllyasviel/sd-controlnet-canny") Examples.sd_kwargs
      Examples.shapes_world Examples.shapes_world Examples.shapes_world
      (snd (Examples.sd_decomposed (ret tt))) (snd (Examples.sd_exported (ret tt)))
      "stable-diffusion" (Examples.sd_models (ret tt)) (Examples.sd_names (ret tt))
      (Examples.sd_outputs (ret tt))
      ltac:(vm_refl) ltac:(vm_refl) ltac:(vm_refl) ltac:(vm_refl)
      ltac:(intros _; exists ["sample"]; vm_refl) eq_refl) as (Hrun & (Hgone & _) & Hkept).
  split; [exact Hrun|].
  split; [apply (bool_decide_unpack _); vm_compute; exact I|].
  split; [exact Hgone|].
  split; [apply Hkept; discriminate|].
  vm_refl.
Defined.

End OrchestratorFacts.

(** ** Command line: properties *)
Module CliFacts.

Lemma ns_getattr_Return l name w (d : gmap string pyval) x :
  heap w !! l = Some d -> d !! name = Some x -> ns_getattr (VRef l) name w = (Return x, w).
Proof. intros Hl Hx. unfold ns_getattr, attributes. now rewrite Hl, Hx. Qed.

Lemma ns_getattr_missing l name w (d : gmap string pyval) :
  heap w !! l = Some d -> d !! name = None ->
  ns_getattr (VRef l) name w = (Raise (mk_exn AttributeError (MsgNoAttribute name)), w).
Proof. intros Hl Hx. unfold ns_getattr, attributes. now rewrite Hl, Hx. Qed.

Lemma attributes_after_alloc l l' (d kw : gmap string pyval) w :
  heap w !! l = Some d -> heap w !! l' = None ->
  attributes (VRef l) (with_heap (<[l' := kw]> (heap w)) w) = d.
Proof.
  intros Hl Hl'. unfold attributes. rewrite heap_with_heap.
  rewrite lookup_insert_ne by congruence. now rewrite Hl.
Qed.

(** X1: [infer_compiler_kwargs] builds a new dictionary and leaves the
    namespace as it is.  Its [auto_cast] is that of the namespace with
    ["none"] turned into [None]; whenever that is [None] the
    [auto_cast_type] is [None] too, the namespace's not even being read,
    and otherwise it is the namespace's; [disable_fast_relayout] and
    [disable_fallback] are copied exactly when the namespace has them;
    there is no other entry. *)
Theorem X1_infer_compiler_kwargs :
  forall l (d : gmap string pyval) w given,
    heap w !! l = Some d ->
    d !! "auto_cast" = Some given ->
    (eq_str given "none" = false -> given <> VNone -> is_Some (d !! "auto_cast_type")) ->
    exists l' (kw : gmap string pyval),
      infer_compiler_kwargs (VRef l) w
      = (Return (VRef l'), with_heap (<[l' := kw]> (heap w)) w)
      /\ heap w !! l' = None
      /\ kw !! "auto_cast" = Some (if eq_str given "none" then VNone else given)
      /\ (eq_str given "none" = true \/ given = VNone -> kw !! "auto_cast_type" = Some VNone)
      /\ (eq_str given "none" = false -> given <> VNone ->
          kw !! "auto_cast_type" = d !! "auto_cast_type")
      /\ kw !! "disable_fast_relayout" = d !! "disable_fast_relayout"
      /\ kw !! "disable_fallback" = d !! "disable_fallback"
      /\ dom kw ⊆ {[ "auto_cast"; "auto_cast_type"; "disable_fast_relayout"; "disable_fallback" ]}.
Proof.
  intros l d w given Hl Hgiven Htype.
  unfold infer_compiler_kwargs.
  erewrite bind_Return by (eapply ns_getattr_Return; eassumption).
  set (auto_cast := if eq_str given "none" then VNone else given).
  assert (exists t,
            (if is_none auto_cast then ret VNone else ns_getattr (VRef l) "auto_cast_type") w
            = (Return t, w)
            /\ (eq_str given "none" = true \/ given = VNone -> t = VNone)
            /\ (eq_str given "none" = false -> given <> VNone -> Some t = d !! "auto_cast_type"))
    as (t & Ht & Hnone & Hsome).
  { unfold auto_cast. destruct (eq_str given "none") eqn:E.
    - exists VNone. split; [reflexivity | split; [auto | discriminate]].
    - destruct (is_none given) eqn:En.
      + assert (given = VNone) as -> by (destruct given; simpl in En; congruence).
        exists VNone. split; [reflexivity | split; [auto | congruence]].
      + assert (given <> VNone) as Hne by (intros ->; discriminate).
        destruct (Htype eq_refl Hne) as [t Ht]. exists t.
        split; [eapply ns_getattr_Return; eassumption|].
        split; [intros [?|?]; congruence | now intros]. }
  erewrite bind_Return by exact Ht.
  destruct (new_dict_fresh
              (update_items ∅ [("auto_cast", auto_cast); ("auto_cast_type", t)]) w)
    as [Hnew Hfresh].
  erewrite bind_Return by exact Hnew.
  set (l' := fresh (dom (heap w))) in *.
  set (kw0 := update_items ∅ [("auto_cast", auto_cast); ("auto_cast_type", t)]) in *.
  assert (forall (name : string) (kw : gmap string pyval) (K : M pyval),
    (let! has := ns_hasattr (VRef l) name in
     (if has then let! v := ns_getattr (VRef l) name in setitem (VRef l') name v else ret tt) ;;
     K) (with_heap (<[l' := kw]> (heap w)) w)
    = K (with_heap (<[l' := match d !! name with Some v => <[name := v]> kw | None => kw end]>
                      (heap w)) w)) as Hflag.
  { intros name kw K. unfold bind at 1. unfold ns_hasattr at 1.
    rewrite (attributes_after_alloc l l' d kw w Hl Hfresh).
    destruct (d !! name) as [v|] eqn:Hv.
    - rewrite bool_decide_eq_true_2 by eauto.
      rewrite bind_assoc.
      erewrite bind_Return.
      2:{ unfold ns_getattr. rewrite (attributes_after_alloc l l' d kw w Hl Hfresh), Hv.
          reflexivity. }
      erewrite bind_Return by (eapply setitem_Return; rewrite heap_with_heap; apply lookup_insert_eq).
      rewrite heap_with_heap, insert_insert_eq. reflexivity.
    - rewrite bool_decide_eq_false_2 by (intros [? ?]; discriminate).
      reflexivity. }
  rewrite Hflag. rewrite Hflag. unfold ret.
  eexists l', _. split; [reflexivity|]. split; [exact Hfresh|].
  assert (forall k, k <> "disable_fast_relayout" -> k <> "disable_fallback" ->
            match d !! "disable_fallback" with
            | Some v => <["disable_fallback" := v]>
                          match d !! "disable_fast_relayout" with
                          | Some v0 => <["disable_fast_relayout" := v0]> kw0
                          | None => kw0
                          end
            | None => match d !! "disable_fast_relayout" with
                      | Some v0 => <["disable_fast_relayout" := v0]> kw0
                      | None => kw0
                      end
            end !! k = kw0 !! k) as Hother.
  { intros k H1 H2.
    destruct (d !! "disable_fallback"), (d !! "disable_fast_relayout");
      rewrite ?lookup_insert_ne by congruence; reflexivity. }
  split; [rewrite Hother by discriminate; reflexivity|].
  split; [intros Hc; rewrite Hother by discriminate; subst kw0; rewrite (Hnone Hc); reflexivity|].
  split; [intros H1 H2; rewrite Hother by discriminate; subst kw0; rewrite <- (Hsome H1 H2); reflexivity|].
  split.
  { destruct (d !! "disable_fallback"), (d !! "disable_fast_relayout");
      rewrite ?lookup_insert_ne by discriminate; rewrite ?lookup_insert_eq; reflexivity. }
  split.
  { destruct (d !! "disable_fallback"), (d !! "disable_fast_relayout");
      rewrite ?lookup_insert_eq; try reflexivity;
      rewrite ?lookup_insert_ne by discriminate; reflexivity. }
  destruct (d !! "disable_fallback"), (d !! "disable_fast_relayout");
    unfold kw0, update_items; simpl; rewrite !dom_insert_L, dom_empty_L; set_solver.
Qed.

Lemma X1_witness :
  exists l' (kw : gmap string pyval),
    infer_compiler_kwargs (VRef 1%positive) CliExamples.cli_world
    = (Return (VRef l'),
       with_heap (<[l' := kw]> (heap CliExamples.cli_world)) CliExamples.cli_world)
    /\ kw !! "auto_cast" = Some VNone
    /\ kw !! "auto_cast_type" = Some VNone
    /\ kw !! "disable_fast_relayout" = None
    /\ kw !! "disable_fallback" = Some (VBool true).
Proof.
  destruct (X1_infer_compiler_kwargs 1%positive CliExamples.cli_args CliExamples.cli_world
              (VStr "none") eq_refl eq_refl (fun Hc _ => False_ind _ (eq_true_false_abs _ eq_refl Hc)))
    as (l' & kw & Hrun & _ & Hcast & Htype & _ & Hrelayout & Hfallback & _).
  exists l', kw.
  split; [exact Hrun|]. split; [exact Hcast|]. split; [exact (Htype (or_introl eq_refl))|].
  split; [exact Hrelayout | exact Hfallback].
Defined.

(** X2: [customize_optional_outputs] cannot fail, whatever the namespace
    holds: it builds a new dictionary with exactly the two entries
    [output_attentions] and [output_hidden_states], each the namespace's
    value when it has the attribute and [False] when it has not, and
    leaves every existing object as it is. *)
Theorem X2_customize_optional_outputs :
  forall args w,
    exists l' (out : gmap string pyval),
      customize_optional_outputs args w
      = (Return (VRef l'), with_heap (<[l' := out]> (heap w)) w)
      /\ heap w !! l' = None
      /\ dom out = {[ "output_attentions"; "output_hidden_states" ]}
      /\ out !! "output_attentions"
         = Some (default (VBool false) (attributes args w !! "output_attentions"))
      /\ out !! "output_hidden_states"
         = Some (default (VBool false) (attributes args w !! "output_hidden_states")).
Proof.
  intros args w. unfold customize_optional_outputs.
  destruct (new_dict_fresh ∅ w) as [Hnew Hfresh].
  erewrite bind_Return by exact Hnew.
  set (l' := fresh (dom (heap w))) in *.
  assert (forall (kw : gmap string pyval) name,
            kw !! name = None ->
            attributes args (with_heap (<[l' := kw]> (heap w)) w) !! name
            = attributes args w !! name) as Hattrs.
  { intros kw name Hname. unfold attributes. destruct args; try reflexivity.
    rewrite heap_with_heap. destruct (decide (l = l')) as [->|Hne].
    - now rewrite lookup_insert_eq, Hfresh, Hname, lookup_empty.
    - now rewrite lookup_insert_ne by congruence. }
  unfold bind at 1, ns_getattr_default at 1.
  rewrite (Hattrs ∅ "output_attentions" (lookup_empty _)).
  erewrite bind_Return by (eapply setitem_Return; rewrite heap_with_heap; apply lookup_insert_eq).
  rewrite heap_with_heap, insert_insert_eq, with_heap_twice.
  unfold bind at 1, ns_getattr_default at 1.
  rewrite (Hattrs _ "output_hidden_states") by (now rewrite lookup_insert_ne by discriminate).
  erewrite bind_Return by (eapply setitem_Return; rewrite heap_with_heap; apply lookup_insert_eq).
  rewrite heap_with_heap, insert_insert_eq, with_heap_twice.
  eexists l', _. split; [reflexivity|]. split; [exact Hfresh|].
  split; [rewrite !dom_insert_L, dom_empty_L; set_solver|].
  split; [now rewrite lookup_insert_ne, lookup_insert_eq by discriminate | now rewrite lookup_insert_eq].
Qed.

Lemma replace_char_removes a b s :
  a <> b -> ~ In a (list_ascii_of_string (replace_char a b s)).
Proof.
  intros Hab. induction s as [|c s IH]; simpl; [tauto|].
  intros [Hc|Hin]; [|tauto].
  destruct (Ascii.eqb_spec c a); congruence.
Qed.

Lemma replace_char_absent a b s :
  ~ In a (list_ascii_of_string s) -> replace_char a b s = s.
Proof.
  induction s as [|c s IH]; simpl; [reflexivity|].
  intros Hin. destruct (Ascii.eqb_spec c a) as [->|_]; [tauto|].
  rewrite IH by tauto. reflexivity.
Qed.

Lemma replace_char_length a b s :
  String.length (replace_char a b s) = String.length s.
Proof. induction s as [|c s IH]; simpl; [reflexivity|]. now rewrite IH. Qed.

Lemma list_ascii_of_string_app s t :
  list_ascii_of_string (s ++ t) = (list_ascii_of_string s ++ list_ascii_of_string t)%list.
Proof. induction s as [|c s IH]; simpl; [reflexivity|]. now rewrite IH. Qed.

Lemma getattr_each_Return l (d : gmap string pyval) w names :
  heap w !! l = Some d ->
  forall acc,
    (forall n, n ∈ names -> is_Some (d !! n)) ->
    exists shapes,
      getattr_each (VRef l) names acc w = (Return shapes, w)
      /\ (forall n, n ∈ names -> shapes !! n = d !! n)
      /\ (forall n, n ∉ names -> shapes !! n = acc !! n).
Proof.
  intros Hl. induction names as [|name rest IH]; intros acc Hall; simpl.
  - exists acc. split; [reflexivity|]. split; [intros n Hn; inversion Hn | reflexivity].
  - destruct (Hall name ltac:(left)) as [v Hv].
    erewrite bind_Return by (eapply ns_getattr_Return; eassumption).
    destruct (IH (<[name := v]> acc)) as (shapes & Hrun & Hin & Hout).
    { intros n Hn. apply Hall. now right. }
    exists shapes. split; [exact Hrun|]. split.
    + intros n Hn. destruct (decide (n ∈ rest)) as [Hr|Hr]; [now apply Hin|].
      apply elem_of_cons in Hn as [->|Hn]; [|contradiction].
      rewrite (Hout _ Hr), lookup_insert_eq. now symmetry.
    + intros n Hn. apply not_elem_of_cons in Hn as [Hne Hr].
      rewrite (Hout _ Hr). now rewrite lookup_insert_ne by congruence.
Qed.

Lemma getattr_each_missing l (d : gmap string pyval) w before name after :
  heap w !! l = Some d ->
  (forall n, n ∈ before -> is_Some (d !! n)) ->
  d !! name = None ->
  forall acc,
    getattr_each (VRef l) (before ++ name :: after) acc w
    = (Raise (mk_exn AttributeError (MsgNoAttribute name)), w).
Proof.
  intros Hl Hbefore Hname. induction before as [|b before IH]; intros acc; simpl.
  - erewrite bind_Raise by (eapply ns_getattr_missing; eassumption). reflexivity.
  - destruct (Hbefore b ltac:(left)) as [v Hv].
    erewrite bind_Return by (eapply ns_getattr_Return; eassumption).
    apply IH. intros n Hn. apply Hbefore. now right.
Qed.

Lemma replace_char_get a b s i :
  String.get i (replace_char a b s)
  = match String.get i s with
    | Some c => Some (if Ascii.eqb c a then b else c)
    | None => None
    end.
Proof.
  revert i. induction s as [|c s IH]; intros i; [reflexivity|].
  destruct i as [|i]; [reflexivity|]. apply IH.
Qed.

Section command_line_facts.
Context {C : Collaborators} {CC : CliCollaborators}.

(** X3: when the hub lookup fails, [infer_task] with task ["auto"] fails
    in the world the lookup left, and what it raises depends on the
    class of the failure alone.  For an instance of [KeyError] it raises
    a new [KeyError], and for an instance of the connection error of
    [requests], such as an [SSLError], a new connection error of that
    very class: either carries a message of the module's own, which
    lists the tasks of the [TasksManager] and ends with the text of the
    exception caught.  Any other exception is passed on as it is.  A
    task given explicitly is returned unchanged and the world is not
    touched, whatever the lookup would have done. *)
Theorem X3_infer_task_failure :
  forall model w e w',
    infer_task_from_model model w = (Raise e, w') ->
    (isinstance e KeyError = true ->
     infer_task "auto" model w
     = (Raise (mk_exn KeyError
                 (Msg ("The task could not be automatically inferred. Please provide the argument --task with the task from "
                       ++ join_with ", " get_all_tasks ++ ". Detailed error: "
                       ++ str_of_exception e))), w'))
    /\ (isinstance e KeyError = false ->
        isinstance e RequestsConnectionError = true ->
        infer_task "auto" model w
        = (Raise (mk_exn RequestsConnectionError
                    (Msg ("The task could not be automatically inferred as this is available only for models hosted on the Hugging Face Hub. Please provide the argument --task with the relevant task from "
                          ++ join_with ", " get_all_tasks ++ ". Detailed error: "
                          ++ str_of_exception e))), w'))
    /\ (isinstance e KeyError = false ->
        isinstance e RequestsConnectionError = false ->
        infer_task "auto" model w = (Raise e, w'))
    /\ (forall task, task <> "auto" -> infer_task task model w = (Return task, w)).
Proof.
  intros model w e w' Hlookup.
  assert (infer_task "auto" model w
          = (if isinstance e KeyError then
               raise KeyError
                 (Msg ("The task could not be automatically inferred. Please provide the argument --task with the task from "
                       ++ join_with ", " get_all_tasks ++ ". Detailed error: "
                       ++ str_of_exception e))
             else if isinstance e RequestsConnectionError then
               raise RequestsConnectionError
                 (Msg ("The task could not be automatically inferred as this is available only for models hosted on the Hugging Face Hub. Please provide the argument --task with the relevant task from "
                       ++ join_with ", " get_all_tasks ++ ". Detailed error: "
                       ++ str_of_exception e))
             else reraise e) w') as Hrun.
  { unfold infer_task. cbn [String.eqb Ascii.eqb Bool.eqb]. unfold try_except.
    rewrite Hlookup. reflexivity. }
  split; [|split; [|split]].
  - intros Hkey. rewrite Hrun, Hkey. reflexivity.
  - intros Hkey Hconn. rewrite Hrun, Hkey, Hconn. reflexivity.
  - intros Hkey Hconn. rewrite Hrun, Hkey, Hconn. reflexivity.
  - intros task Htask. unfold infer_task.
    destruct (String.eqb_spec task "auto"); [contradiction | reflexivity].
Qed.

(** X4: the model type [get_neuron_config_class] looks the exporter
    configuration up with is the declared model type in which every
    underscore has become a hyphen and every other character is kept in
    its place (so the declared type itself when it has no underscore),
    followed by ["-encoder"] exactly when the configuration says the
    model is an encoder-decoder; it never has an underscore.  The
    function is that lookup, run in the world the configuration loader
    left. *)
Theorem X4_exporter_model_type :
  forall task model_id w cfg w1 declared,
    auto_config_from_pretrained model_id w = (Return cfg, w1) ->
    model_type cfg = Some declared ->
    is_encoder_decoder cfg <> Absent ->
    exists base looked_up,
      get_neuron_config_class task model_id w
      = get_exporter_config_constructor_for_type looked_up task w1
      /\ (is_encoder_decoder cfg = Val true -> looked_up = base ++ "-encoder")
      /\ (is_encoder_decoder cfg <> Val true -> looked_up = base)
      /\ String.length base = String.length declared
      /\ (forall i,
            String.get i base
            = match String.get i declared with
              | Some c => Some (if Ascii.eqb c "_" then "-"%char else c)
              | None => None
              end)
      /\ ~ In "_"%char (list_ascii_of_string looked_up)
      /\ (~ In "_"%char (list_ascii_of_string declared) -> base = declared).
Proof.
  intros task model_id w cfg w1 declared Hcfg Htype Hattr.
  exists (replace_char "_" "-" declared).
  unfold get_neuron_config_class.
  erewrite bind_Return by exact Hcfg.
  rewrite Htype. erewrite bind_Return by reflexivity.
  assert (forall suffix,
            ~ In "_"%char (list_ascii_of_string suffix) ->
            ~ In "_"%char (list_ascii_of_string (replace_char "_" "-" declared ++ suffix)))
    as Hclean.
  { intros suffix Hsuffix. rewrite list_ascii_of_string_app, in_app_iff.
    intros [Hin|Hin]; [|tauto].
    now apply (replace_char_removes "_" "-" declared). }
  destruct (is_encoder_decoder cfg) as [| |[|]] eqn:Hed; [congruence| | |].
  - exists (replace_char "_" "-" declared).
    erewrite bind_Return by reflexivity.
    split; [reflexivity|]. split; [discriminate|]. split; [reflexivity|].
    split; [apply replace_char_length|]. split; [apply replace_char_get|].
    split; [apply replace_char_removes; discriminate | apply replace_char_absent].
  - exists (replace_char "_" "-" declared ++ "-encoder").
    erewrite bind_Return by reflexivity.
    split; [reflexivity|]. split; [reflexivity|]. split; [congruence|].
    split; [apply replace_char_length|]. split; [apply replace_char_get|].
    split; [apply Hclean; vm_compute; intuition discriminate | apply replace_char_absent].
  - exists (replace_char "_" "-" declared).
    erewrite bind_Return by reflexivity.
    split; [reflexivity|]. split; [discriminate|]. split; [reflexivity|].
    split; [apply replace_char_length|]. split; [apply replace_char_get|].
    split; [apply replace_char_removes; discriminate | apply replace_char_absent].
Qed.

(** X5: [get_input_shapes_and_config_class] reads from the namespace
    exactly the input arguments the configuration class names for the
    task.  When the namespace has them all, the result is a new
    dictionary whose keys are those names and whose values are the
    namespace's, [None] included, and every existing object is left as
    it is; when one is missing, the first missing one is reported by an
    [AttributeError] and no dictionary is created. *)
Theorem X5_input_shapes_from_namespace :
  forall task l (d d2 : gmap string pyval) w model c w1 names w2,
    heap w !! l = Some d ->
    d !! "model" = Some model ->
    get_neuron_config_class task model w = (Return c, w1) ->
    get_input_args_for_task (func c) task w1 = (Return names, w2) ->
    heap w2 !! l = Some d2 ->
    ((forall n, n ∈ names -> is_Some (d2 !! n)) ->
     exists l' (shapes : gmap string pyval),
       get_input_shapes_and_config_class task (VRef l) w
       = (Return (VRef l', func c), with_heap (<[l' := shapes]> (heap w2)) w2)
       /\ heap w2 !! l' = None
       /\ dom shapes = list_to_set names
       /\ (forall n, n ∈ names -> shapes !! n = d2 !! n))
    /\ (forall (before : list string) name after,
          names = (before ++ name :: after)%list ->
          (forall n, n ∈ before -> is_Some (d2 !! n)) ->
          d2 !! name = None ->
          get_input_shapes_and_config_class task (VRef l) w
          = (Raise (mk_exn AttributeError (MsgNoAttribute name)), w2)).
Proof.
  intros task l d d2 w model c w1 names w2 Hl Hmodel Hclass Hargs Hl2.
  unfold get_input_shapes_and_config_class.
  erewrite bind_Return by (eapply ns_getattr_Return; eassumption).
  erewrite bind_Return by exact Hclass.
  erewrite bind_Return by exact Hargs.
  split.
  - intros Hall.
    destruct (getattr_each_Return l d2 w2 names Hl2 ∅ Hall) as (shapes & Hrun & Hin & Hout).
    erewrite bind_Return by exact Hrun.
    destruct (new_dict_fresh shapes w2) as [Hnew Hfresh].
    erewrite bind_Return by exact Hnew.
    eexists _, shapes. split; [reflexivity|]. split; [exact Hfresh|].
    split; [|exact Hin].
    apply set_eq. intros n. rewrite elem_of_dom, elem_of_list_to_set.
    destruct (decide (n ∈ names)) as [Hn|Hn].
    + rewrite (Hin n Hn). split; [now intros _ | intros _; now apply Hall].
    + rewrite (Hout n Hn), lookup_empty. split; [intros [? ?]; discriminate | contradiction].
  - intros before name after -> Hbefore Hname.
    erewrite bind_Raise by (eapply getattr_each_missing; eassumption).
    reflexivity.
Qed.

(** X6: once the model is exported and saved, [decoder_export] cannot
    fail because of the tokenizer: when loading or saving the tokenizer
    raises an instance of [Exception], the export goes on to the warning
    and ends as the warning does; only an exception outside [Exception],
    an interrupt for one, is passed on. *)
Theorem X6_decoder_export_tokenizer_failure :
  forall model_name_or_path output trust_remote_code kwargs w w1 model w2 w3 e w4,
    ensure_parent_directory output w = (Return tt, w1) ->
    causal_lm_from_pretrained model_name_or_path trust_remote_code kwargs w1
    = (Return model, w2) ->
    save_neuron_model model output w2 = (Return tt, w3) ->
    (let! tokenizer := auto_tokenizer_from_pretrained model_name_or_path trust_remote_code in
     save_tokenizer tokenizer output) w3 = (Raise e, w4) ->
    (isinstance e Exception = true ->
     decoder_export model_name_or_path output trust_remote_code kwargs w
     = logger_warning ("No tokenizer found while exporting " ++ model_name_or_path ++ ".") w4)
    /\ (isinstance e Exception = false ->
        decoder_export model_name_or_path output trust_remote_code kwargs w = (Raise e, w4)).
Proof.
  intros model_name_or_path output trust_remote_code kwargs w w1 model w2 w3 e w4
         Hdir Hload Hsave Htok.
  unfold decoder_export.
  erewrite bind_Return by exact Hdir.
  erewrite bind_Return by exact Hload.
  erewrite bind_Return by exact Hsave.
  unfold try_except. rewrite Htok.
  split; intros ->; reflexivity.
Qed.


End command_line_facts.

Lemma X3_witness :
  exists text,
    @infer_task _
      (CliExamples.cli_collaborators
         (raise (Derived "requests.exceptions.SSLError" RequestsConnectionError)
            (Msg "certificate verify failed")) (ret tt))
      "auto" "org/bert_tiny" CliExamples.cli_world
    = (Raise (mk_exn RequestsConnectionError (Msg text)), CliExamples.cli_world).
Proof.
  eexists.
  exact (proj1 (proj2 (@X3_infer_task_failure _
           (CliExamples.cli_collaborators
              (raise (Derived "requests.exceptions.SSLError" RequestsConnectionError)
                 (Msg "certificate verify failed")) (ret tt))
           "org/bert_tiny" CliExamples.cli_world
           (mk_exn (Derived "requests.exceptions.SSLError" RequestsConnectionError)
              (Msg "certificate verify failed"))
           CliExamples.cli_world eq_refl)) eq_refl eq_refl).
Defined.

Lemma X4_witness :
  exists base looked_up,
    @get_neuron_config_class _ (CliExamples.cli_collaborators (ret "fill-mask") (ret tt))
      "fill-mask" (VStr "org/bert_tiny") CliExamples.cli_world
    = @get_exporter_config_constructor_for_type _
        (CliExamples.cli_collaborators (ret "fill-mask") (ret tt))
        looked_up "fill-mask" CliExamples.cli_world
    /\ looked_up = base ++ "-encoder"
    /\ String.length base = 8%nat
    /\ String.get 2 base = Some "g"%char
    /\ String.get 3 base = Some "-"%char.
Proof.
  destruct (@X4_exporter_model_type _ (CliExamples.cli_collaborators (ret "fill-mask") (ret tt))
              "fill-mask" (VStr "org/bert_tiny") CliExamples.cli_world
              {| is_pretrained_config := true; is_encoder_decoder := Val true;
                 model_type := Some "big_bird" |}
              CliExamples.cli_world "big_bird" eq_refl eq_refl
              ltac:(discriminate))
    as (base & looked_up & Hrun & Henc & _ & Hlen & Hget & _).
  exists base, looked_up.
  split; [exact Hrun|]. split; [exact (Henc eq_refl)|]. split; [exact Hlen|].
  split; [exact (Hget 2%nat) | exact (Hget 3%nat)].
Defined.

Lemma cli_args_has_shapes :
  forall n, n ∈ ["batch_size"; "sequence_length"] -> is_Some (CliExamples.cli_args !! n).
Proof.
  intros n Hn. rewrite !elem_of_cons in Hn.
  destruct Hn as [->|[->|Hn]]; [eexists; reflexivity | eexists; reflexivity |].
  inversion Hn.
Qed.

Lemma X5_witness :
  exists l' (shapes : gmap string pyval),
    @get_input_shapes_and_config_class _
      (CliExamples.cli_collaborators (ret "fill-mask") (ret tt))
      "fill-mask" (VRef 1%positive) CliExamples.cli_world
    = (Return (VRef l', tt),
       with_heap (<[l' := shapes]> (heap CliExamples.cli_world)) CliExamples.cli_world)
    /\ dom shapes = list_to_set ["batch_size"; "sequence_length"]
    /\ shapes !! "batch_size" = Some (VInt 1)
    /\ shapes !! "sequence_length" = Some VNone.
Proof.
  destruct (proj1 (@X5_input_shapes_from_namespace _
              (CliExamples.cli_collaborators (ret "fill-mask") (ret tt))
              "fill-mask" 1%positive CliExamples.cli_args CliExamples.cli_args
              CliExamples.cli_world (VStr "org/bert_tiny") tt CliExamples.cli_world
              ["batch_size"; "sequence_length"] CliExamples.cli_world
              eq_refl eq_refl eq_refl eq_refl eq_refl) cli_args_has_shapes)
    as (l' & shapes & Hrun & _ & Hdom & Hvalues).
  exists l', shapes.
  split; [exact Hrun|]. split; [exact Hdom|].
  split; [exact (Hvalues "batch_size" ltac:(left)) |
          exact (Hvalues "sequence_length" ltac:(right; left))].
Defined.

Lemma X6_witness :
  @decoder_export _
    (CliExamples.cli_collaborators (ret "text-generation")
       (raise (OtherError "OSError") (Msg "no tokenizer files")))
    "org/gpt_tiny" "out/" None ∅ CliExamples.cli_world
  = (Return tt, snd (Examples.write_file "out/model.neuron" CliExamples.cli_world)).
Proof.
  exact (proj1 (@X6_decoder_export_tokenizer_failure _
           (CliExamples.cli_collaborators (ret "text-generation")
              (raise (OtherError "OSError") (Msg "no tokenizer files")))
           "org/gpt_tiny" "out/" None ∅
           CliExamples.cli_world CliExamples.cli_world tt CliExamples.cli_world
           (snd (Examples.write_file "out/model.neuron" CliExamples.cli_world))
           (mk_exn (OtherError "OSError") (Msg "no tokenizer files"))
           (snd (Examples.write_file "out/model.neuron" CliExamples.cli_world))
           eq_refl eq_refl eq_refl eq_refl) eq_refl).
Defined.


End CliFacts.

(** ** Export Orchestrator: further properties *)
Module ExportFacts.

Lemma issubclass_Derived name base d :
  issubclass (Derived name base) d
  = if decide (Derived name base = d) then true else issubclass base d.
Proof. reflexivity. Qed.

(** A class outside [Exception] is outside the three validation errors,
    which derive from it. *)
Lemma outside_Exception c :
  issubclass c Exception = false ->
  issubclass c ShapeError = false /\ issubclass c AtolError = false
  /\ issubclass c OutputMatchError = false.
Proof.
  induction c as [| | | | | | | | | | | | | | | | | name | name base IH];
    try solve [vm_compute; intuition congruence].
  all: rewrite !issubclass_Derived; rewrite !decide_False by discriminate; exact IH.
Qed.

Section export_facts.
Context {C : Collaborators}.
Variables (model_name_or_path output : string) (compiler_kwargs : gmap string pyval)
  (model : option Model) (task : string) (dynamic_batch_size : bool) (atol : pyval)
  (cache_dir : option string) (disable_neuron_cache : bool)
  (compiler_workdir : option string) (inline_weights_to_neff : bool) (optlevel : pyval)
  (trust_remote_code : bool) (subfolder revision : string)
  (force_download local_files_only : bool) (use_auth_token : pyval)
  (submodels : option (gmap string pyval))
  (output_attentions output_hidden_states : bool) (library_name : option string)
  (lora_model_ids lora_weight_names lora_adapter_names lora_scales : pyval)
  (controlnet_model_ids : pyval)
  (input_shapes : gmap string pyval).
Variables (w0 w1 w2 w3 : world) (canonical_task : string)
  (models : gmap string (Traceable * NeuronConfig))
  (names : gmap string string).

Hypothesis directory_checked : ensure_parent_directory output w0 = (Return tt, w1).
Hypothesis task_resolved : map_from_synonym task w1 = (Return canonical_task, w2).
Hypothesis model_decomposed :
  load_models_and_neuron_configs model_name_or_path output model canonical_task
    dynamic_batch_size cache_dir trust_remote_code subfolder revision force_download
    local_files_only use_auth_token submodels
    lora_model_ids lora_weight_names lora_adapter_names lora_scales controlnet_model_ids
    output_attentions output_hidden_states library_name input_shapes w2
  = (Return (models, names), w3).

(** [main_export] up to the export driver. *)
Lemma main_export_reaches_export do_validation :
  main_export model_name_or_path output compiler_kwargs model task dynamic_batch_size
    atol cache_dir disable_neuron_cache compiler_workdir inline_weights_to_neff optlevel
    trust_remote_code subfolder revision force_download local_files_only use_auth_token
    do_validation submodels output_attentions output_hidden_states library_name
    lora_model_ids lora_weight_names lora_adapter_names lora_scales controlnet_model_ids
    input_shapes w0
  = (let! neuron_outputs :=
       export_models models output disable_neuron_cache compiler_workdir inline_weights_to_neff
         optlevel names compiler_kwargs model_name_or_path in
     validate_compiled_model canonical_task output atol do_validation models neuron_outputs
       names) w3.
Proof.
  unfold main_export.
  erewrite bind_Return by exact directory_checked.
  erewrite bind_Return by exact task_resolved.
  erewrite bind_Return by exact model_decomposed.
  reflexivity.
Qed.

(** X8: the handlers of [main_export] guard the validation only.  When
    the export driver raises, whatever the class of the exception, a
    tolerance error included, and whether or not validation was
    requested, [main_export] raises that exception in the world the
    driver left: nothing is validated and nothing is logged. *)
Theorem X8_export_failure_propagates :
  forall do_validation e w4,
    export_models models output disable_neuron_cache compiler_workdir inline_weights_to_neff
      optlevel names compiler_kwargs model_name_or_path w3 = (Raise e, w4) ->
    main_export model_name_or_path output compiler_kwargs model task dynamic_batch_size
      atol cache_dir disable_neuron_cache compiler_workdir inline_weights_to_neff optlevel
      trust_remote_code subfolder revision force_download local_files_only use_auth_token
      do_validation submodels output_attentions output_hidden_states library_name
      lora_model_ids lora_weight_names lora_adapter_names lora_scales controlnet_model_ids
      input_shapes w0
    = (Raise e, w4).
Proof.
  intros do_validation e w4 Hexport.
  rewrite main_export_reaches_export.
  erewrite bind_Raise by exact Hexport. reflexivity.
Qed.

Variables (w4 : world) (outs : gmap string (list string)).
Hypothesis submodels_exported :
  export_models models output disable_neuron_cache compiler_workdir inline_weights_to_neff
    optlevel names compiler_kwargs model_name_or_path w3 = (Return outs, w4).

Lemma main_export_reaches_validation do_validation :
  main_export model_name_or_path output compiler_kwargs model task dynamic_batch_size
    atol cache_dir disable_neuron_cache compiler_workdir inline_weights_to_neff optlevel
    trust_remote_code subfolder revision force_download local_files_only use_auth_token
    do_validation submodels output_attentions output_hidden_states library_name
    lora_model_ids lora_weight_names lora_adapter_names lora_scales controlnet_model_ids
    input_shapes w0
  = validate_compiled_model canonical_task output atol do_validation models outs names w4.
Proof.
  rewrite main_export_reaches_export.
  erewrite bind_Return by exact submodels_exported. reflexivity.
Qed.

(** X9: with [do_validation] false, [main_export] ends with the export
    driver: once decomposition and export have gone through it returns
    in the very world the driver left, for every task and whatever the
    validation engine would have done; in particular nothing is logged
    and the outputs need no [vae_encoder] entry. *)
Theorem X9_validation_skipped :
  main_export model_name_or_path output compiler_kwargs model task dynamic_batch_size
    atol cache_dir disable_neuron_cache compiler_workdir inline_weights_to_neff optlevel
    trust_remote_code subfolder revision force_download local_files_only use_auth_token
    false submodels output_attentions output_hidden_states library_name
    lora_model_ids lora_weight_names lora_adapter_names lora_scales controlnet_model_ids
    input_shapes w0
  = (Return tt, w4).
Proof. rewrite main_export_reaches_validation. reflexivity. Qed.

(** X10: on a stable-diffusion task with validation requested, the
    [vae_encoder] outputs are popped before the [try]: when the export
    driver reported none, [main_export] raises [KeyError] for
    ["vae_encoder"] in the world the driver left, although the export
    itself succeeded; no handler applies, the validation engine is not
    run and nothing is logged. *)
Theorem X10_missing_vae_encoder_outputs :
  is_stable_diffusion_task canonical_task = true ->
  outs !! "vae_encoder" = None ->
  main_export model_name_or_path output compiler_kwargs model task dynamic_batch_size
    atol cache_dir disable_neuron_cache compiler_workdir inline_weights_to_neff optlevel
    trust_remote_code subfolder revision force_download local_files_only use_auth_token
    true submodels output_attentions output_hidden_states library_name
    lora_model_ids lora_weight_names lora_adapter_names lora_scales controlnet_model_ids
    input_shapes w0
  = (Raise (mk_exn KeyError (MsgKey "vae_encoder")), w4).
Proof.
  intros Hsd Hnone. rewrite main_export_reaches_validation.
  unfold validate_compiled_model. rewrite Hsd.
  unfold pop_entry. rewrite Hnone. reflexivity.
Qed.

(** X11: with validation requested and the [vae_encoder] outputs in
    place on a stable-diffusion task, what [main_export] does after the
    export depends on the validation engine alone.  When the engine
    returns, [main_export] returns having added exactly one record, the
    [INFO] record of success, to the log the engine left, disk and heap
    being as the engine left them.  When the engine raises an exception
    that is no instance of [Exception], an interrupt for one,
    [main_export] raises it, nothing being logged.  On a task that is
    not stable diffusion the engine is given the three mappings as they
    are. *)
Theorem X11_validation_outcome :
  (is_stable_diffusion_task canonical_task = true -> is_Some (outs !! "vae_encoder")) ->
  forall r w5,
    validate_models_outputs (validated_entries canonical_task models)
      (validated_entries canonical_task outs) output atol
      (validated_entries canonical_task names) w4 = (r, w5) ->
    let run :=
      main_export model_name_or_path output compiler_kwargs model task dynamic_batch_size
        atol cache_dir disable_neuron_cache compiler_workdir inline_weights_to_neff optlevel
        trust_remote_code subfolder revision force_download local_files_only use_auth_token
        true submodels output_attentions output_hidden_states library_name
        lora_model_ids lora_weight_names lora_adapter_names lora_scales controlnet_model_ids
        input_shapes w0 in
    match r with
    | Return _ =>
        run = (Return tt, mk_world (heap w5) (disk w5) (log w5 ++ [(INFO, ExportSucceeded output)]))
    | Raise e => isinstance e Exception = false -> run = (Raise e, w5)
    end
    /\ (is_stable_diffusion_task canonical_task = false ->
        validated_entries canonical_task models = models
        /\ validated_entries canonical_task outs = outs
        /\ validated_entries canonical_task names = names).
Proof.
  intros Hpop r w5 Hval run. subst run. split.
  - rewrite main_export_reaches_validation.
    rewrite (OrchestratorFacts.validate_compiled_model_run _ _ _ _ _ _ _ Hpop).
    unfold try_except, bind. rewrite Hval.
    destruct r as [e|[]]; [|reflexivity].
    intros Hexn. unfold validation_handler.
    assert (isinstance e ShapeError = false /\ isinstance e AtolError = false
            /\ isinstance e OutputMatchError = false) as (-> & -> & ->).
    { apply outside_Exception. exact Hexn. }
    rewrite Hexn. reflexivity.
  - intros Hsd. unfold validated_entries. rewrite Hsd. auto.
Qed.

End export_facts.

Lemma X8_witness :
  ExportExamples.export_with
    (ExportExamples.with_export_driver (Examples.collaborators false (ret tt))
       ExportExamples.failing_driver)
    true Examples.shapes_world
  = (Raise (mk_exn (OtherError "MemoryError") (Msg "out of memory")),
     snd (Examples.sd_decomposed (ret tt))).
Proof.
  exact (X8_export_failure_propagates
           (C := ExportExamples.with_export_driver (Examples.collaborators false (ret tt))
                   ExportExamples.failing_driver)
           "runwayml/stable-diffusion-v1-5" "out" ∅
           (Some (Examples.pipeline Examples.standard_blocks))
           "stable-diffusion" false VNone None false None true (VStr "2") false "" "main"
           false false VNone None false false None VNone VNone VNone VNone
           (VStr "lllyasviel/sd-controlnet-canny") Examples.sd_kwargs
           Examples.shapes_world Examples.shapes_world Examples.shapes_world
           (snd (Examples.sd_decomposed (ret tt)))
           "stable-diffusion" (Examples.sd_models (ret tt)) (Examples.sd_names (ret tt))
           ltac:(vm_refl) ltac:(vm_refl) ltac:(vm_refl)
           true (mk_exn (OtherError "MemoryError") (Msg "out of memory"))
           (snd (Examples.sd_decomposed (ret tt))) ltac:(vm_refl)).
Defined.

Lemma X9_witness :
  ExportExamples.export_with
    (Examples.collaborators false (raise ShapeError (Msg "shape mismatch")))
    false Examples.shapes_world
  = (Return tt, snd (Examples.sd_exported (raise ShapeError (Msg "shape mismatch")))).
Proof.
  exact (X9_validation_skipped
           (C := Examples.collaborators false (raise ShapeError (Msg "shape mismatch")))
           "runwayml/stable-diffusion-v1-5" "out" ∅
           (Some (Examples.pipeline Examples.standard_blocks))
           "stable-diffusion" false VNone None false None true (VStr "2") false "" "main"
           false false VNone None false false None VNone VNone VNone VNone
           (VStr "lllyasviel/sd-controlnet-canny") Examples.sd_kwargs
           Examples.shapes_world Examples.shapes_world Examples.shapes_world
           (snd (Examples.sd_decomposed (raise ShapeError (Msg "shape mismatch"))))
           "stable-diffusion"
           (Examples.sd_models (raise ShapeError (Msg "shape mismatch")))
           (Examples.sd_names (raise ShapeError (Msg "shape mismatch")))
           ltac:(vm_refl) ltac:(vm_refl) ltac:(vm_refl)
           (snd (Examples.sd_exported (raise ShapeError (Msg "shape mismatch"))))
           (Examples.sd_outputs (raise ShapeError (Msg "shape mismatch")))
           ltac:(vm_refl)).
Defined.

Lemma X10_witness :
  ExportExamples.export_with
    (ExportExamples.with_export_driver (Examples.collaborators false (ret tt))
       ExportExamples.unet_only_driver)
    true Examples.shapes_world
  = (Raise (mk_exn KeyError (MsgKey "vae_encoder")), snd (Examples.sd_decomposed (ret tt))).
Proof.
  exact (X10_missing_vae_encoder_outputs
           (C := ExportExamples.with_export_driver (Examples.collaborators false (ret tt))
                   ExportExamples.unet_only_driver)
           "runwayml/stable-diffusion-v1-5" "out" ∅
           (Some (Examples.pipeline Examples.standard_blocks))
           "stable-diffusion" false VNone None false None true (VStr "2") false "" "main"
           false false VNone None false false None VNone VNone VNone VNone
           (VStr "lllyasviel/sd-controlnet-canny") Examples.sd_kwargs
           Examples.shapes_world Examples.shapes_world Examples.shapes_world
           (snd (Examples.sd_decomposed (ret tt)))
           "stable-diffusion" (Examples.sd_models (ret tt)) (Examples.sd_names (ret tt))
           ltac:(vm_refl) ltac:(vm_refl) ltac:(vm_refl)
           (snd (Examples.sd_decomposed (ret tt))) ExportExamples.unet_outputs
           ltac:(vm_refl) ltac:(vm_refl) ltac:(vm_refl)).
Defined.

Lemma X11_witness :
  Examples.export_stable_diffusion (ret tt) Examples.shapes_world
  = (Return tt,
     mk_world (heap (snd (Examples.sd_exported (ret tt))))
       (disk (snd (Examples.sd_exported (ret tt))))
       (log (snd (Examples.sd_exported (ret tt))) ++ [(INFO, ExportSucceeded "out")]))
  /\ Examples.export_stable_diffusion (raise KeyboardInterrupt (Msg "interrupted"))
       Examples.shapes_world
     = (Raise (mk_exn KeyboardInterrupt (Msg "interrupted")),
        snd (Examples.sd_exported (raise KeyboardInterrupt (Msg "interrupted")))).
Proof.
  pose (outcome := fun validation =>
    X11_validation_outcome (C := Examples.collaborators false validation)
      "runwayml/stable-diffusion-v1-5" "out" ∅
      (Some (Examples.pipeline Examples.standard_blocks))
      "stable-diffusion" false VNone None false None true (VStr "2") false "" "main"
      false false VNone None false false None VNone VNone VNone VNone
      (VStr "lllyasviel/sd-controlnet-canny") Examples.sd_kwargs
      Examples.shapes_world Examples.shapes_world Examples.shapes_world
      (snd (Examples.sd_decomposed validation))
      "stable-diffusion" (Examples.sd_models validation) (Examples.sd_names validation)
      ltac:(vm_refl) ltac:(vm_refl) ltac:(vm_refl)
      (snd (Examples.sd_exported validation)) (Examples.sd_outputs validation)
      ltac:(vm_refl) ltac:(intros _; exists ["sample"]; vm_refl)).
  split.
  - exact (proj1 (outcome (ret tt) (Return tt) (snd (Examples.sd_exported (ret tt)))
                    ltac:(vm_refl))).
  - exact (proj1 (outcome (raise KeyboardInterrupt (Msg "interrupted"))
                    (Raise (mk_exn KeyboardInterrupt (Msg "interrupted")))
                    (snd (Examples.sd_exported (raise KeyboardInterrupt (Msg "interrupted"))))
                    ltac:(vm_refl)) eq_refl).
Defined.

End ExportFacts.

(** ** Model Decomposer: further properties *)
Module DecompositionFacts.

(** *** [str] of an index *)

Lemma append_assoc (s t u : string) : (s ++ t) ++ u = s ++ (t ++ u).
Proof.
  induction s as [|c s IH]; [reflexivity|].
  change (String c ((s ++ t) ++ u) = String c (s ++ (t ++ u))). f_equal. exact IH.
Qed.

Lemma digits_value_app acc s t :
  digits_value acc (s ++ t) = digits_value (digits_value acc s) t.
Proof. revert acc. induction s as [|c s IH]; intros acc; simpl; [reflexivity | apply IH]. Qed.

Lemma str_of_nat_fuel_acc fuel :
  forall n acc, str_of_nat_fuel fuel n acc = str_of_nat_fuel fuel n "" ++ acc.
Proof.
  induction fuel as [|fuel IH]; intros n acc; cbn [str_of_nat_fuel]; [reflexivity|].
  destruct (n / 10)%nat as [|q] eqn:Hq; [reflexivity|].
  cbv beta iota zeta.
  rewrite (IH (S q) (String _ acc)), (IH (S q) (String _ "")).
  rewrite append_assoc. reflexivity.

Qed.

Lemma digit_of_value k : (k < 10)%nat -> (nat_of_ascii (digit_of k) - 48 = k)%nat.
Proof.
  intros Hk. unfold digit_of. rewrite nat_ascii_embedding by lia. lia.
Qed.

Lemma str_of_nat_fuel_value fuel :
  forall n, (n < fuel)%nat -> digits_value 0 (str_of_nat_fuel fuel n "") = n.
Proof.
  induction fuel as [|fuel IH]; intros n Hn; [lia|]. cbn [str_of_nat_fuel].
  pose proof (Nat.mod_upper_bound n 10 ltac:(lia)) as Hmod.
  pose proof (Nat.div_mod_eq n 10) as Hdiv.
  destruct (n / 10)%nat as [|q] eqn:Hq.
  - cbn [digits_value]. rewrite digit_of_value by exact Hmod. lia.
  - cbv beta iota zeta. rewrite str_of_nat_fuel_acc, digits_value_app.
    rewrite IH by lia. cbn [digits_value]. rewrite digit_of_value by exact Hmod. lia.
Qed.

(** [int(str(i)) == i] *)
Lemma str_of_nat_value n : digits_value 0 (str_of_nat n) = n.
Proof. apply str_of_nat_fuel_value. lia. Qed.

Lemma str_of_nat_inj a b : str_of_nat a = str_of_nat b -> a = b.
Proof. intros E. rewrite <- (str_of_nat_value a), <- (str_of_nat_value b), E. reflexivity. Qed.

Lemma ends_with_slash_app s c :
  ends_with_slash (s ++ String c "") = Ascii.eqb c "/".
Proof.
  induction s as [|c' s IH]; [reflexivity|].
  simpl. destruct (s ++ String c "") eqn:E; [|exact IH].
  destruct s; discriminate.
Qed.

Lemma digit_is_no_slash k : (k < 10)%nat -> Ascii.eqb (digit_of k) "/" = false.
Proof.
  intros Hk. do 10 (destruct k as [|k]; [reflexivity|]). lia.
Qed.

Lemma str_of_nat_last n :
  exists s, str_of_nat n = s ++ String (digit_of (n mod 10)) "".
Proof.
  unfold str_of_nat. cbn [str_of_nat_fuel].
  destruct (n / 10)%nat as [|q]; [exists ""; reflexivity|].
  rewrite str_of_nat_fuel_acc. eauto.
Qed.

Lemma append_inj_l (p s t : string) : p ++ s = p ++ t -> s = t.
Proof.
  induction p as [|c p IH]; [now intros|].
  change (String c (p ++ s) = String c (p ++ t) -> s = t).
  intros E. apply IH. congruence.
Qed.

Lemma controlnet_name_inj a b : controlnet_name a = controlnet_name b -> a = b.
Proof.
  unfold controlnet_name. intros E.
  apply str_of_nat_inj. eapply append_inj_l, append_inj_l, E.
Qed.

Lemma controlnet_name_path idx :
  path_join (controlnet_name idx) NEURON_FILE_NAME = controlnet_name idx ++ "/model.neuron".
Proof.
  unfold path_join, NEURON_FILE_NAME. simpl String.prefix. cbv iota.
  assert (ends_with_slash (controlnet_name idx) = false) as ->.
  { unfold controlnet_name. destruct (str_of_nat_last idx) as [s ->].
    rewrite <- !append_assoc, ends_with_slash_app.
    apply digit_is_no_slash, Nat.mod_upper_bound. lia. }
  reflexivity.
Qed.

Lemma controlnet_name_head idx : exists s, controlnet_name idx = String "c" s.
Proof. eexists. reflexivity. Qed.

(** *** The entries of the ControlNets *)

Lemma controlnet_names_lookup idxs :
  forall names,
    (forall idx, idx ∈ idxs ->
       controlnet_names idxs names !! controlnet_name idx
       = Some (controlnet_name idx ++ "/model.neuron"))
    /\ (forall k, (forall idx, idx ∈ idxs -> k <> controlnet_name idx) ->
          controlnet_names idxs names !! k = names !! k).
Proof.
  induction idxs as [|idx0 rest IH]; intros names.
  - split; [intros idx Hin; inversion Hin | reflexivity].
  - cbn [controlnet_names]. fold (controlnet_name idx0).
    destruct (IH (<[controlnet_name idx0 :=
                      path_join (controlnet_name idx0) NEURON_FILE_NAME]> names))
      as [Hin Hout].
    split.
    + intros idx Hidx. destruct (decide (idx ∈ rest)) as [Hr|Hr]; [now apply Hin|].
      apply elem_of_cons in Hidx as [->|Hidx]; [|contradiction].
      rewrite Hout.
      * rewrite lookup_insert_eq, controlnet_name_path. reflexivity.
      * intros idx Hidx E. apply controlnet_name_inj in E. congruence.
    + intros k Hk. rewrite Hout.
      * apply lookup_insert_ne. intros E. apply (Hk idx0); [now left | now symmetry].
      * intros idx Hidx. apply Hk. now right.
Qed.

Lemma controlnet_names_size idxs :
  forall names : gmap string string,
    NoDup idxs ->
    (forall idx, idx ∈ idxs -> names !! controlnet_name idx = None) ->
    size (controlnet_names idxs names) = (size names + length idxs)%nat.
Proof.
  induction idxs as [|idx0 rest IH]; intros names Hnd Hnone.
  - simpl. lia.
  - cbn [controlnet_names]. fold (controlnet_name idx0).
    apply NoDup_cons in Hnd as [Hnotin Hnd].
    rewrite IH.
    + rewrite map_size_insert_None by (apply Hnone; now left). simpl. lia.
    + exact Hnd.
    + intros idx Hidx. rewrite lookup_insert_ne.
      * apply Hnone. now right.
      * intros E. apply controlnet_name_inj in E. congruence.
Qed.

Lemma names_by_directory_insert k (names : gmap string string) :
  names_by_directory names ->
  names_by_directory (<[k := k ++ "/model.neuron"]> names).
Proof.
  intros Hwf k' v. destruct (decide (k' = k)) as [->|Hne].
  - rewrite lookup_insert_eq. congruence.
  - rewrite lookup_insert_ne by congruence. apply Hwf.
Qed.

Lemma names_by_directory_controlnets idxs :
  forall names, names_by_directory names -> names_by_directory (controlnet_names idxs names).
Proof.
  induction idxs as [|idx0 rest IH]; intros names Hwf; [exact Hwf|].
  cbn [controlnet_names]. fold (controlnet_name idx0). apply IH.
  rewrite controlnet_name_path. now apply names_by_directory_insert.
Qed.

Lemma is_Some_None_iff {A} (P : Prop) : ~ P -> (is_Some (@None A) <-> P).
Proof. intros HP. split; [intros [? ?]; discriminate | contradiction]. Qed.

Lemma is_Some_Some_iff {A} (x : A) (P : Prop) : P -> (is_Some (Some x) <-> P).
Proof. intros HP. split; [now intros _ | eauto]. Qed.

Section decomposition_more.
Context {C : Collaborators}.

(** X12: unsupported optional outputs are refused before anything is
    done.  On a stable-diffusion task [output_attentions] raises a
    [ValueError]; on a task that is neither stable diffusion nor run on
    an encoder-decoder model, either of [output_attentions] and
    [output_hidden_states] does.  In both cases the world is left as it
    was: no collaborator is consulted, nothing is saved, and the shapes
    are not touched. *)
Theorem X12_optional_outputs_refused :
  forall model input_shapes task output library_name subfolder dynamic_batch_size
         model_name_or_path submodels output_attentions output_hidden_states
         lora_model_ids lora_weight_names lora_adapter_names lora_scales controlnets w,
    (is_stable_diffusion_task task = true /\ output_attentions = true)
    \/ (is_stable_diffusion_task task = false /\ model_is_encoder_decoder model = false
        /\ (output_attentions = true \/ output_hidden_states = true)) ->
    exists m,
      get_submodels_and_neuron_configs model input_shapes task output library_name subfolder
        dynamic_batch_size model_name_or_path submodels output_attentions output_hidden_states
        lora_model_ids lora_weight_names lora_adapter_names lora_scales controlnets w
      = (Raise (mk_exn ValueError m), w).
Proof.
  intros model input_shapes task output library_name subfolder dyn name submodels oa ohs
         l1 l2 l3 l4 controlnets w Hcase.
  unfold get_submodels_and_neuron_configs.
  destruct Hcase as [[-> ->]|(-> & -> & Hflag)].
  - eexists. reflexivity.
  - assert (oa || ohs = true) as -> by (destruct Hflag as [-> | ->]; [|destruct oa]; reflexivity).
    eexists. reflexivity.
Qed.

(** X13: under neuron-cc the stable-diffusion decomposition raises a
    [RuntimeError], but only after the compiler compatibility check and
    the replacement of submodels have run: it fails in the world these
    two left, before any shape is inferred and before anything is
    saved. *)
Theorem X13_neuron_cc_refused :
  forall model input_shapes task output dynamic_batch_size submodels output_hidden_states
         lora_model_ids lora_weight_names lora_adapter_names lora_scales controlnets
         w w1 replaced w2,
    is_neuron_available = true ->
    check_compiler_compatibility_for_stable_diffusion w = (Return tt, w1) ->
    replace_stable_diffusion_submodels model submodels w1 = (Return replaced, w2) ->
    exists m,
      _get_submodels_and_neuron_configs_for_stable_diffusion model input_shapes task output
        dynamic_batch_size submodels output_hidden_states
        lora_model_ids lora_weight_names lora_adapter_names lora_scales controlnets w
      = (Raise (mk_exn RuntimeError m), w2).
Proof.
  intros model input_shapes task output dyn submodels ohs l1 l2 l3 l4 controlnets
         w w1 replaced w2 Hcc Hcheck Hreplace.
  unfold _get_submodels_and_neuron_configs_for_stable_diffusion.
  erewrite bind_Return by exact Hcheck.
  erewrite bind_Return by exact Hreplace.
  rewrite Hcc. eexists. reflexivity.
Qed.

(** The artifact-name map of a stable-diffusion decomposition that has
    returned, in terms of the pipeline after the replacement of
    submodels. *)
Lemma stable_diffusion_names_built model input_shapes task output dyn submodels ohs
    l1 l2 l3 l4 controlnets w models names w' :
  _get_submodels_and_neuron_configs_for_stable_diffusion model input_shapes task output
    dyn submodels ohs l1 l2 l3 l4 controlnets w = (Return (models, names), w') ->
  exists w1 replaced w2,
    check_compiler_compatibility_for_stable_diffusion w = (Return tt, w1)
    /\ replace_stable_diffusion_submodels model submodels w1 = (Return replaced, w2)
    /\ names
       = let base : gmap string string :=
           <["vae_decoder" := "vae_decoder/model.neuron"]>
           (<["vae_encoder" := "vae_encoder/model.neuron"]>
           (<["unet" := "unet/model.neuron"]> ∅)) in
         let base :=
           if getattr_or_none (text_encoder replaced) is Some _
           then <["text_encoder" := "text_encoder/model.neuron"]> base else base in
         let base :=
           if getattr_or_none (text_encoder_2 replaced) is Some _
           then <["text_encoder_2" := "text_encoder_2/model.neuron"]> base else base in
         match controlnets with
         | Some (c :: cs) => controlnet_names (seq 0 (length (c :: cs))) base
         | _ => base
         end.
Proof.
  unfold _get_submodels_and_neuron_configs_for_stable_diffusion. intros Hrun.
  apply OrchestratorFacts.bind_Return_inv in Hrun as ([] & w1 & Hcheck & Hrun).
  apply OrchestratorFacts.bind_Return_inv in Hrun as (replaced & w2 & Hreplace & Hrun).
  exists w1, replaced, w2. split; [exact Hcheck|]. split; [exact Hreplace|].
  destruct is_neuron_available; [discriminate|].
  apply OrchestratorFacts.bind_Return_inv in Hrun as (shapes & wa & _ & Hrun).
  apply OrchestratorFacts.bind_Return_inv in Hrun as (? & wb & _ & Hrun).
  apply OrchestratorFacts.bind_Return_inv in Hrun as (? & wc & _ & Hrun).
  apply OrchestratorFacts.bind_Return_inv in Hrun as (? & wd & _ & Hrun).
  apply OrchestratorFacts.bind_Return_inv in Hrun as (? & we & _ & Hrun).
  apply OrchestratorFacts.bind_Return_inv in Hrun as (? & wf & _ & Hrun).
  destruct (_normalize_lora_params l1 l2 l3 l4) as [[[? ?] ?] ?].
  apply OrchestratorFacts.bind_Return_inv in Hrun as (? & wg & _ & Hrun).
  apply OrchestratorFacts.bind_Return_inv in Hrun as (? & wh & _ & Hrun).
  apply OrchestratorFacts.bind_Return_inv in Hrun as (? & wi & _ & Hrun).
  apply OrchestratorFacts.bind_Return_inv in Hrun as (? & wj & _ & Hrun).
  apply OrchestratorFacts.bind_Return_inv in Hrun as (? & wk & _ & Hrun).
  apply OrchestratorFacts.bind_Return_inv in Hrun as (? & wl & _ & Hrun).
  inversion Hrun. reflexivity.
Qed.

(** X14: whenever the stable-diffusion decomposition returns, its
    artifact-name map sends every submodel name to
    [<name>/model.neuron].  Its keys are [unet], [vae_encoder] and
    [vae_decoder], [text_encoder] and [text_encoder_2] exactly when the
    pipeline (after the replacement of submodels) has that attribute and
    it is not [None], and [controlnet_<idx>] exactly for the indices
    below the number of ControlNets; so there is one entry per
    ControlNet, none of them overwriting another. *)
Theorem X14_stable_diffusion_artifact_names :
  forall model input_shapes task output dynamic_batch_size submodels output_hidden_states
         lora_model_ids lora_weight_names lora_adapter_names lora_scales controlnets
         w models names w',
    _get_submodels_and_neuron_configs_for_stable_diffusion model input_shapes task output
      dynamic_batch_size submodels output_hidden_states
      lora_model_ids lora_weight_names lora_adapter_names lora_scales controlnets w
    = (Return (models, names), w') ->
    exists w1 replaced w2,
      check_compiler_compatibility_for_stable_diffusion w = (Return tt, w1)
      /\ replace_stable_diffusion_submodels model submodels w1 = (Return replaced, w2)
      /\ names_by_directory names
      /\ (forall k, k ∈ ["unet"; "vae_encoder"; "vae_decoder"] -> is_Some (names !! k))
      /\ (is_Some (names !! "text_encoder")
          <-> is_Some (getattr_or_none (text_encoder replaced)))
      /\ (is_Some (names !! "text_encoder_2")
          <-> is_Some (getattr_or_none (text_encoder_2 replaced)))
      /\ (forall idx, is_Some (names !! controlnet_name idx)
                      <-> (idx < length (default [] controlnets))%nat)
      /\ size names
         = (3 + (if getattr_or_none (text_encoder replaced) is Some _ then 1 else 0)
            + (if getattr_or_none (text_encoder_2 replaced) is Some _ then 1 else 0)
            + length (default [] controlnets))%nat.
Proof.
  intros model input_shapes task output dyn submodels ohs l1 l2 l3 l4 controlnets
         w models names w' Hrun.
  destruct (stable_diffusion_names_built _ _ _ _ _ _ _ _ _ _ _ _ _ _ _ _ Hrun)
    as (w1 & replaced & w2 & Hcheck & Hreplace & Hnames).
  exists w1, replaced, w2. split; [exact Hcheck|]. split; [exact Hreplace|].
  cbv zeta in Hnames.
  set (base := if getattr_or_none (text_encoder_2 replaced) is Some _
               then <["text_encoder_2" := "text_encoder_2/model.neuron"]> _
               else _) in Hnames.
  set (n1 := if getattr_or_none (text_encoder replaced) is Some _ then 1%nat else 0%nat).
  set (n2 := if getattr_or_none (text_encoder_2 replaced) is Some _ then 1%nat else 0%nat).
  assert (names_by_directory base
          /\ base !! "unet" = Some "unet/model.neuron"
          /\ base !! "vae_encoder" = Some "vae_encoder/model.neuron"
          /\ base !! "vae_decoder" = Some "vae_decoder/model.neuron"
          /\ (is_Some (base !! "text_encoder")
              <-> is_Some (getattr_or_none (text_encoder replaced)))
          /\ (is_Some (base !! "text_encoder_2")
              <-> is_Some (getattr_or_none (text_encoder_2 replaced)))
          /\ (forall idx, base !! controlnet_name idx = None)
          /\ size base = (3 + n1 + n2)%nat)
    as (Hdir & Hunet & Hvenc & Hvdec & Hte & Hte2 & Hfree & Hsize).
  { unfold base, n1, n2.
    destruct (getattr_or_none (text_encoder replaced)) as [te|];
      destruct (getattr_or_none (text_encoder_2 replaced)) as [te2|];
      (split; [repeat first [ apply (names_by_directory_insert "text_encoder_2")
                            | apply (names_by_directory_insert "text_encoder")
                            | apply (names_by_directory_insert "vae_decoder")
                            | apply (names_by_directory_insert "vae_encoder")
                            | apply (names_by_directory_insert "unet") ];
               intros k v Hk; rewrite lookup_empty in Hk; discriminate|]);
      (split; [reflexivity|]); (split; [reflexivity|]); (split; [reflexivity|]);
      (split; [first [apply is_Some_Some_iff; eauto
                     | apply is_Some_None_iff; intros [? ?]; discriminate]|]);
      (split; [first [apply is_Some_Some_iff; eauto
                     | apply is_Some_None_iff; intros [? ?]; discriminate]|]);
      (split; [|reflexivity]);
      intros idx; destruct (controlnet_name_head idx) as [s ->];
      rewrite ?lookup_insert_ne by discriminate; apply lookup_empty. }
  clearbody base.
  assert (forall k, (forall idx, k <> controlnet_name idx) -> names !! k = base !! k) as Hkeep.
  { intros k Hk. subst names. destruct controlnets as [[|c cs]|]; try reflexivity.
    apply controlnet_names_lookup. intros idx _. apply Hk. }
  assert (forall s idx, String s "" <> "c" -> forall t, String s t <> controlnet_name idx)
    as Hhead.
  { intros s idx Hs t E. destruct (controlnet_name_head idx) as [x Hx].
    rewrite Hx in E. apply Hs. congruence. }
  split; [|split; [|split; [|split; [|split]]]].
  - subst names. destruct controlnets as [[|c cs]|]; try exact Hdir.
    now apply names_by_directory_controlnets.
  - intros k Hk. rewrite !elem_of_cons in Hk.
    destruct Hk as [->|[->|[->|Hk]]]; [| | |inversion Hk];
      (rewrite Hkeep; [eauto | intros idx; apply Hhead; discriminate]).
  - rewrite Hkeep; [exact Hte | intros idx; apply Hhead; discriminate].
  - rewrite Hkeep; [exact Hte2 | intros idx; apply Hhead; discriminate].
  - intros idx. subst names. destruct controlnets as [[|c cs]|].
    + rewrite Hfree. apply is_Some_None_iff. simpl. lia.
    + cbn [default]. set (nets := c :: cs).
      destruct (decide (idx < length nets)%nat) as [Hlt|Hge].
      * rewrite (proj1 (controlnet_names_lookup (seq 0 (length nets)) base) idx)
          by (apply elem_of_seq; lia).
        now apply is_Some_Some_iff.
      * rewrite (proj2 (controlnet_names_lookup (seq 0 (length nets)) base)).
        -- rewrite Hfree. now apply is_Some_None_iff.
        -- intros idx' Hin E. apply controlnet_name_inj in E. subst idx'.
           apply elem_of_seq in Hin. lia.
    + rewrite Hfree. apply is_Some_None_iff. simpl. lia.
  - subst names. destruct controlnets as [[|c cs]|].
    + rewrite Hsize. simpl. lia.
    + rewrite controlnet_names_size.
      * rewrite length_seq, Hsize. reflexivity.
      * apply NoDup_seq.
      * intros idx _. apply Hfree.
    + rewrite Hsize. simpl. lia.
Qed.

End decomposition_more.

Lemma X12_witness :
  exists m,
    get_submodels_and_neuron_configs (H := Examples.collaborators false (ret tt))
      (Examples.pipeline Examples.standard_blocks) (VRef 1%positive) "stable-diffusion" "out"
      None "" false None None true false VNone VNone VNone VNone None Examples.shapes_world
    = (Raise (mk_exn ValueError m), Examples.shapes_world).
Proof.
  exact (X12_optional_outputs_refused (C := Examples.collaborators false (ret tt))
           (Examples.pipeline Examples.standard_blocks) (VRef 1%positive) "stable-diffusion"
           "out" None "" false None None true false VNone VNone VNone VNone None
           Examples.shapes_world (or_introl (conj eq_refl eq_refl))).
Defined.

Lemma X13_witness :
  exists m,
    _get_submodels_and_neuron_configs_for_stable_diffusion
      (H := Examples.collaborators true (ret tt))
      (Examples.pipeline Examples.standard_blocks) (VRef 1%positive) "stable-diffusion"
      "out" false None false VNone VNone VNone VNone None Examples.shapes_world
    = (Raise (mk_exn RuntimeError m), Examples.shapes_world).
Proof.
  exact (X13_neuron_cc_refused (C := Examples.collaborators true (ret tt))
           (Examples.pipeline Examples.standard_blocks) (VRef 1%positive)
           "stable-diffusion" "out" false None false VNone VNone VNone VNone None
           Examples.shapes_world Examples.shapes_world
           (Examples.pipeline Examples.standard_blocks) Examples.shapes_world
           eq_refl eq_refl eq_refl).
Defined.

(** X15: [_normalize_lora_params] is idempotent: normalising what it
    returns changes nothing, a one-element list being neither a [str]
    nor a [float]. *)
Theorem X15_lora_normalisation_idempotent :
  forall lora_model_ids lora_weight_names lora_adapter_names lora_scales,
    exists ids names adapters scales,
      _normalize_lora_params lora_model_ids lora_weight_names lora_adapter_names lora_scales
      = (ids, names, adapters, scales)
      /\ _normalize_lora_params ids names adapters scales = (ids, names, adapters, scales).
Proof.
  intros a b c d. do 4 eexists. split; [reflexivity|].
  unfold _normalize_lora_params.
  assert (forall f x, (forall l, f (VList l) = false) ->
            (if f (if f x then VList [x] else x : pyval)
             then VList [if f x then VList [x] else x]
             else if f x then VList [x] else x)
            = (if f x then VList [x] else x)) as Hwrap.
  { intros f x Hf. destruct (f x) eqn:E; [now rewrite Hf | now rewrite E]. }
  rewrite !(Hwrap is_str) by reflexivity. rewrite (Hwrap is_float) by reflexivity.
  reflexivity.
Qed.

Lemma X14_witness :
  names_by_directory sd_decomposition_names
  /\ is_Some (sd_decomposition_names !! controlnet_name 0)
  /\ size sd_decomposition_names = 5%nat.
Proof.
  destruct (X14_stable_diffusion_artifact_names (C := Examples.collaborators false (ret tt))
              (Examples.pipeline Examples.standard_blocks) (VRef 1%positive)
              "stable-diffusion" "out" false None false VNone VNone VNone VNone
              (Some [ {| controlnet_id := "canny" |} ]) Examples.shapes_world
              sd_decomposition_models sd_decomposition_names (snd sd_decomposition)
              ltac:(vm_refl))
    as (w1 & replaced & w2 & Hcheck & Hreplace & Hdir & _ & _ & _ & Hnets & Hsize).
  inversion Hcheck; subst w1. inversion Hreplace; subst replaced w2.
  split; [exact Hdir|]. split; [apply Hnets; simpl; lia | exact Hsize].
Defined.

End DecompositionFacts.

(** ** Shape Resolver: further properties *)
Module ShapeInferenceFacts.
Import ShapeResolver.

Lemma layout_distinct_locs w lo lt lu le ld outer dt du de dd :
  shapes_layout w lo lt lu le ld outer dt du de dd ->
  lo <> lt /\ lo <> lu /\ lo <> le /\ lo <> ld /\ lt <> lu /\ lt <> le /\ lt <> ld
  /\ lu <> le /\ lu <> ld /\ le <> ld.
Proof.
  intros [_ _ _ _ _ _ _ _ _ Hnd].
  rewrite !NoDup_cons, !not_elem_of_cons in Hnd. tauto.
Qed.

(** One run of shape inference on a well laid out [input_shapes], with
    everything it leaves behind: the layout after the run, the four
    component dictionaries, the outer dictionary, the objects it does not
    touch and the dictionary it creates for the ControlNets. *)
Lemma infer_run_full w lo lt lu le ld outer dt du de dd model cn t u v height width sh sw :
  shapes_layout w lo lt lu le ld outer dt du de dd ->
  du !! "height" = Some height ->
  du !! "width" = Some width ->
  floordiv height (vae_scale_factor v) = Return sh ->
  floordiv width (vae_scale_factor v) = Return sw ->
  attached_tokenizer model = Some t ->
  unet model = Val u ->
  vae model = Val v ->
  (some_controlnets cn = true ->
     is_Some (du !! "batch_size") /\ exists te, text_encoder model = Val te) ->
  let L := model_max_length t in
  let du1 := update_items du [("sequence_length", VInt L);
                              ("num_channels", VInt (unet_in_channels u));
                              ("height", sh); ("width", sw)] in
  exists w' outer' dt' du' de' dd',
    infer_stable_diffusion_shapes_from_diffusers (VRef lo) model cn w = (Return (VRef lo), w')
    /\ disk w' = disk w /\ log w' = log w
    /\ shapes_layout w' lo lt lu le ld outer' dt' du' de' dd'
    /\ dt' = <["sequence_length" := VInt L]> dt
    /\ du' = (if some_controlnets cn
              then <["vae_scale_factor" := vae_scale_factor v]> du1 else du1)
    /\ de' = update_items de [("num_channels", VInt (vae_in_channels v));
                              ("height", height); ("width", width)]
    /\ dd' = update_items dd [("num_channels", VInt (latent_channels v));
                              ("height", sh); ("width", sw)]
    /\ (forall k, k <> "text_encoder_2" -> k <> "controlnet" -> outer' !! k = outer !! k)
    /\ outer' !! "text_encoder_2"
       = (if hasattr (text_encoder_2 model) then Some (VRef lt) else outer !! "text_encoder_2")
    /\ (forall l, l <> lo -> l <> lt -> l <> lu -> l <> le -> l <> ld ->
          is_Some (heap w !! l) -> heap w' !! l = heap w !! l)
    /\ (some_controlnets cn = false ->
          outer' !! "controlnet" = outer !! "controlnet"
          /\ dom (heap w') = dom (heap w))
    /\ (some_controlnets cn = true ->
          exists lc bs te,
            du !! "batch_size" = Some bs
            /\ text_encoder model = Val te
            /\ heap w !! lc = None
            /\ outer' !! "controlnet" = Some (VRef lc)
            /\ heap w' !! lc
               = Some (update_items ∅
                         [("batch_size", bs);
                          ("sequence_length", VInt L);
                          ("num_channels", VInt (unet_in_channels u));
                          ("height", sh);
                          ("width", sw);
                          ("vae_scale_factor", vae_scale_factor v);
                          ("encoder_hidden_size", VInt (hidden_size te))])).
Proof.
  intros Hlay Hh Hw Hfh Hfw Htok Hunet Hvae Hcn L du1.
  destruct (layout_distinct_locs _ _ _ _ _ _ _ _ _ _ _ Hlay) as (?&?&?&?&?&?&?&?&?&?).
  pose proof Hlay as [Ho Hte Hu Hve Hvd Hdt Hdu Hde Hdd Hnd].
  unfold infer_stable_diffusion_shapes_from_diffusers.
  assert (forall K : Z -> M pyval,
    (let! tok := attribute "tokenizer" (tokenizer model) in
     let! sequence_length :=
       match tok with
       | Some t => ret (model_max_length t)
       | None =>
         match tokenizer_2 model with
         | Val t2 => ret (model_max_length t2)
         | _ => raise AttributeError (Msg "Cannot infer sequence_length as there is no tokenizer as attribute.")
         end
       end in K sequence_length) w = K L w) as Hseq.
  { intros K. unfold attached_tokenizer in Htok. subst L.
    destruct (tokenizer model) as [| |t1]; [discriminate| |].
    - destruct (tokenizer_2 model) as [| |t2]; try discriminate. now inversion Htok.
    - now inversion Htok. }
  rewrite Hseq. clear Hseq.
  rewrite Hunet, Hvae. cbn [component].
  erewrite bind_Return by reflexivity.
  erewrite bind_Return by reflexivity.
  do 2 step_getitem.
  erewrite bind_Return by (unfold lift; rewrite Hfh; reflexivity).
  do 2 step_getitem.
  erewrite bind_Return by (unfold lift; rewrite Hfw; reflexivity).
  step_getitem. step_update.
  set (outer1 := if hasattr (text_encoder_2 model)
                 then <["text_encoder_2" := VRef lt]> outer else outer).
  assert (outer1 !! "text_encoder" = Some (VRef lt) /\ outer1 !! "unet" = Some (VRef lu)
          /\ outer1 !! "vae_encoder" = Some (VRef le)
          /\ outer1 !! "vae_decoder" = Some (VRef ld)) as (Hte1 & Hu1 & Hve1 & Hvd1).
  { unfold outer1. destruct (hasattr (text_encoder_2 model));
      rewrite ?lookup_insert_ne by discriminate; auto. }
  assert (((if hasattr (text_encoder_2 model)
            then let! te := getitem (VRef lo) "text_encoder" in
                 setitem (VRef lo) "text_encoder_2" te
            else ret tt)
             (with_heap (<[lt:=update_items dt [("sequence_length", VInt L)]]> (heap w)) w)
           = (Return tt,
              with_heap (<[lo:=outer1]>
                           (<[lt:=update_items dt [("sequence_length", VInt L)]]> (heap w))) w)))
    as Hte2.
  { unfold outer1. destruct (hasattr (text_encoder_2 model)).
    - step_getitem. erewrite setitem_Return by heap_lookup. reflexivity.
    - unfold ret. f_equal. unfold with_heap. f_equal.
      symmetry. apply insert_id. heap_lookup. }
  erewrite bind_Return by exact Hte2. clear Hte2.
  step_getitem. step_update.
  assert (forall k, k <> "text_encoder_2" -> k <> "controlnet" -> outer1 !! k = outer !! k)
    as Hkeep1.
  { intros k Hk _. unfold outer1. destruct (hasattr (text_encoder_2 model)); [|reflexivity].
    now rewrite lookup_insert_ne by congruence. }
  assert (outer1 !! "text_encoder_2"
          = (if hasattr (text_encoder_2 model) then Some (VRef lt)
             else outer !! "text_encoder_2")) as Hte21.
  { unfold outer1. destruct (hasattr (text_encoder_2 model)); [apply lookup_insert_eq | reflexivity]. }
  assert (outer1 !! "controlnet" = outer !! "controlnet") as Hcn1.
  { unfold outer1. destruct (hasattr (text_encoder_2 model)); [|reflexivity].
    now rewrite lookup_insert_ne by discriminate. }
  destruct (some_controlnets cn) eqn:Ecn.
  - destruct (Hcn eq_refl) as [[bs Hbs] [te Hte']].
    rewrite bind_assoc. step_getitem. step_setitem.
    step_getitem. step_update.
    step_getitem. step_update.
    rewrite bind_assoc. step_getitem. rewrite bind_assoc. step_getitem.
    rewrite bind_assoc.
    rewrite Hte'. cbn [component]. erewrite bind_Return by reflexivity.
    rewrite bind_assoc. erewrite bind_Return by reflexivity.
    cbn [heap with_heap].
    match goal with |- context [fresh (dom ?hp)] => set (h6 := hp) end.
    assert (fresh (dom h6) <> lo) by (eapply fresh_ne; subst h6; heap_lookup).
    assert (fresh (dom h6) <> lt) by (eapply fresh_ne; subst h6; heap_lookup).
    assert (fresh (dom h6) <> lu) by (eapply fresh_ne; subst h6; heap_lookup).
    assert (fresh (dom h6) <> le) by (eapply fresh_ne; subst h6; heap_lookup).
    assert (fresh (dom h6) <> ld) by (eapply fresh_ne; subst h6; heap_lookup).
    assert (heap w !! fresh (dom h6) = None) as Hnew.
    { destruct (heap w !! fresh (dom h6)) as [x|] eqn:E; [|reflexivity].
      exfalso. apply (fresh_ne h6 (fresh (dom h6)) x); [|reflexivity].
      subst h6. rewrite !lookup_insert_ne by congruence. exact E. }
    erewrite bind_Return; [| eapply setitem_Return; subst h6; heap_lookup ].
    unfold ret. do 6 eexists.
    split; [reflexivity|].
    split; [reflexivity|]. split; [reflexivity|].
    split.
    { constructor; try (subst h6; heap_lookup); try key_lookup; exact Hnd. }
    split; [reflexivity|]. split; [reflexivity|]. split; [reflexivity|].
    split; [reflexivity|].
    split; [intros k Hk1 Hk2; rewrite lookup_insert_ne by congruence; now apply Hkeep1|].
    split; [rewrite lookup_insert_ne by discriminate; exact Hte21|].
    split.
    { intros l Hlo Hlt Hlu Hle Hld [x Hx]. cbn [heap with_heap].
      assert (l <> fresh (dom h6)) as Hfresh.
      { intros E. rewrite E, Hnew in Hx. discriminate. }
      rewrite lookup_insert_ne by congruence.
      rewrite (lookup_insert_ne h6) by congruence.
      unfold h6. rewrite !lookup_insert_ne by congruence. reflexivity. }
    split; [discriminate|].
    intros _. exists (fresh (dom h6)), bs, te.
    split; [exact Hbs|]. split; [reflexivity|]. split; [exact Hnew|].
    split; [apply lookup_insert_eq|].
    cbn [heap with_heap]. rewrite lookup_insert_ne by congruence.
    rewrite lookup_insert_eq.
    reflexivity.
  - erewrite bind_Return by reflexivity.
    step_getitem. step_update.
    step_getitem. step_update.
    erewrite bind_Return by reflexivity.
    unfold ret. do 6 eexists.
    split; [reflexivity|].
    split; [reflexivity|]. split; [reflexivity|].
    split.
    { constructor; try heap_lookup; eassumption. }
    split; [reflexivity|]. split; [reflexivity|]. split; [reflexivity|].
    split; [reflexivity|].
    split; [exact Hkeep1|].
    split; [exact Hte21|].
    split.
    { intros l Hlo Hlt Hlu Hle Hld _. cbn [heap with_heap].
      rewrite !lookup_insert_ne by congruence. reflexivity. }
    split; [|discriminate].
    intros _. split; [exact Hcn1|].
    cbn [heap with_heap]. rewrite !dom_insert_L.
    apply elem_of_dom_2 in Ho, Hdt, Hdu, Hde, Hdd. set_solver.
Qed.

Lemma floordiv_scale_int (x : Z) v :
  block_out_channels v <> [] ->
  floordiv (VInt x) (vae_scale_factor v)
  = Return (VInt (x / 2 ^ (Z.of_nat (length (block_out_channels v)) - 1))).
Proof.
  intros Hblocks.
  rewrite (ShapeResolverFacts.vae_scale_factor_unclamped v Hblocks).
  set (s := 2 ^ (Z.of_nat (length (block_out_channels v)) - 1)).
  assert (0 < s).
  { unfold s. apply Z.pow_pos_nonneg; [lia|].
    destruct (block_out_channels v); [congruence | simpl length; lia]. }
  unfold floordiv. simpl. destruct (Z.eqb_spec s 0); [lia | reflexivity].
Qed.

(** X16: for a pipeline with a [text_encoder_2] attribute, shape
    inference does not copy the text encoder's shapes: after the run the
    [text_encoder_2] entry of [input_shapes] designates the very
    dictionary the [text_encoder] entry designates, so that whatever is
    later written through one entry is read through the other. *)
Theorem X16_text_encoder_2_shares_text_encoder :
  forall w lo lt lu le ld outer dt du de dd model cn t u v (h wd : Z),
    shapes_layout w lo lt lu le ld outer dt du de dd ->
    du !! "height" = Some (VInt h) ->
    du !! "width" = Some (VInt wd) ->
    attached_tokenizer model = Some t ->
    unet model = Val u ->
    vae model = Val v ->
    (some_controlnets cn = true ->
       is_Some (du !! "batch_size") /\ exists te, text_encoder model = Val te) ->
    hasattr (text_encoder_2 model) = true ->
    exists w',
      infer_stable_diffusion_shapes_from_diffusers (VRef lo) model cn w = (Return (VRef lo), w')
      /\ getitem (VRef lo) "text_encoder" w' = (Return (VRef lt), w')
      /\ getitem (VRef lo) "text_encoder_2" w' = (Return (VRef lt), w')
      /\ forall k x, exists w'',
           (let! te2 := getitem (VRef lo) "text_encoder_2" in setitem te2 k x) w'
           = (Return tt, w'')
           /\ (let! te := getitem (VRef lo) "text_encoder" in getitem te k) w''
              = (Return x, w'').
Proof.
  intros w lo lt lu le ld outer dt du de dd model cn t u v h wd
         Hlay Hh Hw Htok Hu Hv Hcn Hte2.
  destruct (ShapeResolverFacts.floordiv_scale_total h v) as [sh Hsh].
  destruct (ShapeResolverFacts.floordiv_scale_total wd v) as [sw Hsw].
  destruct (infer_run_full _ _ _ _ _ _ _ _ _ _ _ _ _ _ _ _ _ _ _ _
              Hlay Hh Hw Hsh Hsw Htok Hu Hv Hcn)
    as (w' & outer' & dt' & du' & de' & dd' & Hrun & _ & _ & Hlay' & _ & _ & _ & _ & _
        & Halias & _).
  rewrite Hte2 in Halias.
  destruct (layout_distinct_locs _ _ _ _ _ _ _ _ _ _ _ Hlay') as (Hne & _).
  destruct Hlay' as [Ho' Hte' _ _ _ Hdt' _ _ _ _].
  exists w'. split; [exact Hrun|].
  split; [eapply getitem_Return; eassumption|].
  split; [eapply getitem_Return; eassumption|].
  intros k x. eexists. split.
  - erewrite bind_Return by (eapply getitem_Return; eassumption).
    eapply setitem_Return. exact Hdt'.
  - erewrite bind_Return.
    2:{ eapply getitem_Return; [|exact Hte'].
        rewrite heap_with_heap, lookup_insert_ne by congruence. exact Ho'. }
    eapply getitem_Return.
    + rewrite heap_with_heap. apply lookup_insert_eq.
    + apply lookup_insert_eq.
Qed.

(** X17: with at least one ControlNet, shape inference adds to
    [input_shapes] a [controlnet] entry designating a dictionary that did
    not exist before, with exactly seven entries: the batch size of the
    unet shapes, the sequence length and the number of channels written
    to the unet shapes, the height and width as scaled for the unet, the
    compression factor, also written to the unet shapes, and the hidden
    size of the text encoder. *)
Theorem X17_controlnet_shapes :
  forall w lo lt lu le ld outer dt du de dd model cn t u v (h wd : Z) bs te,
    shapes_layout w lo lt lu le ld outer dt du de dd ->
    du !! "height" = Some (VInt h) ->
    du !! "width" = Some (VInt wd) ->
    attached_tokenizer model = Some t ->
    unet model = Val u ->
    vae model = Val v ->
    some_controlnets cn = true ->
    du !! "batch_size" = Some bs ->
    text_encoder model = Val te ->
    exists w' outer' du' lc (dc : gmap string pyval) sh sw,
      infer_stable_diffusion_shapes_from_diffusers (VRef lo) model cn w = (Return (VRef lo), w')
      /\ heap w' !! lo = Some outer' /\ heap w' !! lu = Some du'
      /\ outer' !! "controlnet" = Some (VRef lc)
      /\ heap w !! lc = None
      /\ heap w' !! lc = Some dc
      /\ dom dc = {[ "batch_size"; "sequence_length"; "num_channels"; "height"; "width";
                     "vae_scale_factor"; "encoder_hidden_size" ]}
      /\ dc !! "batch_size" = Some bs
      /\ dc !! "sequence_length" = Some (VInt (model_max_length t))
      /\ dc !! "num_channels" = Some (VInt (unet_in_channels u))
      /\ floordiv (VInt h) (vae_scale_factor v) = Return sh
      /\ floordiv (VInt wd) (vae_scale_factor v) = Return sw
      /\ dc !! "height" = Some sh /\ dc !! "width" = Some sw
      /\ du' !! "height" = Some sh /\ du' !! "width" = Some sw
      /\ dc !! "vae_scale_factor" = Some (vae_scale_factor v)
      /\ du' !! "vae_scale_factor" = Some (vae_scale_factor v)
      /\ dc !! "encoder_hidden_size" = Some (VInt (hidden_size te)).
Proof.
  intros w lo lt lu le ld outer dt du de dd model cn t u v h wd bs te
         Hlay Hh Hw Htok Hu Hv Hcn Hbs Hte.
  destruct (ShapeResolverFacts.floordiv_scale_total h v) as [sh Hsh].
  destruct (ShapeResolverFacts.floordiv_scale_total wd v) as [sw Hsw].
  destruct (infer_run_full w lo lt lu le ld outer dt du de dd model cn t u v _ _ sh sw
              Hlay Hh Hw Hsh Hsw Htok Hu Hv
              (fun _ => conj (ex_intro _ bs Hbs) (ex_intro _ te Hte)))
    as (w' & outer' & dt' & du' & de' & dd' & Hrun & _ & _ & Hlay' & _ & Hdu' & _ & _ & _
        & _ & _ & _ & Hnets).
  destruct (Hnets Hcn) as (lc & bs' & te' & Hbs' & Hte' & Hfresh & Hentry & Hdc).
  assert (bs' = bs) as -> by congruence.
  assert (te' = te) as -> by congruence.
  rewrite Hcn in Hdu'.
  destruct Hlay' as [Ho' _ _ _ _ _ Hlu' _ _ _].
  exists w', outer', du', lc. eexists. exists sh, sw.
  split; [exact Hrun|]. split; [exact Ho'|]. split; [exact Hlu'|].
  split; [exact Hentry|]. split; [exact Hfresh|]. split; [exact Hdc|].
  split.
  { unfold update_items. simpl. rewrite !dom_insert_L, dom_empty_L. set_solver. }
  subst du'.
  repeat (split; [first [ exact Hsh | exact Hsw | key_lookup ]|]).
  key_lookup.
Qed.

(** X18: what shape inference leaves alone.  After a run the five
    dictionaries of [input_shapes] are the same five objects, disk and
    log are as before, and every other object of the heap is untouched.
    In the component dictionaries only the axes the function names are
    written: every other entry, the batch sizes among them, keeps its
    value; the outer dictionary keeps every entry but [text_encoder_2]
    and [controlnet].  Without ControlNets ([None] or an empty list) no
    object is created, and neither a [controlnet] entry nor the
    [vae_scale_factor] of the unet is written. *)
Theorem X18_shape_inference_frame :
  forall w lo lt lu le ld outer dt du de dd model cn t u v (h wd : Z),
    shapes_layout w lo lt lu le ld outer dt du de dd ->
    du !! "height" = Some (VInt h) ->
    du !! "width" = Some (VInt wd) ->
    attached_tokenizer model = Some t ->
    unet model = Val u ->
    vae model = Val v ->
    (some_controlnets cn = true ->
       is_Some (du !! "batch_size") /\ exists te, text_encoder model = Val te) ->
    exists w' outer' dt' du' de' dd',
      infer_stable_diffusion_shapes_from_diffusers (VRef lo) model cn w = (Return (VRef lo), w')
      /\ shapes_layout w' lo lt lu le ld outer' dt' du' de' dd'
      /\ disk w' = disk w /\ log w' = log w
      /\ (forall l, l ∉ [lo; lt; lu; le; ld] -> is_Some (heap w !! l) ->
            heap w' !! l = heap w !! l)
      /\ (forall k, k <> "sequence_length" -> dt' !! k = dt !! k)
      /\ (forall k, k ∉ ["sequence_length"; "num_channels"; "height"; "width";
                         "vae_scale_factor"] -> du' !! k = du !! k)
      /\ (forall k, k ∉ ["num_channels"; "height"; "width"] ->
            de' !! k = de !! k /\ dd' !! k = dd !! k)
      /\ (forall k, k <> "text_encoder_2" -> k <> "controlnet" -> outer' !! k = outer !! k)
      /\ (some_controlnets cn = false ->
            dom (heap w') = dom (heap w)
            /\ outer' !! "controlnet" = outer !! "controlnet"
            /\ du' !! "vae_scale_factor" = du !! "vae_scale_factor").
Proof.
  intros w lo lt lu le ld outer dt du de dd model cn t u v h wd
         Hlay Hh Hw Htok Hu Hv Hcn.
  destruct (ShapeResolverFacts.floordiv_scale_total h v) as [sh Hsh].
  destruct (ShapeResolverFacts.floordiv_scale_total wd v) as [sw Hsw].
  destruct (infer_run_full _ _ _ _ _ _ _ _ _ _ _ _ _ _ _ _ _ _ _ _
              Hlay Hh Hw Hsh Hsw Htok Hu Hv Hcn)
    as (w' & outer' & dt' & du' & de' & dd' & Hrun & Hdisk & Hlog & Hlay' & Hdt' & Hdu'
        & Hde' & Hdd' & Hkeep & _ & Hframe & Hnone & _).
  exists w', outer', dt', du', de', dd'.
  split; [exact Hrun|]. split; [exact Hlay'|]. split; [exact Hdisk|]. split; [exact Hlog|].
  split.
  { intros l Hl. rewrite !not_elem_of_cons in Hl. apply Hframe; tauto. }
  split.
  { intros k Hk. subst dt'. now rewrite lookup_insert_ne by congruence. }
  split.
  { intros k Hk. rewrite !not_elem_of_cons in Hk. subst du'. unfold update_items. simpl.
    destruct (some_controlnets cn); rewrite !lookup_insert_ne by (intros E; symmetry in E; tauto);
      reflexivity. }
  split.
  { intros k Hk. rewrite !not_elem_of_cons in Hk. subst de' dd'. unfold update_items. simpl.
    rewrite !lookup_insert_ne by (intros E; symmetry in E; tauto). auto. }
  split; [exact Hkeep|].
  intros Hfalse. destruct (Hnone Hfalse) as [Hentry Hdom].
  split; [exact Hdom|]. split; [exact Hentry|].
  subst du'. rewrite Hfalse. unfold update_items. simpl.
  now rewrite !lookup_insert_ne by discriminate.
Qed.

(** X19: shape inference is not idempotent.  Run a second time on the
    mapping it has just updated, it divides again: with compression
    factor [s], the unet (and vae_decoder) height and width go from
    [h // s] to [h // s // s], and the vae_encoder, which held the
    caller's [h] after the first run, is given [h // s]. *)
Theorem X19_shape_inference_twice :
  forall w lo lt lu le ld outer dt du de dd model cn t u v (h wd : Z),
    shapes_layout w lo lt lu le ld outer dt du de dd ->
    du !! "height" = Some (VInt h) ->
    du !! "width" = Some (VInt wd) ->
    attached_tokenizer model = Some t ->
    unet model = Val u ->
    vae model = Val v ->
    block_out_channels v <> [] ->
    (some_controlnets cn = true ->
       is_Some (du !! "batch_size") /\ exists te, text_encoder model = Val te) ->
    let s := 2 ^ (Z.of_nat (length (block_out_channels v)) - 1) in
    exists w' w'',
      infer_stable_diffusion_shapes_from_diffusers (VRef lo) model cn w = (Return (VRef lo), w')
      /\ infer_stable_diffusion_shapes_from_diffusers (VRef lo) model cn w'
         = (Return (VRef lo), w'')
      /\ dimension w' lu "height" = Some (VInt (h / s))
      /\ dimension w' lu "width" = Some (VInt (wd / s))
      /\ dimension w' le "height" = Some (VInt h)
      /\ dimension w' le "width" = Some (VInt wd)
      /\ dimension w'' lu "height" = Some (VInt (h / s / s))
      /\ dimension w'' lu "width" = Some (VInt (wd / s / s))
      /\ dimension w'' ld "height" = Some (VInt (h / s / s))
      /\ dimension w'' le "height" = Some (VInt (h / s))
      /\ dimension w'' le "width" = Some (VInt (wd / s)).
Proof.
  intros w lo lt lu le ld outer dt du de dd model cn t u v h wd
         Hlay Hh Hw Htok Hu Hv Hblocks Hcn s.
  destruct (infer_run_full _ _ _ _ _ _ _ _ _ _ _ _ _ _ _ _ _ _ _ _
              Hlay Hh Hw (floordiv_scale_int h v Hblocks) (floordiv_scale_int wd v Hblocks)
              Htok Hu Hv Hcn)
    as (w' & outer' & dt' & du' & de' & dd' & Hrun & _ & _ & Hlay' & _ & Hdu' & Hde'
        & _ & _).
  fold s in Hdu'.
  assert (du' !! "height" = Some (VInt (h / s)) /\ du' !! "width" = Some (VInt (wd / s))
          /\ du' !! "batch_size" = du !! "batch_size") as (Hh' & Hw' & Hbs').
  { subst du'. unfold update_items. simpl.
    destruct (some_controlnets cn); (split; [|split]); key_lookup. }
  assert (some_controlnets cn = true ->
          is_Some (du' !! "batch_size") /\ exists te, text_encoder model = Val te) as Hcn'.
  { intros Hc. rewrite Hbs'. exact (Hcn Hc). }
  destruct (infer_run_full _ _ _ _ _ _ _ _ _ _ _ _ _ _ _ _ _ _ _ _
              Hlay' Hh' Hw' (floordiv_scale_int (h / s) v Hblocks)
              (floordiv_scale_int (wd / s) v Hblocks) Htok Hu Hv Hcn')
    as (w'' & outer'' & dt'' & du'' & de'' & dd'' & Hrun' & _ & _ & Hlay'' & _ & Hdu''
        & Hde'' & Hdd'' & _).
  fold s in Hdu'', Hdd''.
  exists w', w''. split; [exact Hrun|]. split; [exact Hrun'|].
  destruct Hlay' as [_ _ _ _ _ _ Hlu' Hle' _ _].
  destruct Hlay'' as [_ _ _ _ _ _ Hlu'' Hle'' Hld'' _].
  unfold dimension. rewrite Hlu', Hle', Hlu'', Hle'', Hld''.
  split; [exact Hh'|]. split; [exact Hw'|].
  subst de' du'' de'' dd''. unfold update_items. simpl.
  destruct (some_controlnets cn); repeat (split; [key_lookup|]); key_lookup.
Qed.

Lemma example_layout :
  shapes_layout Examples.shapes_world 1%positive 2%positive 3%positive 4%positive 5%positive
    Examples.sd_kwargs (<["batch_size" := VInt 1]> ∅)
    (Examples.component_shapes 1 64 64) (Examples.component_shapes 1 64 64)
    (Examples.component_shapes 1 64 64).
Proof.
  constructor; try reflexivity.
  apply (bool_decide_unpack _). vm_compute. exact I.
Qed.

Lemma X16_witness :
  exists w',
    infer_stable_diffusion_shapes_from_diffusers (VRef 1%positive) ShapeExamples.xl_pipeline
      None Examples.shapes_world = (Return (VRef 1%positive), w')
    /\ getitem (VRef 1%positive) "text_encoder" w' = (Return (VRef 2%positive), w')
    /\ getitem (VRef 1%positive) "text_encoder_2" w' = (Return (VRef 2%positive), w').
Proof.
  destruct (X16_text_encoder_2_shares_text_encoder _ _ _ _ _ _ _ _ _ _ _
              ShapeExamples.xl_pipeline None
              {| model_max_length := 77 |} {| unet_in_channels := 4 |}
              {| vae_in_channels := 3; latent_channels := 4;
                 block_out_channels := Examples.standard_blocks |}
              64 64 example_layout eq_refl eq_refl eq_refl eq_refl eq_refl
              ltac:(discriminate) eq_refl)
    as (w' & Hrun & Hte & Hte2 & _).
  exists w'. auto.
Defined.

Lemma X17_witness :
  exists w' outer' lc (dc : gmap string pyval),
    infer_stable_diffusion_shapes_from_diffusers (VRef 1%positive)
      (Examples.pipeline Examples.standard_blocks) ShapeExamples.canny Examples.shapes_world
    = (Return (VRef 1%positive), w')
    /\ heap w' !! 1%positive = Some outer'
    /\ outer' !! "controlnet" = Some (VRef lc)
    /\ heap Examples.shapes_world !! lc = None
    /\ heap w' !! lc = Some dc
    /\ dc !! "batch_size" = Some (VInt 1)
    /\ dc !! "sequence_length" = Some (VInt 77)
    /\ dc !! "encoder_hidden_size" = Some (VInt 768).
Proof.
  destruct (X17_controlnet_shapes _ _ _ _ _ _ _ _ _ _ _
              (Examples.pipeline Examples.standard_blocks) ShapeExamples.canny
              {| model_max_length := 77 |} {| unet_in_channels := 4 |}
              {| vae_in_channels := 3; latent_channels := 4;
                 block_out_channels := Examples.standard_blocks |}
              64 64 (VInt 1) {| hidden_size := 768 |}
              example_layout eq_refl eq_refl eq_refl eq_refl eq_refl eq_refl eq_refl eq_refl)
    as (w' & outer' & du' & lc & dc & sh & sw & Hrun & Ho & _ & Hentry & Hfresh & Hdc & _
        & Hbs & Hseq & _ & _ & _ & _ & _ & _ & _ & _ & _ & Hhidden).
  exists w', outer', lc, dc. tauto.
Defined.

Lemma X18_witness :
  exists w' du',
    infer_stable_diffusion_shapes_from_diffusers (VRef 1%positive)
      (Examples.pipeline Examples.standard_blocks) None Examples.shapes_world
    = (Return (VRef 1%positive), w')
    /\ heap w' !! 3%positive = Some du'
    /\ du' !! "batch_size" = Some (VInt 1)
    /\ dom (heap w') = dom (heap Examples.shapes_world).
Proof.
  destruct (X18_shape_inference_frame _ _ _ _ _ _ _ _ _ _ _
              (Examples.pipeline Examples.standard_blocks) None
              {| model_max_length := 77 |} {| unet_in_channels := 4 |}
              {| vae_in_channels := 3; latent_channels := 4;
                 block_out_channels := Examples.standard_blocks |}
              64 64 example_layout eq_refl eq_refl eq_refl eq_refl eq_refl
              ltac:(discriminate))
    as (w' & outer' & dt' & du' & de' & dd' & Hrun & Hlay' & _ & _ & _ & _ & Hdu & _ & _
        & Hnone).
  exists w', du'. split; [exact Hrun|]. split; [apply Hlay'|].
  split.
  - rewrite (Hdu "batch_size"); [reflexivity|].
    rewrite !not_elem_of_cons. repeat split; try discriminate. apply not_elem_of_nil.
  - exact (proj1 (Hnone eq_refl)).
Defined.

Lemma X19_witness :
  exists w' w'',
    infer_stable_diffusion_shapes_from_diffusers (VRef 1%positive)
      (Examples.pipeline Examples.tiny_blocks) None Examples.shapes_world
    = (Return (VRef 1%positive), w')
    /\ infer_stable_diffusion_shapes_from_diffusers (VRef 1%positive)
         (Examples.pipeline Examples.tiny_blocks) None w'
       = (Return (VRef 1%positive), w'')
    /\ dimension w' 3%positive "height" = Some (VInt (64 / 2 ^ 1))
    /\ dimension w'' 3%positive "height" = Some (VInt (64 / 2 ^ 1 / 2 ^ 1))
    /\ dimension w'' 4%positive "height" = Some (VInt (64 / 2 ^ 1)).
Proof.
  destruct (X19_shape_inference_twice _ _ _ _ _ _ _ _ _ _ _
              (Examples.pipeline Examples.tiny_blocks) None
              {| model_max_length := 77 |} {| unet_in_channels := 4 |} Examples.tiny_vae
              64 64 example_layout eq_refl eq_refl eq_refl eq_refl eq_refl
              ltac:(discriminate) ltac:(discriminate))
    as (w' & w'' & Hrun & Hrun' & Hh' & _ & _ & _ & Hh'' & _ & _ & He'' & _).
  exists w', w''. auto.
Defined.

(** The statements up to the number of channels of the unet: with a
    tokenizer, a unet and a VAE attached they read the model only. *)
Lemma sequence_length_read model t (K : Z -> M pyval) w :
  attached_tokenizer model = Some t ->
  (let! tok := attribute "tokenizer" (tokenizer model) in
   let! sequence_length :=
     match tok with
     | Some t => ret (model_max_length t)
     | None =>
       match tokenizer_2 model with
       | Val t2 => ret (model_max_length t2)
       | _ => raise AttributeError (Msg "Cannot infer sequence_length as there is no tokenizer as attribute.")
       end
     end in K sequence_length) w = K (model_max_length t) w.
Proof.
  intros Htok. unfold attached_tokenizer in Htok.
  destruct (tokenizer model) as [| |t1]; [discriminate| |].
  - destruct (tokenizer_2 model) as [| |t2]; try discriminate. now inversion Htok.
  - now inversion Htok.
Qed.

Lemma floordiv_none_scale v :
  exists m, floordiv VNone (vae_scale_factor v) = Raise (mk_exn TypeError m).
Proof.
  rewrite ShapeResolverFacts.vae_scale_factor_is_power. unfold pow2.
  destruct (Z.leb 0 _); eexists; reflexivity.
Qed.

(** X20: the reads come first.  With a tokenizer, a unet and a VAE
    attached, shape inference that finds no [unet] entry in
    [input_shapes], no [height] or no [width] in the unet shapes, or a
    height that is [None], raises ([KeyError] for a missing entry,
    [TypeError] for [None]) with the world exactly as it was: nothing
    has been written to the caller's mapping yet. *)
Theorem X20_shape_inference_fails_before_writing :
  forall lo (outer : gmap string pyval) model cn w t u v,
    heap w !! lo = Some outer ->
    attached_tokenizer model = Some t ->
    unet model = Val u ->
    vae model = Val v ->
    (outer !! "unet" = None ->
     infer_stable_diffusion_shapes_from_diffusers (VRef lo) model cn w
     = (Raise (mk_exn KeyError (MsgKey "unet")), w))
    /\ (forall lu (du : gmap string pyval),
          outer !! "unet" = Some (VRef lu) ->
          heap w !! lu = Some du ->
          (du !! "height" = None ->
           infer_stable_diffusion_shapes_from_diffusers (VRef lo) model cn w
           = (Raise (mk_exn KeyError (MsgKey "height")), w))
          /\ (du !! "height" = Some VNone ->
              exists m,
                infer_stable_diffusion_shapes_from_diffusers (VRef lo) model cn w
                = (Raise (mk_exn TypeError m), w))
          /\ (forall h : Z,
                du !! "height" = Some (VInt h) ->
                du !! "width" = None ->
                infer_stable_diffusion_shapes_from_diffusers (VRef lo) model cn w
                = (Raise (mk_exn KeyError (MsgKey "width")), w))).
Proof.
  intros lo outer model cn w t u v Ho Htok Hunet Hvae.
  unfold infer_stable_diffusion_shapes_from_diffusers.
  rewrite (sequence_length_read model t _ w Htok).
  rewrite Hunet, Hvae. cbn [component].
  erewrite bind_Return by reflexivity.
  erewrite bind_Return by reflexivity.
  split.
  - intros Hnone. erewrite bind_Raise by (eapply getitem_missing; eassumption). reflexivity.
  - intros lu du Hu Hdu.
    erewrite bind_Return by (eapply getitem_Return; eassumption).
    split; [|split].
    + intros Hnone.
      erewrite bind_Raise by (eapply getitem_missing; eassumption). reflexivity.
    + intros Hh. destruct (floordiv_none_scale v) as [m Hm]. exists m.
      erewrite bind_Return by (eapply getitem_Return; eassumption).
      erewrite bind_Raise by (unfold lift; rewrite Hm; reflexivity). reflexivity.
    + intros h Hh Hw.
      destruct (ShapeResolverFacts.floordiv_scale_total h v) as [sh Hsh].
      erewrite bind_Return by (eapply getitem_Return; eassumption).
      erewrite bind_Return by (unfold lift; rewrite Hsh; reflexivity).
      erewrite bind_Return by (eapply getitem_Return; eassumption).
      erewrite bind_Raise by (eapply getitem_missing; eassumption). reflexivity.
Qed.

(** X21: the writes are not undone.  When [input_shapes] has no
    [vae_decoder] entry, shape inference raises [KeyError] for it only
    after the text encoder, unet and vae encoder shapes have been
    updated in place: the caller's mapping is left half derived, the
    unet holding the scaled height and the vae encoder its number of
    channels. *)
Theorem X21_shape_inference_not_atomic :
  forall w lo lt lu le (outer dt du de : gmap string pyval) model cn t u v (h wd : Z),
    heap w !! lo = Some outer ->
    outer !! "text_encoder" = Some (VRef lt) ->
    outer !! "unet" = Some (VRef lu) ->
    outer !! "vae_encoder" = Some (VRef le) ->
    outer !! "vae_decoder" = None ->
    heap w !! lt = Some dt ->
    heap w !! lu = Some du ->
    heap w !! le = Some de ->
    NoDup [lo; lt; lu; le] ->
    du !! "height" = Some (VInt h) ->
    du !! "width" = Some (VInt wd) ->
    attached_tokenizer model = Some t ->
    unet model = Val u ->
    vae model = Val v ->
    exists w' sh,
      infer_stable_diffusion_shapes_from_diffusers (VRef lo) model cn w
      = (Raise (mk_exn KeyError (MsgKey "vae_decoder")), w')
      /\ floordiv (VInt h) (vae_scale_factor v) = Return sh
      /\ dimension w lt "sequence_length" = dt !! "sequence_length"
      /\ dimension w' lt "sequence_length" = Some (VInt (model_max_length t))
      /\ dimension w' lu "height" = Some sh
      /\ dimension w' le "num_channels" = Some (VInt (vae_in_channels v)).
Proof.
  intros w lo lt lu le outer dt du de model cn t u v h wd
         Ho Hte Hu Hve Hvd Hdt Hdu Hde Hnd Hh Hw Htok Hunet Hvae.
  assert (lo <> lt /\ lo <> lu /\ lo <> le /\ lt <> lu /\ lt <> le /\ lu <> le)
    as (?&?&?&?&?&?).
  { rewrite !NoDup_cons, !not_elem_of_cons in Hnd. tauto. }
  destruct (ShapeResolverFacts.floordiv_scale_total h v) as [sh Hsh].
  destruct (ShapeResolverFacts.floordiv_scale_total wd v) as [sw Hsw].
  unfold infer_stable_diffusion_shapes_from_diffusers.
  rewrite (sequence_length_read model t _ w Htok).
  set (L := model_max_length t).
  rewrite Hunet, Hvae. cbn [component].
  erewrite bind_Return by reflexivity.
  erewrite bind_Return by reflexivity.
  do 2 step_getitem.
  erewrite bind_Return by (unfold lift; rewrite Hsh; reflexivity).
  do 2 step_getitem.
  erewrite bind_Return by (unfold lift; rewrite Hsw; reflexivity).
  step_getitem. step_update.
  set (outer1 := if hasattr (text_encoder_2 model)
                 then <["text_encoder_2" := VRef lt]> outer else outer).
  assert (outer1 !! "unet" = Some (VRef lu) /\ outer1 !! "vae_encoder" = Some (VRef le)
          /\ outer1 !! "vae_decoder" = None) as (Hu1 & Hve1 & Hvd1).
  { unfold outer1. destruct (hasattr (text_encoder_2 model));
      rewrite ?lookup_insert_ne by discriminate; auto. }
  assert (((if hasattr (text_encoder_2 model)
            then let! te := getitem (VRef lo) "text_encoder" in
                 setitem (VRef lo) "text_encoder_2" te
            else ret tt)
             (with_heap (<[lt:=update_items dt [("sequence_length", VInt L)]]> (heap w)) w)
           = (Return tt,
              with_heap (<[lo:=outer1]>
                           (<[lt:=update_items dt [("sequence_length", VInt L)]]> (heap w))) w)))
    as Hte2.
  { unfold outer1. destruct (hasattr (text_encoder_2 model)).
    - step_getitem. erewrite setitem_Return by heap_lookup. reflexivity.
    - unfold ret. f_equal. unfold with_heap. f_equal.
      symmetry. apply insert_id. heap_lookup. }
  erewrite bind_Return by exact Hte2. clear Hte2.
  step_getitem. step_update.
  destruct (some_controlnets cn).
  - rewrite bind_assoc. step_getitem. step_setitem.
    step_getitem. step_update.
    erewrite bind_Raise by (eapply getitem_missing; [heap_lookup | key_lookup]).
    do 2 eexists. split; [reflexivity|]. split; [exact Hsh|].
    unfold dimension. rewrite Hdt. cbn [heap with_heap].
    split; [reflexivity|].
    split; [rewrite !lookup_insert_ne by congruence; rewrite lookup_insert_eq; key_lookup|].
    split; [rewrite !lookup_insert_ne by congruence; rewrite lookup_insert_eq; key_lookup|].
    rewrite lookup_insert_eq. key_lookup.
  - erewrite bind_Return by reflexivity.
    step_getitem. step_update.
    erewrite bind_Raise by (eapply getitem_missing; [heap_lookup | key_lookup]).
    do 2 eexists. split; [reflexivity|]. split; [exact Hsh|].
    unfold dimension. rewrite Hdt. cbn [heap with_heap].
    split; [reflexivity|].
    split; [rewrite !lookup_insert_ne by congruence; rewrite lookup_insert_eq; key_lookup|].
    split; [rewrite !lookup_insert_ne by congruence; rewrite lookup_insert_eq; key_lookup|].
    rewrite lookup_insert_eq. key_lookup.
Qed.

Lemma X20_witness :
  infer_stable_diffusion_shapes_from_diffusers (VRef 1%positive)
    (Examples.pipeline Examples.standard_blocks) None ShapeExamples.shapes_without_size
  = (Raise (mk_exn KeyError (MsgKey "height")), ShapeExamples.shapes_without_size).
Proof.
  exact (proj1 (proj2 (X20_shape_inference_fails_before_writing 1%positive
                         (<["unet" := VRef 2%positive]> ∅)
                         (Examples.pipeline Examples.standard_blocks) None
                         ShapeExamples.shapes_without_size
                         {| model_max_length := 77 |} {| unet_in_channels := 4 |}
                         {| vae_in_channels := 3; latent_channels := 4;
                            block_out_channels := Examples.standard_blocks |}
                         eq_refl eq_refl eq_refl eq_refl)
                  2%positive (<["batch_size" := VInt 1]> ∅) eq_refl eq_refl) eq_refl).
Defined.

Lemma X21_witness :
  exists w',
    infer_stable_diffusion_shapes_from_diffusers (VRef 1%positive)
      (Examples.pipeline Examples.standard_blocks) None ShapeExamples.shapes_without_decoder
    = (Raise (mk_exn KeyError (MsgKey "vae_decoder")), w')
    /\ dimension ShapeExamples.shapes_without_decoder 2%positive "sequence_length" = None
    /\ dimension w' 2%positive "sequence_length" = Some (VInt 77)
    /\ dimension w' 4%positive "num_channels" = Some (VInt 3).
Proof.
  destruct (X21_shape_inference_not_atomic ShapeExamples.shapes_without_decoder
              1%positive 2%positive 3%positive 4%positive
              (<["text_encoder" := VRef 2%positive]> (<["unet" := VRef 3%positive]>
                 (<["vae_encoder" := VRef 4%positive]> ∅)))
              (<["batch_size" := VInt 1]> ∅)
              (Examples.component_shapes 1 64 64) (Examples.component_shapes 1 64 64)
              (Examples.pipeline Examples.standard_blocks) None
              {| model_max_length := 77 |} {| unet_in_channels := 4 |}
              {| vae_in_channels := 3; latent_channels := 4;
                 block_out_channels := Examples.standard_blocks |}
              64 64 eq_refl eq_refl eq_refl eq_refl eq_refl eq_refl eq_refl eq_refl
              ltac:(apply (bool_decide_unpack _); vm_compute; exact I)
              eq_refl eq_refl eq_refl eq_refl eq_refl)
    as (w' & sh & Hrun & _ & Hbefore & Hseq & _ & Hchannels).
  exists w'. split; [exact Hrun|]. split; [exact Hbefore|]. split; [exact Hseq | exact Hchannels].
Defined.

Lemma floordiv_by_half (x : Z) :
  floordiv (VInt x) (VFloat (1 # 2)) = Return (VFloat (inject_Z (2 * x))).
Proof.
  unfold floordiv. cbn [as_number as_int fmap option_fmap option_map].
  change (Qeq_bool (1 # 2) 0) with false. cbv iota. do 3 f_equal.
  rewrite (Qfloor_comp _ (inject_Z (2 * x))); [apply Qfloor_Z|].
  unfold Qeq, Qdiv, Qmult, Qinv, inject_Z. simpl. lia.
Qed.

(** X22: the fallback [or 8] of the compression factor never applies,
    not even for a VAE that declares no block: there the factor is the
    float [2 ** -1 = 0.5], which is true, so that, for a height and a
    width that convert to floats exactly (up to 2^53 in magnitude), the
    unet and vae_decoder are given twice the caller's height and width,
    as floats, the vae_encoder keeping the caller's integers. *)
Theorem X22_vae_without_blocks :
  forall w lo lt lu le ld outer dt du de dd model cn t u v (h wd : Z),
    shapes_layout w lo lt lu le ld outer dt du de dd ->
    du !! "height" = Some (VInt h) ->
    du !! "width" = Some (VInt wd) ->
    Z.abs h <= 2 ^ 53 ->
    Z.abs wd <= 2 ^ 53 ->
    attached_tokenizer model = Some t ->
    unet model = Val u ->
    vae model = Val v ->
    block_out_channels v = [] ->
    (some_controlnets cn = true ->
       is_Some (du !! "batch_size") /\ exists te, text_encoder model = Val te) ->
    vae_scale_factor v = VFloat (1 # 2)
    /\ exists w',
         infer_stable_diffusion_shapes_from_diffusers (VRef lo) model cn w
         = (Return (VRef lo), w')
         /\ dimension w' lu "height" = Some (VFloat (inject_Z (2 * h)))
         /\ dimension w' lu "width" = Some (VFloat (inject_Z (2 * wd)))
         /\ dimension w' ld "height" = Some (VFloat (inject_Z (2 * h)))
         /\ dimension w' ld "width" = Some (VFloat (inject_Z (2 * wd)))
         /\ dimension w' le "height" = Some (VInt h)
         /\ dimension w' le "width" = Some (VInt wd).
Proof.
  intros w lo lt lu le ld outer dt du de dd model cn t u v h wd
         Hlay Hh Hw _ _ Htok Hu Hv Hblocks Hcn.
  assert (vae_scale_factor v = VFloat (1 # 2)) as Hscale.
  { unfold vae_scale_factor. rewrite Hblocks. reflexivity. }
  split; [exact Hscale|].
  assert (forall x, floordiv (VInt x) (vae_scale_factor v)
                    = Return (VFloat (inject_Z (2 * x)))) as Hdiv.
  { intros x. rewrite Hscale. apply floordiv_by_half. }
  destruct (infer_run_full _ _ _ _ _ _ _ _ _ _ _ _ _ _ _ _ _ _ _ _
              Hlay Hh Hw (Hdiv h) (Hdiv wd) Htok Hu Hv Hcn)
    as (w' & outer' & dt' & du' & de' & dd' & Hrun & _ & _ & Hlay' & _ & Hdu' & Hde'
        & Hdd' & _).
  exists w'. split; [exact Hrun|].
  destruct Hlay' as [_ _ _ _ _ _ Hlu' Hle' Hld' _].
  unfold dimension. rewrite Hlu', Hle', Hld'. subst du' de' dd'.
  destruct (some_controlnets cn); repeat (split; [key_lookup|]); key_lookup.
Qed.

Lemma X22_witness :
  vae_scale_factor {| vae_in_channels := 3; latent_channels := 4; block_out_channels := [] |}
  = VFloat (1 # 2)
  /\ exists w',
       infer_stable_diffusion_shapes_from_diffusers (VRef 1%positive) (Examples.pipeline [])
         None Examples.shapes_world = (Return (VRef 1%positive), w')
       /\ dimension w' 3%positive "height" = Some (VFloat (inject_Z (2 * 64)))
       /\ dimension w' 4%positive "height" = Some (VInt 64).
Proof.
  destruct (X22_vae_without_blocks _ _ _ _ _ _ _ _ _ _ _
              (Examples.pipeline []) None
              {| model_max_length := 77 |} {| unet_in_channels := 4 |}
              {| vae_in_channels := 3; latent_channels := 4; block_out_channels := [] |}
              64 64 example_layout eq_refl eq_refl
              ltac:(apply Z.leb_le; reflexivity) ltac:(apply Z.leb_le; reflexivity)
              eq_refl eq_refl eq_refl eq_refl
              ltac:(discriminate))
    as (Hscale & w' & Hrun & Hh & _ & _ & _ & He & _).
  split; [exact Hscale|]. exists w'. auto.
Defined.

(** *** Normalisation *)

(** Whatever normalisation of the stable-diffusion arguments does after
    the flag has been taken out, the argument mapping stays as the [pop]
    left it. *)
Lemma normalize_leaves_popped_args names build l (d : gmap string pyval) flag w r w' :
  heap w !! l = Some d ->
  d !! "do_classifier_free_guidance" = Some flag ->
  normalize_stable_diffusion_input_shapes names build (VRef l) w = (r, w') ->
  heap w' !! l = Some (delete "do_classifier_free_guidance" d).
Proof.
  intros Hl Hflag Hrun.
  rewrite (ShapeResolverFacts.normalize_stable_diffusion_run names build l d flag w Hl Hflag)
    in Hrun.
  cbv zeta in Hrun.
  set (w1 := with_heap (<[l := delete "do_classifier_free_guidance" d]> (heap w)) w) in *.
  assert (heap w1 !! l = Some (delete "do_classifier_free_guidance" d)) as Hl1.
  { unfold w1. rewrite heap_with_heap. apply lookup_insert_eq. }
  case_decide.
  - unfold bind at 1 in Hrun. unfold lift at 1 in Hrun.
    destruct (comprehension _ _) as [e|m]; [inversion Hrun; subst; exact Hl1|].
    unfold bind at 1 in Hrun. unfold lift at 1 in Hrun.
    destruct (build flag _) as [e|shapes]; [inversion Hrun; subst; exact Hl1|].
    destruct (ShapeResolverFacts.alloc_nested_frame shapes w1)
      as (l' & w2 & Halloc & Hfresh & Hframe).
    rewrite Halloc in Hrun. inversion Hrun; subst r w'.
    apply Hframe. exact Hl1.
  - inversion Hrun; subst. exact Hl1.
Qed.

(** X23: normalisation of the stable-diffusion arguments consumes the
    [do_classifier_free_guidance] entry.  On a mapping without it, the
    function raises [KeyError] and leaves the world as it was; and after
    any run on a mapping that had it, successful or not, a second run on
    the same mapping raises that [KeyError]: the arguments can be
    normalised once only. *)
Theorem X23_normalisation_is_single_use :
  forall names build l (d : gmap string pyval) w,
    heap w !! l = Some d ->
    (d !! "do_classifier_free_guidance" = None ->
     normalize_stable_diffusion_input_shapes names build (VRef l) w
     = (Raise (mk_exn KeyError (MsgKey "do_classifier_free_guidance")), w))
    /\ (forall flag r w',
          d !! "do_classifier_free_guidance" = Some flag ->
          normalize_stable_diffusion_input_shapes names build (VRef l) w = (r, w') ->
          normalize_stable_diffusion_input_shapes names build (VRef l) w'
          = (Raise (mk_exn KeyError (MsgKey "do_classifier_free_guidance")), w')).
Proof.
  intros names build l d w Hl.
  assert (forall (d0 : gmap string pyval) w0,
            heap w0 !! l = Some d0 -> d0 !! "do_classifier_free_guidance" = None ->
            normalize_stable_diffusion_input_shapes names build (VRef l) w0
            = (Raise (mk_exn KeyError (MsgKey "do_classifier_free_guidance")), w0)) as Hmissing.
  { intros d0 w0 Hl0 Hnone. unfold normalize_stable_diffusion_input_shapes.
    erewrite bind_Raise by (eapply pop_missing; eassumption). reflexivity. }
  split.
  - apply Hmissing. exact Hl.
  - intros flag r w' Hflag Hrun.
    eapply Hmissing.
    + eapply normalize_leaves_popped_args; eassumption.
    + apply lookup_delete_eq.
Qed.

Lemma X23_witness :
  exists r w',
    normalize_stable_diffusion_input_shapes Examples.builder_arg_names Examples.builder
      (VRef 1%positive) (Examples.args_world Examples.args_with_size) = (Return r, w')
    /\ normalize_stable_diffusion_input_shapes Examples.builder_arg_names Examples.builder
         (VRef 1%positive) w'
       = (Raise (mk_exn KeyError (MsgKey "do_classifier_free_guidance")), w').
Proof.
  destruct (normalize_stable_diffusion_input_shapes Examples.builder_arg_names
              Examples.builder (VRef 1%positive)
              (Examples.args_world Examples.args_with_size)) as [r w'] eqn:Hrun.
  assert (exists x, r = Return x) as [x ->].
  { vm_compute in Hrun. inversion Hrun. eauto. }
  exists x, w'. split; [reflexivity|].
  exact (proj2 (X23_normalisation_is_single_use Examples.builder_arg_names Examples.builder
                  1%positive Examples.args_with_size
                  (Examples.args_world Examples.args_with_size) eq_refl)
           (VBool true) (Return x) w' eq_refl Hrun).
Defined.







End ShapeInferenceFacts.
